(* ===== verification/_CoqProject ===== *)
-Q . S2P
Prelude.v
StableSort.v
JsValue.v
Schema.v
Store.v
Auth.v
Fixtures.v
Accounts.v
Students.v
ClientView.v
Views.v
System.v
Browser.v
