(* ===== verification/Prelude.v ===== *)
(** * A verification development of the college-admission CRM

    The program (Next.js, TypeScript, Prisma) is a staff-facing admissions
    CRM.  Its logic lives in a handful of server actions, server pages and
    client components:

    - [src/auth.ts]: the credential check ([authorize]) and the [session]
      callback, which re-reads the caller's role from the database on every
      request;
    - [src/app/actions.ts]: the server actions [uploadStudents],
      [updateStudent], [createFaculty], [deleteFaculty],
      [adminResetPassword], [getDashboardStats], [updateUserRole],
      [updateOwnPassword] and the login action [authenticate];
    - the server pages: [src/app/dashboard/students/page.tsx] (the calling
      list and its visibility filter), [src/app/dashboard/page.tsx] (the
      dashboard's cards and charts), [src/app/dashboard/faculty/page.tsx]
      (the faculty page, its guard and its create form) and
      [src/app/dashboard/layout.tsx] (the redirect and the sidebar links);
    - the client components: [src/app/dashboard/faculty/faculty-client.tsx]
      (the rows with their [canManage] controls, the role select, the
      reset dialog, the delete form),
      [src/app/dashboard/students/client-view.tsx] (search, sort, table,
      update dialog, spreadsheet upload),
      [src/components/dashboard/dashboard-charts.tsx] (the pie charts),
      [src/components/user-profile-dialog.tsx] (the password change, the
      dialog's open state and the Sign Out form) and
      [src/app/login/page.tsx] (the login form and its submit button);
    - [src/prisma/seed.ts]: the seed that creates the first Super Admin,
      and its exit code.

    The browser ties them together: it requests a path with its session
    cookie, the layout runs before every dashboard page, and it follows
    the [redirect] calls of the layout and the pages until a screen is
    rendered; signing in sets the cookie and signing out deletes it.

    Every action runs against the Prisma store (users and students) and a
    session token: it first resolves the session ([auth()], which re-reads
    the role), checks the caller's role, then performs at most one write.
    The pages render what the actions and queries return; the client
    components post forms to the actions and show a toast.

    ** Library layout (files in dependency order)

    - [Prelude.v] (this file): the state/error monad [SE] in which every
      action is written ([se_ret], [se_bind], [se_throw], [se_get],
      [se_put], notation [let* x := m in k] in [crm_scope]), [se_catch]
      for [try]/[catch], [run_store],
      the predicate transformer [se_preserves] with its bind rule and the
      tactic [se_preserves_tac], the tactics [se_inv], [act_split],
      [bool_hyps], the hint database [crm] and shared list lemmas.
    - [StableSort.v]: [Array.prototype.sort] with a comparator as a stable
      insertion sort ([insert_by], [sort_by]): permutation, sortedness and
      stability, generic in the element type (Section [StableSort]).
    - [JsValue.v] (Module [Js]): the JavaScript values a spreadsheet row
      holds, truthiness and [||], [String(x)], [String.prototype.trim],
      [FormData.get] and [===] on nullable strings.
    - [Schema.v]: the enums [Role], [CallStatus], [Interest] with their
      string encodings and parsers, the [User] and [Student] rows, the
      store [DB], the thrown errors [Exn] and the replies [Reply].
    - [Store.v] (Module [Prisma]): the Prisma calls the sources make
      ([findUnique], [findMany], [create], [createMany] with
      [skipDuplicates], [update], [delete], [count], [groupBy]) as [SE]
      operations, the store invariant [db_wf], and each write as a
      predicate transformer ([se_preserves] lemmas in [crm]).
    - [Auth.v] (Module [Auth]): session tokens, the [session] callback
      ([auth]), [getCurrentUser], bcrypt as a symbolic salted hash,
      [authorize] and the login action [authenticate] (Section
      [Credentials], zod's e-mail check a variable).
    - [Fixtures.v]: a concrete well-formed store with one user of each role
      and three students, and their tokens, for the witnesses.
    - [Accounts.v]: the specification's policy (Module [Spec]:
      [canManageAccount], [canChangeRole], [canCreateAccount]); the account
      actions, the faculty page, [handleRoleChange] and the profile
      dialog's [profileSubmit] (Module [Accounts]); their refinement
      theorems, the inversion lemmas the system proofs use (what a
      successful run can have written), the runs that succeed, and sign-in
      after an account change.
    - [Students.v] (Module [Students]): the row mapping and filter of
      [uploadStudents], the action, [updateStudent], the calling-list page,
      [getDashboardStats] and the dashboard's "Interested" card, with their
      functional specifications.
    - [ClientView.v] (Module [ClientView]): the search filter, the
      comparator of the component and the sorted list, [handleSort], and
      the update dialog's form with its default values ([saveDialog]).
    - [Views.v]: the pages and dialogs around the actions: [Dashboard]
      (page, chart data, slice colours), [Layout] (redirect, sidebar links,
      avatar initials), [LoginPage] (the form and its error message),
      [FacultyUI] (rows, role cell, reset dialog, delete and create
      forms, the page's hand-off to [FacultyClient]) and [StudentUI]
      (header, cells, icons, the client's state machine, the dialog's
      title and submit with the reload, the upload handler).
      [LoginPage] also has [SubmitButton]'s pending label.
    - [System.v] (Module [System]): every request as one [step] on the
      store (plus runs of the seed), the seeded initial store,
      [reachable] as [rtc step], the system invariants; the server that
      also records the session tokens it issued ([Server], [serve],
      [sstep], [sreachable]: a request may carry only an issued token)
      and the recovery of accounts over it; [seed_main], the script's
      exit code.
    - [Browser.v] (Module [Browser]): one request of the browser
      ([visit]: the login page, the layout's redirect, then the page and
      its redirects), [browse], which follows redirects with fuel, the
      browser's state (session cookie, location, the profile dialog's
      [isOpen]) and [browser_step] for the user's actions (navigate, sign
      in, open, close and submit the profile dialog, sign out through the
      layout's [signOutAction]).

    ** What is proved

    - Refinement of the specification's authorization policy by
      [deleteFaculty], [adminResetPassword], [updateUserRole] and
      [createFaculty]; the client rule [canManage] equals the policy, and
      every reset and delete control the faculty page renders succeeds on
      the server.
    - Invariants of every reachable store (rule induction on [step]):
      the existence of a Super Admin, and typing
      beyond the schema (account ids are cuids; student names and phones
      are non-empty and trimmed, the phone never "undefined"); across any
      run, student rows keep their uploader.
      Well-formedness (the store's own unique constraints) is the lemma
      [reachable_wf] the other proofs use.
    - Liveness over the session-aware server: while a Super Admin holds a
      session the server issued, any account whose e-mail passes zod's
      check is recovered in two requests (the reset, then its sign-in,
      which issues its session).  Its counterpart: re-running the seed
      writes nothing once [admin@college.edu] exists, so a Super Admin
      who forgot the password and holds no session cannot get back in.
    - A frame property: a caller below the Admin tier changes no account
      except its own password.
    - Functional specifications of the student actions and pages
      (ownership of uploads, idempotent re-upload, visibility, dashboard
      counts, cards and charts agreeing), sign-in round trips after
      [createFaculty] and [adminResetPassword], the login page, the
      profile dialog, the sidebar (it links exactly the pages the user can
      open), and the "Status" header (one click orders the calling list
      by status ascending, a second descending, each status group keeping
      the page's order).
    - Termination of navigation: from any path, with or without a
      cookie, following the redirects ends on a rendered screen within
      three requests ([browse_terminates]), and browsing writes nothing.
    - Sign-out is effective: the cookie is gone and the dialog closed,
      every dashboard path then leads to the login form, and no request
      the browser sends can write.
    - Bounds: each pie chart has at most seven slices and every slice a
      colour of its own among the seven of [COLORS].
    - The divergences from the specification and the bugs, each as a
      theorem: the self-delete of an Admin throws, a Faculty caller's short
      reset password gets "Forbidden", a deleted account's session still
      uploads, a Super Admin resets its own password through the admin
      action, the role select offered to an Admin always fails, saving the
      update dialog records the interest OTHER nobody chose, the header
      lookup is case-sensitive, an account created under an e-mail zod
      rejects can never sign in, a signed-out upload shows no toast, and
      the seed cannot restore a lost Super Admin password.

    Each theorem with hypotheses has a witness ([..._witness], ending in
    [Defined]) that applies it on the fixtures or on a concrete run from
    the seeded store.

    ** Modelling choices

    - Ids are strings.  Prisma generates a fresh id on every create; the
      model draws it from the counter [db_next_id] of the store
      ([fresh_id n = "c" ++ decimal n]), and the store itself rejects an id
      that is taken, as the primary key does.
    - The users table is a [gmap string User] keyed by id; the students
      table is a list in creation order, so [orderBy createdAt desc] is the
      reversed list (rows of one [createMany] batch share a timestamp; the
      model orders them by insertion).  [findMany] on users returns the
      map's order, since [createdAt] is not modelled.
    - A thrown JavaScript error aborts the action and the store is left as
      it was: every action writes at most once, as its last store effect,
      so [run_store] keeps the old store on an error.  In a client handler
      without a [catch] the error is the [Err] of the handler: no toast.
    - Numbers in a spreadsheet row are integers ([Z]); strings are ASCII
      ([String.string]); JS [trim] removes the ASCII white space and the
      no-break space (160); [toLowerCase] and [toUpperCase] map the ASCII
      letters.
    - The Prisma schema is not part of [src/]: the shape of the rows, the
      unique constraints (user e-mail; student name and phone) and the
      nullable columns follow the specification.
    - zod's e-mail check and the browser's [type="email"] check are
      section variables; the theorems hold for any such predicates.
    - Fuel appears only in [browse], the browser following redirects (a
      chain of redirects has no bound the code states).  Three requests
      are enough: a dashboard path either renders, or redirects to
      [/login] (no cookie; the login page always renders), or (the faculty
      page below the Admin tier) to [/dashboard], which renders for any
      cookie.  [browse_mono] shows more fuel never changes the result.
      Every other definition is structurally recursive (trim, the
      row-by-row insertion of [createMany], the insertion sort), and the
      client's event handlers are one-step functions.
    - The App Router's mapping of paths to [page.tsx] files ([route]) and
      the paths' prefixes are framework behaviour, written as the
      directory layout of [src/app] gives them.

    ** Not modelled

    JSX markup and styling, recharts' drawing (the slices' values and
    colours are modelled, the pixels and percentages are not), the
    spreadsheet parser (XLSX: its rows are the input of the upload
    handler), [src/auth.config], which [src/auth.ts] imports but which
    is not in the repository (its pages and callbacks: the model redirects
    only where the sources call [redirect]), Next.js caching
    ([revalidatePath] is a no-op on the store), the cryptography of JWT
    signing (a client holds only tokens the server issued, which name the
    user who signed in: [sstep]), the session's expiry (tokens are never
    revoked; a password nobody remembers is not modelled, only the absence
    of a way back for it), [console] output and [$disconnect] of the seed
    script, and the cryptography of bcrypt
    (a hash is modelled as the pair of its cost and the password it was
    computed from, compared by equality). *)

From stdpp Require Export base gmap strings list pretty.
From Stdlib Require Export Lia.

Declare Scope crm_scope.
Delimit Scope crm_scope with crm.

(** ** The state/error monad of the actions *)

(** The result of running an action: a value and the new store, or a
    thrown error (which discards every effect of the action). *)
Inductive outcome (S E A : Type) : Type :=
  | Ok (a : A) (s : S)
  | Err (e : E).
Arguments Ok {S E A} a s.
Arguments Err {S E A} e.

Definition SE (S E A : Type) : Type := S -> outcome S E A.

Section Monad.
Context {S E : Type}.

Definition se_ret {A} (a : A) : SE S E A := fun s => Ok a s.

Definition se_bind {A B} (m : SE S E A) (k : A -> SE S E B) : SE S E B :=
  fun s => match m s with
           | Ok a s' => k a s'
           | Err e => Err e
           end.

Definition se_throw {A} (e : E) : SE S E A := fun _ => Err e.

Definition se_get : SE S E S := fun s => Ok s s.

Definition se_put (s' : S) : SE S E unit := fun _ => Ok tt s'.

Definition se_gets {A} (f : S -> A) : SE S E A := fun s => Ok (f s) s.

Lemma se_bind_ok {A B} (m : SE S E A) (k : A -> SE S E B) s a s' :
  m s = Ok a s' -> se_bind m k s = k a s'.
Proof. intros H. unfold se_bind. by rewrite H. Qed.

Lemma se_bind_err {A B} (m : SE S E A) (k : A -> SE S E B) s e :
  m s = Err e -> se_bind m k s = Err e.
Proof. intros H. unfold se_bind. by rewrite H. Qed.

Lemma se_bind_inv {A B} (m : SE S E A) (k : A -> SE S E B) s b s' :
  se_bind m k s = Ok b s' ->
  exists a s1, m s = Ok a s1 /\ k a s1 = Ok b s'.
Proof. unfold se_bind. destruct (m s); eauto; discriminate. Qed.

(** Running a computation that never writes leaves the store as it was. *)
Definition se_reads_only {A} (m : SE S E A) : Prop :=
  forall s a s', m s = Ok a s' -> s' = s.

Lemma se_ret_reads_only {A} (a : A) : se_reads_only (se_ret a).
Proof. intros s b s' H. by inversion H. Qed.

Lemma se_throw_reads_only {A} (e : E) : se_reads_only (A:=A) (se_throw e).
Proof. intros s b s' H. discriminate. Qed.

Lemma se_gets_reads_only {A} (f : S -> A) : se_reads_only (se_gets f).
Proof. intros s b s' H. by inversion H. Qed.

Lemma se_bind_reads_only {A B} (m : SE S E A) (k : A -> SE S E B) :
  se_reads_only m -> (forall a, se_reads_only (k a)) ->
  se_reads_only (se_bind m k).
Proof.
  intros Hm Hk s b s' H.
  destruct (se_bind_inv m k s b s' H) as (a & s1 & H1 & H2).
  pose proof (Hm _ _ _ H1) as ->. by apply (Hk a s b s').
Qed.

(** [try { m } catch (e) { h(e) }]: the handler runs on the store the
    computation started from (a throw discards the computation's state). *)
Definition se_catch {A} (m : SE S E A) (h : E -> SE S E A) : SE S E A :=
  fun s => match m s with
           | Ok a s' => Ok a s'
           | Err e => h e s
           end.

(** The store after running a computation: unchanged when it fails. *)
Definition run_store {A} (m : SE S E A) (s : S) : S :=
  match m s with
  | Ok _ s' => s'
  | Err _ => s
  end.

Lemma run_store_ok {A} (m : SE S E A) s a s' : m s = Ok a s' -> run_store m s = s'.
Proof. unfold run_store. by intros ->. Qed.

(** A computation preserves a predicate of the store when every
    successful run from a store satisfying it ends in one that does. *)
Definition se_preserves (P : S -> Prop) {A} (m : SE S E A) : Prop :=
  forall s a s', P s -> m s = Ok a s' -> P s'.

Lemma se_reads_only_preserves P {A} (m : SE S E A) :
  se_reads_only m -> se_preserves P m.
Proof. intros Hm s a s' HP H. by rewrite (Hm _ _ _ H). Qed.

Lemma se_bind_preserves P {A B} (m : SE S E A) (k : A -> SE S E B) :
  se_preserves P m -> (forall a, se_preserves P (k a)) ->
  se_preserves P (se_bind m k).
Proof.
  intros Hm Hk s b s' HP H.
  destruct (se_bind_inv m k s b s' H) as (a & s1 & H1 & H2).
  eapply Hk; [eapply Hm|]; eauto.
Qed.

Lemma se_put_preserves (P : S -> Prop) s' : P s' -> se_preserves P (se_put s').
Proof. intros HP s a s'' _ H. by inversion H; subst. Qed.
End Monad.

Notation "'let*' x ':=' m 'in' k" := (se_bind m (fun x => k))
  (at level 10, x name, m at level 100, k at level 200) : crm_scope.
Notation "'let*' ' p ':=' m 'in' k" := (se_bind m (fun x => match x with p => k end))
  (at level 10, p pattern, m at level 100, k at level 200) : crm_scope.

Open Scope crm_scope.

(** ** Automation shared by the components *)

Create HintDb crm discriminated.

#[export] Hint Resolve se_ret_reads_only se_throw_reads_only se_gets_reads_only : crm.
#[export] Hint Resolve se_bind_reads_only : crm.
#[export] Hint Resolve se_reads_only_preserves : crm.

(** Unfold one layer of the monad and split on the result of the first
    computation. *)
Ltac se_step :=
  unfold se_bind, se_ret, se_throw, se_get, se_put, se_gets in *; cbv beta in *.

(** Prove [se_preserves P m] by walking through the binds of [m] and
    splitting on its conditionals, leaving the writes to [crm]. *)
Ltac se_preserves_tac :=
  repeat first
    [ progress auto with crm
    | match goal with
      | |- se_preserves _ (se_bind _ _) => apply se_bind_preserves; [| intros ?]
      end
    | case_match ].

(** Invert an equation [Ok a s = Ok b s'] or discharge [Ok _ _ = Err _]. *)
Ltac se_inv :=
  se_step;
  repeat match goal with
         | H : Ok _ _ = Ok _ _ |- _ => injection H; clear H; intros; subst
         | H : Ok _ _ = Err _ |- _ => discriminate H
         | H : Err _ = Ok _ _ |- _ => discriminate H
         | H : Err _ = Err _ |- _ => injection H; clear H; intros; subst
         end.

(** Decide the string comparisons [String.eqb x y] of the goal from the
    (dis)equalities in the context. *)
Ltac str_simpl :=
  repeat match goal with
         | |- context [String.eqb ?x ?x] => rewrite (String.eqb_refl x)
         | |- context [String.eqb ?x ?y] =>
             rewrite (proj2 (String.eqb_neq x y)) by congruence
         end.

(** Turn the boolean tests of the context into propositions and merge
    repeated lookups. *)
Ltac bool_hyps :=
  repeat match goal with
  | H : bool_decide _ = true |- _ => apply bool_decide_eq_true in H
  | H : bool_decide _ = false |- _ => apply bool_decide_eq_false in H
  | H : (_ && _) = true |- _ => apply andb_true_iff in H as [? ?]
  | H : (_ || _) = false |- _ => apply orb_false_iff in H as [? ?]
  | H : negb _ = true |- _ => apply negb_true_iff in H
  | H : negb _ = false |- _ => apply negb_false_iff in H
  | H : String.eqb _ _ = true |- _ => apply String.eqb_eq in H
  | H : String.eqb _ _ = false |- _ => apply String.eqb_neq in H
  | H : Some _ = Some _ |- _ => injection H; clear H; intros; subst
  | H1 : ?m !! ?k = Some ?x, H2 : ?m !! ?k = Some ?y |- _ =>
      rewrite H1 in H2; injection H2; clear H2; intros; subst y
  end.

(** Run a hypothesis [m s = Ok a s'] of a composed action through all its
    branches, leaving one goal per successful path. *)
Ltac act_split H :=
  repeat (first [ progress (se_step; simpl in H) | case_match; simpl in * ]); se_inv; bool_hyps; try discriminate.

(** ** Generic lemmas on lists *)

Section ListFacts.
Context {A : Type}.

Lemma length_filter_le (P : A -> Prop) `{!forall x, Decision (P x)} (l : list A) :
  length (filter P l) <= length l.
Proof.
  induction l as [|x l IH]; [done|].
  rewrite filter_cons. case_decide; simpl; lia.
Qed.

Lemma filter_all (P : A -> Prop) `{!forall x, Decision (P x)} (l : list A) :
  Forall P l -> filter P l = l.
Proof.
  induction 1 as [|x l Hx _ IH]; [done|].
  rewrite filter_cons. case_decide; [|done]. by rewrite IH.
Qed.
Lemma filter_none (P : A -> Prop) `{!forall x, Decision (P x)} (l : list A) :
  Forall (fun x => ~ P x) l -> filter P l = [].
Proof. induction 1; [done|]. by rewrite filter_cons_False. Qed.

(** Two elements of a list with the same image under a map that is
    injective on the list are equal. *)
Lemma NoDup_fmap_elem_eq {B} (f : A -> B) (l : list A) x y :
  NoDup (f <$> l) -> x ∈ l -> y ∈ l -> f x = f y -> x = y.
Proof.
  intros Hnd (i & Hi)%list_elem_of_lookup (j & Hj)%list_elem_of_lookup Hf.
  assert (i = j) as ->; [|congruence].
  eapply NoDup_lookup; [exact Hnd | |]; rewrite list_lookup_fmap.
  - by rewrite Hi.
  - by rewrite Hj, Hf.
Qed.
End ListFacts.

#[export] Hint Resolve length_filter_le : crm.
