(* ===== verification/StableSort.v ===== *)
(** * [Array.prototype.sort] with a comparator, as a stable insertion sort

    Since ES2019 [sort] is stable: elements the comparator calls equal
    keep their relative order.  For a consistent comparator the result is
    then determined, and the insertion sort below computes it: each
    element of the input, in order, is inserted after every element of
    the sorted prefix that does not compare greater.

    The lemmas show the result is a permutation of the input, sorted by
    the comparator (when it is antisymmetric), and stable (when, besides,
    comparing [<= 0] is transitive and comparing [0] means equal keys). *)

From S2P Require Import Prelude.
From Stdlib Require Import Sorting.Sorted.

Section StableSort.
Context {A : Type}.
Implicit Types (cmp : A -> A -> Z) (x y : A) (l : list A).

(** A list sorted by a relation is sorted by any weaker one. *)
Lemma Sorted_impl (R1 R2 : relation A) l :
  (forall x y, R1 x y -> R2 x y) -> Sorted R1 l -> Sorted R2 l.
Proof.
  intros HR Hl. induction Hl as [|x l Hl IH Hx]; constructor; [done|].
  destruct Hx; constructor. by apply HR.
Qed.

(** Insert [x] before the first element that compares greater. *)
Fixpoint insert_by cmp x l : list A :=
  match l with
  | [] => [x]
  | y :: l' => if Z.ltb 0 (cmp y x) then x :: y :: l' else y :: insert_by cmp x l'
  end.

(** [[...l].sort(cmp)]. *)
Definition sort_by cmp l : list A :=
  fold_left (fun acc x => insert_by cmp x acc) l [].

Lemma sort_by_fold cmp (P : list A -> list A -> Prop) l :
  P [] [] ->
  (forall acc done x, P acc done -> P (insert_by cmp x acc) (done ++ [x])) ->
  P (sort_by cmp l) l.
Proof.
  intros H0 Hs. unfold sort_by.
  cut (forall acc done, P acc done ->
         P (fold_left (fun acc x => insert_by cmp x acc) l acc) (done ++ l)).
  { intros H. exact (H [] [] H0). }
  induction l as [|x l IH]; intros acc done Hp; simpl; [by rewrite app_nil_r|].
  rewrite cons_middle, app_assoc. by apply IH, Hs.
Qed.

(** With a comparator that calls everything equal the order is kept. *)
Lemma insert_by_zero x l : insert_by (fun _ _ => 0%Z) x l = l ++ [x].
Proof. induction l as [|y l IH]; simpl; [done|]. by rewrite IH. Qed.

Lemma sort_by_zero l : sort_by (fun _ _ => 0%Z) l = l.
Proof.
  apply (sort_by_fold _ (fun acc done => acc = done)); [done|].
  intros acc done x ->. apply insert_by_zero.
Qed.

Section Comparator.
Variable cmp : A -> A -> Z.

(** The order [sort] produces: no element compares greater than the next. *)
Definition cmp_le x y : Prop := (cmp x y <= 0)%Z.

Lemma insert_by_perm x l : insert_by cmp x l ≡ₚ x :: l.
Proof.
  induction l as [|y l IH]; simpl; [done|].
  destruct (Z.ltb 0 (cmp y x)); [done|]. rewrite IH. apply perm_swap.
Qed.

Lemma sort_by_perm l : sort_by cmp l ≡ₚ l.
Proof.
  apply (sort_by_fold cmp (fun acc done => acc ≡ₚ done)); [done|].
  intros acc done x Hp. rewrite insert_by_perm, Hp. by rewrite Permutation_app_comm.
Qed.

Lemma insert_by_filter_out (P : A -> Prop) `{!forall y, Decision (P y)} x l :
  ~ P x -> filter P (insert_by cmp x l) = filter P l.
Proof.
  intros Hx. induction l as [|y l IH]; simpl.
  - by rewrite filter_cons_False.
  - destruct (Z.ltb 0 (cmp y x)); rewrite !filter_cons;
      [by rewrite decide_False | by rewrite IH].
Qed.

Hypothesis cmp_antisym : forall x y, cmp x y = (- cmp y x)%Z.

Lemma insert_by_hdrel y x l :
  cmp_le y x -> HdRel cmp_le y l -> HdRel cmp_le y (insert_by cmp x l).
Proof.
  intros Hyx Hl. destruct l as [|z l]; simpl; [by constructor|].
  destruct (Z.ltb 0 (cmp z x)); constructor; [done|]. by inversion Hl.
Qed.

Lemma insert_by_sorted x l : Sorted cmp_le l -> Sorted cmp_le (insert_by cmp x l).
Proof.
  induction 1 as [|y l Hl IH Hhd]; simpl; [by repeat constructor|].
  destruct (Z.ltb 0 (cmp y x)) eqn:E.
  - apply Z.ltb_lt in E. constructor; [by constructor|].
    constructor. unfold cmp_le. rewrite cmp_antisym. lia.
  - apply Z.ltb_ge in E. constructor; [done|]. by apply insert_by_hdrel.
Qed.

Lemma sort_by_sorted l : Sorted cmp_le (sort_by cmp l).
Proof.
  apply (sort_by_fold cmp (fun acc _ => Sorted cmp_le acc)); [constructor|].
  intros acc done x Hs. by apply insert_by_sorted.
Qed.

(** ** Stability *)

Variable key : A -> string.
Hypothesis cmp_le_trans : forall x y z, cmp_le x y -> cmp_le y z -> cmp_le x z.
Hypothesis cmp_zero_key : forall x y, cmp x y = 0%Z <-> key x = key y.

(** The elements of key [v] of an insertion: those of [l], then [x]. *)
Lemma insert_by_filter_key v x l :
  StronglySorted cmp_le l ->
  filter (fun y => key y = v) (insert_by cmp x l) =
  filter (fun y => key y = v) l ++ filter (fun y => key y = v) [x].
Proof.
  induction 1 as [|y l Hl IH Hall]; simpl; [done|].
  destruct (Z.ltb 0 (cmp y x)) eqn:E.
  - apply Z.ltb_lt in E. destruct (decide (key x = v)) as [Hx|Hx].
    + (* nothing of key [key x] follows [y] *)
      assert (filter (fun y => key y = v) (y :: l) = []) as Hnil.
      { apply filter_none, Forall_forall. intros z Hz Hzv.
        assert (cmp_le z x) as Hzx by (unfold cmp_le; rewrite (proj2 (cmp_zero_key z x)) by congruence; lia).
        apply elem_of_cons in Hz as [->|Hz].
        - unfold cmp_le in Hzx. lia.
        - rewrite Forall_forall in Hall. pose proof (cmp_le_trans _ _ _ (Hall z Hz) Hzx).
          unfold cmp_le in *. lia. }
      rewrite filter_cons_True, Hnil by done. by rewrite filter_singleton_True.
    + rewrite filter_cons_False, filter_singleton_False by done. by rewrite app_nil_r.
  - rewrite !filter_cons, IH. by case_decide.
Qed.

(** [sort] is stable: the elements of each key keep their input order. *)
Lemma sort_by_stable v l :
  filter (fun y => key y = v) (sort_by cmp l) = filter (fun y => key y = v) l.
Proof.
  apply (sort_by_fold cmp (fun acc done => Sorted cmp_le acc /\
           filter (fun y => key y = v) acc = filter (fun y => key y = v) done)).
  { split; [constructor | done]. }
  intros acc done x [Hs Hf]. split; [by apply insert_by_sorted|].
  rewrite insert_by_filter_key, Hf, filter_app; [done|].
  apply Sorted_StronglySorted; [exact cmp_le_trans | done].
Qed.
End Comparator.
End StableSort.
