(* ===== verification/JsValue.v ===== *)
(** * JavaScript values and the JS built-ins the server actions apply

    The rows of an uploaded spreadsheet reach [uploadStudents]
    ([src/app/actions.ts]) as plain JS objects produced by the XLSX
    parser; HTML forms reach the other actions as [FormData].  This file
    models the values such objects hold and the built-ins the actions apply
    to them: truthiness and [||], [String(x)], [String.prototype.trim],
    property lookup on an object, and [FormData.get].

    Strings are [String.string], read as Latin-1: JS [trim] removes the
    code points of that range that ECMAScript calls white space or line
    terminators (TAB, LF, VT, FF, CR, SPACE and NO-BREAK SPACE).  Numbers
    are the safe integers [|n| <= 2^53 - 1], on which [String(n)] is the
    decimal notation. *)

From S2P Require Import Prelude.

Module Js.

(** A JS value as a spreadsheet cell or a missing property gives it. *)
Inductive JsVal : Type :=
  | JUndefined
  | JNull
  | JBool (b : bool)
  | JNum (n : Z)
  | JStr (s : string).

#[export] Instance JsVal_eq_dec : EqDecision JsVal.
Proof. solve_decision. Defined.

(** Numbers are modelled on the safe-integer range of IEEE doubles. *)
Definition max_safe_integer : Z := (2 ^ 53 - 1)%Z.

Definition js_safe (v : JsVal) : bool :=
  match v with
  | JNum n => bool_decide (Z.abs n <= max_safe_integer)%Z
  | _ => true
  end.

(** ToBoolean: [undefined], [null], [false], [0] and [""] are falsy. *)
Definition truthy (v : JsVal) : bool :=
  match v with
  | JUndefined | JNull => false
  | JBool b => b
  | JNum n => negb (Z.eqb n 0)
  | JStr s => negb (String.eqb s "")
  end.

(** [a || b]: the first operand when it is truthy, else the second. *)
Definition js_or (a b : JsVal) : JsVal := if truthy a then a else b.

(** [String(v)]. *)
Definition to_string (v : JsVal) : string :=
  match v with
  | JUndefined => "undefined"
  | JNull => "null"
  | JBool true => "true"
  | JBool false => "false"
  | JNum n => pretty n
  | JStr s => s
  end.

(** A JS object with string keys ([row] in [uploadStudents]); reading a
    missing property gives [undefined]. *)
Abbreviation JsObject := (gmap string JsVal).

Definition prop (o : JsObject) (k : string) : JsVal :=
  default JUndefined (o !! k).

(** White space of [String.prototype.trim] within Latin-1. *)
Definition is_js_space (c : Ascii.ascii) : bool :=
  Ascii.is_space c || Ascii.eqb c (Ascii.ascii_of_nat 160).

Fixpoint trim_start (s : string) : string :=
  match s with
  | EmptyString => EmptyString
  | String c s' => if is_js_space c then trim_start s' else s
  end.

Fixpoint trim_end (s : string) : string :=
  match s with
  | EmptyString => EmptyString
  | String c s' =>
      let r := trim_end s' in
      if String.eqb r "" && is_js_space c then EmptyString else String c r
  end.

(** [s.trim()]. *)
Definition trim (s : string) : string := trim_end (trim_start s).

(** [FormData]: the submitted (name, value) pairs in order; [get]
    returns the first value under the name, or [null]. *)
Abbreviation FormData := (list (string * string)).

Definition form_get (fd : FormData) (k : string) : option string :=
  snd <$> list_find (fun kv => kv.1 = k) fd ≫= fun p => Some p.2.

(** [a === b] on two nullable strings: [None] stands for [null] on one
    side and [undefined] on the other (a form field and a session id), so
    an absent value is never strictly equal to anything. *)
Definition strict_eq_opt (a b : option string) : bool :=
  match a, b with
  | Some x, Some y => String.eqb x y
  | _, _ => false
  end.

Lemma form_get_cons k v fd k' :
  form_get ((k, v) :: fd) k' = if String.eqb k k' then Some v else form_get fd k'.
Proof.
  unfold form_get. simpl. destruct (String.eqb_spec k k') as [->|Hne].
  - by rewrite decide_True.
  - rewrite decide_False by done. by destruct (list_find _ fd) as [[? []]|].
Qed.

Lemma strict_eq_opt_spec a b : strict_eq_opt a b = true <-> exists x, a = Some x /\ b = Some x.
Proof.
  destruct a as [x|], b as [y|]; simpl; split; try (intros (? & ? & ?); congruence);
    try discriminate.
  - intros ->%String.eqb_eq. eauto.
  - intros (z & [= ->] & [= ->]). apply String.eqb_refl.
Qed.

(** ** Properties of the built-ins *)

(** A string whose first character, if any, is not white space. *)
Definition starts_clean (s : string) : Prop :=
  match s with
  | EmptyString => True
  | String c _ => is_js_space c = false
  end.

(** A string whose last character, if any, is not white space. *)
Fixpoint ends_clean (s : string) : Prop :=
  match s with
  | EmptyString => True
  | String c EmptyString => is_js_space c = false
  | String _ s' => ends_clean s'
  end.

Lemma trim_start_clean s : starts_clean (trim_start s).
Proof.
  induction s as [|c s IH]; simpl; [done|].
  destruct (is_js_space c) eqn:E; simpl; auto.
Qed.

Lemma trim_end_empty_or_clean s :
  trim_end s = EmptyString \/ ends_clean (trim_end s).
Proof.
  induction s as [|c s IH]; simpl; [by left|].
  destruct (String.eqb_spec (trim_end s) "") as [E|E]; simpl.
  - destruct (is_js_space c) eqn:Hc; simpl; [by left|].
    right. rewrite E. simpl. done.
  - right. destruct (trim_end s) eqn:T; [done|].
    destruct IH as [IH|IH]; [discriminate|]. simpl. exact IH.
Qed.

Lemma trim_end_starts_clean s : starts_clean s -> starts_clean (trim_end s).
Proof.
  destruct s as [|c s]; simpl; [done|]. intros Hc.
  rewrite Hc, andb_false_r. done.
Qed.

Lemma trim_end_ends_clean s : ends_clean (trim_end s).
Proof. destruct (trim_end_empty_or_clean s) as [->|H]; [done|exact H]. Qed.

Lemma trim_end_id s : ends_clean s -> trim_end s = s.
Proof.
  induction s as [|c s IH]; simpl; [done|].
  destruct s as [|c' s'].
  - intros Hc. simpl. by rewrite Hc.
  - intros H. rewrite (IH H). done.
Qed.

Lemma trim_start_id s : starts_clean s -> trim_start s = s.
Proof. destruct s as [|c s]; simpl; [done|]. by intros ->. Qed.

(** The result of [trim] neither starts nor ends with white space. *)
Lemma trim_clean s : starts_clean (trim s) /\ ends_clean (trim s).
Proof.
  unfold trim. split.
  - apply trim_end_starts_clean, trim_start_clean.
  - apply trim_end_ends_clean.
Qed.

Lemma trim_clean_id s : starts_clean s -> ends_clean s -> trim s = s.
Proof. intros H1 H2. unfold trim. by rewrite trim_start_id, trim_end_id. Qed.

(** [String.prototype.trim] is idempotent: a trimmed name or phone is
    left as it is by a second trim. *)
Lemma trim_idempotent s : trim (trim s) = trim s.
Proof. destruct (trim_clean s) as [H1 H2]. by apply trim_clean_id. Qed.

Lemma js_or_truthy a b : truthy (js_or a b) = truthy a || truthy b.
Proof. unfold js_or. destruct (truthy a) eqn:E; simpl; by rewrite ?E. Qed.

End Js.

#[export] Hint Resolve Js.trim_clean : crm.
