(* ===== verification/Schema.v ===== *)
(** * The data model: Prisma enums, rows, the store and thrown errors

    The Prisma schema of the application is not part of [src/]; the enums
    are the ones [src/app/actions.ts] imports from [@prisma/client]
    ([Role], [CallStatus], [Interest]) with the members the client views
    list, and the rows have the fields the actions read and write
    (specification, section 3).  An enum value travels as its member name
    ([Role.FACULTY === "FACULTY"]); the encoders [*_to_string] and the
    parsers [*_of_string] (which Prisma applies when it validates an
    argument) are shown to be inverse. *)

From S2P Require Import Prelude.

(** ** Enumerations with their string encodings *)

Section Enum.
Context {A : Type} `{EqDecision A} (vals : list A) (show : A -> string).

(** Parse a member name: the first member of [vals] printed as [s]. *)
Definition enum_parse (s : string) : option A :=
  snd <$> list_find (fun a => show a = s) vals.

Lemma enum_parse_sound s a : enum_parse s = Some a -> show a = s.
Proof.
  unfold enum_parse. intros H.
  apply fmap_Some in H as ([i a'] & Hf & ->).
  apply list_find_Some in Hf as (_ & ? & _). done.
Qed.

Context (Hcomplete : forall a, a ∈ vals) (Hinj : Inj (=) (=) show).

Lemma enum_parse_show a : enum_parse (show a) = Some a.
Proof.
  unfold enum_parse.
  destruct (list_find (fun b => show b = show a) vals) as [[i b]|] eqn:Hf.
  - apply list_find_Some in Hf as (_ & Hb & _). simpl. by rewrite (Hinj _ _ Hb).
  - apply list_find_None in Hf. exfalso.
    rewrite Forall_forall in Hf. by apply (Hf a (Hcomplete a)).
Qed.
End Enum.

(** [enum Role { SUPER_ADMIN ADMIN FACULTY }] *)
Inductive Role : Type := SUPER_ADMIN | ADMIN | FACULTY.

(** [enum CallStatus], in the order of the client's select. *)
Inductive CallStatus : Type :=
  | NOT_CALLED | RINGING | CALL_BACK | INTERESTED | NOT_INTERESTED | ADMISSION_TAKEN.

(** [enum Interest], in the order of the client's select. *)
Inductive Interest : Type := MCA | MBA | BCA | BTECH | NURSING | DIPLOMA | OTHER.

#[export] Instance Role_eq_dec : EqDecision Role.
Proof. solve_decision. Defined.
#[export] Instance CallStatus_eq_dec : EqDecision CallStatus.
Proof. solve_decision. Defined.
#[export] Instance Interest_eq_dec : EqDecision Interest.
Proof. solve_decision. Defined.

(** [Object.values(Role)] and the like: the members in declaration order. *)
Definition Role_values : list Role := [SUPER_ADMIN; ADMIN; FACULTY].
Definition CallStatus_values : list CallStatus :=
  [NOT_CALLED; RINGING; CALL_BACK; INTERESTED; NOT_INTERESTED; ADMISSION_TAKEN].
Definition Interest_values : list Interest :=
  [MCA; MBA; BCA; BTECH; NURSING; DIPLOMA; OTHER].

Definition role_to_string (r : Role) : string :=
  match r with
  | SUPER_ADMIN => "SUPER_ADMIN" | ADMIN => "ADMIN" | FACULTY => "FACULTY"
  end.

Definition call_status_to_string (c : CallStatus) : string :=
  match c with
  | NOT_CALLED => "NOT_CALLED" | RINGING => "RINGING" | CALL_BACK => "CALL_BACK"
  | INTERESTED => "INTERESTED" | NOT_INTERESTED => "NOT_INTERESTED"
  | ADMISSION_TAKEN => "ADMISSION_TAKEN"
  end.

Definition interest_to_string (i : Interest) : string :=
  match i with
  | MCA => "MCA" | MBA => "MBA" | BCA => "BCA" | BTECH => "BTECH"
  | NURSING => "NURSING" | DIPLOMA => "DIPLOMA" | OTHER => "OTHER"
  end.

Definition role_of_string : string -> option Role := enum_parse Role_values role_to_string.
Definition call_status_of_string : string -> option CallStatus :=
  enum_parse CallStatus_values call_status_to_string.
Definition interest_of_string : string -> option Interest :=
  enum_parse Interest_values interest_to_string.

(** ** Rows *)

(** A bcrypt hash: the cost factor and the password it was computed from
    (the salt and the digest are abstracted; [bcrypt.compare] is equality
    of the password). *)
Record Hash : Type := mkHash { hash_cost : nat; hash_secret : string }.

(** A [User] row, stored under its id. *)
Record User : Type := mkUser {
  user_name : option string;
  user_email : string;
  user_password : Hash;
  user_role : Role;
}.

(** A [Student] row.  [st_uploaded_by_id] is the owner of the row. *)
Record Student : Type := mkStudent {
  st_id : string;
  st_name : string;
  st_phone : string;
  st_address : option string;
  st_prev_course : option string;
  st_call_status : CallStatus;
  st_future_interest : option Interest;
  st_notes : option string;
  st_last_updated_by : option string;
  st_uploaded_by_id : string;
}.

(** The natural key of a student (the unique constraint on name and
    phone that [createMany({ skipDuplicates: true })] relies on). *)
Definition student_key (s : Student) : string * string := (st_name s, st_phone s).

(** The data of one row of [db.student.createMany] in [uploadStudents]. *)
Record NewStudent : Type := mkNewStudent {
  ns_name : string;
  ns_phone : string;
  ns_address : option string;
  ns_prev_course : option string;
  ns_uploaded_by_id : string;
}.

(** The store: users by id, students in creation order, and the counter
    from which fresh ids are drawn. *)
Record DB : Type := mkDB {
  db_users : gmap string User;
  db_students : list Student;
  db_next_id : N;
}.

(** ** Errors an action can throw *)
Inductive Exn : Type :=
  | ErrorMsg (msg : string)   (** [throw new Error(msg)] *)
  | TypeError                 (** reading a property of [undefined] *)
  | PrismaValidation          (** an argument rejected by Prisma's validation *)
  | PrismaNotFound            (** P2025: the record to update or delete is absent *)
  | PrismaUnique.             (** P2002: a unique constraint is violated *)

#[export] Instance Exn_eq_dec : EqDecision Exn.
Proof. solve_decision. Defined.

(** The objects the actions return: [{ success: true }], or
    [{ error }] / [{ success: false, error }]. *)
Inductive Reply : Type :=
  | Success
  | Failure (error : string).

#[export] Instance Reply_eq_dec : EqDecision Reply.
Proof. solve_decision. Defined.

(** Every action runs in the state/error monad over the store. *)
Abbreviation Act A := (SE DB Exn A).

(** ** Properties of the encodings *)

Lemma Role_values_complete r : r ∈ Role_values.
Proof. destruct r; set_solver. Qed.
Lemma CallStatus_values_complete c : c ∈ CallStatus_values.
Proof. destruct c; set_solver. Qed.
Lemma Interest_values_complete i : i ∈ Interest_values.
Proof. destruct i; set_solver. Qed.

#[export] Instance role_to_string_inj : Inj (=) (=) role_to_string.
Proof. intros [] []; simpl; congruence. Qed.
#[export] Instance call_status_to_string_inj : Inj (=) (=) call_status_to_string.
Proof. intros [] []; simpl; congruence. Qed.
#[export] Instance interest_to_string_inj : Inj (=) (=) interest_to_string.
Proof. intros [] []; simpl; congruence. Qed.

#[export] Hint Resolve Role_values_complete CallStatus_values_complete
  Interest_values_complete : crm.

(** The parsers invert the encoders. *)
Lemma role_of_string_to_string r : role_of_string (role_to_string r) = Some r.
Proof. apply enum_parse_show; auto with crm; apply _. Qed.

Lemma call_status_of_string_to_string c :
  call_status_of_string (call_status_to_string c) = Some c.
Proof. apply enum_parse_show; auto with crm; apply _. Qed.

Lemma interest_of_string_to_string i : interest_of_string (interest_to_string i) = Some i.
Proof. apply enum_parse_show; auto with crm; apply _. Qed.

(** Prisma accepts exactly the member names of [Role]: [s] parses to
    [r] iff [s] is the name of [r]. *)
Theorem role_of_string_iff s r : role_of_string s = Some r <-> role_to_string r = s.
Proof.
  split; [apply enum_parse_sound|]. intros <-. apply role_of_string_to_string.
Qed.

(** The [CallStatus] strings [updateStudent] may store: [s] parses to
    [c] iff [s] is the name of [c]. *)
Theorem call_status_of_string_iff s c :
  call_status_of_string s = Some c <-> call_status_to_string c = s.
Proof.
  split; [apply enum_parse_sound|]. intros <-. apply call_status_of_string_to_string.
Qed.

(** The [Interest] strings [updateStudent] may store: [s] parses to
    [i] iff [s] is the name of [i]. *)
Theorem interest_of_string_iff s i :
  interest_of_string s = Some i <-> interest_to_string i = s.
Proof.
  split; [apply enum_parse_sound|]. intros <-. apply interest_of_string_to_string.
Qed.

Lemma CallStatus_values_NoDup : NoDup CallStatus_values.
Proof. apply (bool_decide_unpack _). reflexivity. Qed.

Lemma Interest_values_NoDup : NoDup Interest_values.
Proof. apply (bool_decide_unpack _). reflexivity. Qed.
