(* ===== verification/Store.v ===== *)
(** * The Prisma calls the actions make, as operations on the store

    Each Prisma call of [src/app/actions.ts], [src/auth.ts] and the server
    pages is one operation of the [Act] monad: reads ([findUnique],
    [count], [groupBy], [findMany]) leave the store as it is; writes
    ([create], [createMany], [update], [delete]) either succeed or throw the
    error Prisma raises (P2025 for a missing record, P2002 for a unique
    constraint, a validation error for a [null] or [undefined] where a value
    is required).  The database semantics is the library's, not the
    repository's: it follows the specification (section 6).

    The invariant [db_wf] collects the unique constraints (user e-mail,
    student id, student name and phone) and the freshness of the id
    counter; every write preserves it. *)

From S2P Require Import Prelude Schema.

Module Prisma.

(** A fresh id: the counter in decimal, behind a prefix. *)
Definition fresh_id (n : N) : string := "c" +:+ pretty n.

Definition set_users (db : DB) (us : gmap string User) : DB :=
  mkDB us (db_students db) (db_next_id db).

Definition set_password (h : Hash) (u : User) : User :=
  mkUser (user_name u) (user_email u) h (user_role u).

Definition set_role (r : Role) (u : User) : User :=
  mkUser (user_name u) (user_email u) (user_password u) r.

(** [db.user.findUnique({ where: { id } })]; an [undefined] or [null] id
    fails validation. *)
Definition user_find_unique (id : option string) : Act (option User) :=
  match id with
  | None => se_throw PrismaValidation
  | Some i => se_gets (fun db => db_users db !! i)
  end.

(** [db.user.findMany({ orderBy: { createdAt: 'desc' } })]: every row
    with its id (the creation time is not modelled, so the order is the
    map's). *)
Definition user_find_many : Act (list (string * User)) :=
  se_gets (fun db => map_to_list (db_users db)).

(** [db.user.findUnique({ where: { email } })]. *)
Definition user_find_by_email (e : string) : Act (option (string * User)) :=
  se_gets (fun db => snd <$> list_find (fun kv => user_email kv.2 = e)
                                    (map_to_list (db_users db))).

Definition email_taken (us : gmap string User) (e : string) : bool :=
  bool_decide (map_Exists (fun _ u => user_email u = e) us).

(** [db.user.create({ data: { name, email, password, role } })]. *)
Definition user_create (name email : option string) (pw : Hash) (r : Role)
  : Act string :=
  match email with
  | None => se_throw PrismaValidation
  | Some e =>
      let* db := se_get in
      let id := fresh_id (db_next_id db) in
      if email_taken (db_users db) e || bool_decide (is_Some (db_users db !! id))
      then se_throw PrismaUnique
      else let* _ := se_put (mkDB (<[id := mkUser name e pw r]> (db_users db))
                                  (db_students db) (N.succ (db_next_id db))) in
           se_ret id
  end.

(** [db.user.delete({ where: { id } })]. *)
Definition user_delete (id : option string) : Act unit :=
  match id with
  | None => se_throw PrismaValidation
  | Some i =>
      let* db := se_get in
      match db_users db !! i with
      | None => se_throw PrismaNotFound
      | Some _ => se_put (set_users db (delete i (db_users db)))
      end
  end.

(** [db.user.update({ where: { id }, data })], [data] as a function of
    the row. *)
Definition user_update (id : option string) (f : User -> User) : Act unit :=
  match id with
  | None => se_throw PrismaValidation
  | Some i =>
      let* db := se_get in
      match db_users db !! i with
      | None => se_throw PrismaNotFound
      | Some u => se_put (set_users db (<[i := f u]> (db_users db)))
      end
  end.

(** [db.user.update({ where: { id }, data: { role: newRole } })]: the
    new role is validated against the enum first. *)
Definition user_update_role (id newRole : option string) : Act unit :=
  match newRole ≫= role_of_string with
  | None => se_throw PrismaValidation
  | Some r => user_update id (set_role r)
  end.

(** The row [createMany] inserts: the column defaults fill the rest. *)
Definition new_student_row (id : string) (n : NewStudent) : Student :=
  mkStudent id (ns_name n) (ns_phone n) (ns_address n) (ns_prev_course n)
    NOT_CALLED None None None (ns_uploaded_by_id n).

(** A row conflicts when its id or its natural key is already present. *)
Definition student_conflict (ss : list Student) (s : Student) : bool :=
  bool_decide (st_id s ∈ st_id <$> ss \/ student_key s ∈ student_key <$> ss).

(** [INSERT ... ON CONFLICT DO NOTHING], row by row: each row draws an
    id; a conflicting row is skipped.  Returns the new table, the counter
    and the number of inserted rows. *)
Fixpoint insert_skip_duplicates (ss : list Student) (next : N)
    (rows : list NewStudent) : list Student * N * nat :=
  match rows with
  | [] => (ss, next, 0)
  | r :: rs =>
      let s := new_student_row (fresh_id next) r in
      if student_conflict ss s
      then insert_skip_duplicates ss (N.succ next) rs
      else let '(ss', n', c) := insert_skip_duplicates (ss ++ [s]) (N.succ next) rs in
           (ss', n', S c)
  end.

(** [db.student.createMany({ data, skipDuplicates: true })]. *)
Definition student_create_many (rows : list NewStudent) : Act nat :=
  let* db := se_get in
  let '(ss, n, c) := insert_skip_duplicates (db_students db) (db_next_id db) rows in
  let* _ := se_put (mkDB (db_users db) ss n) in
  se_ret c.

(** [db.student.update({ where: { id }, data })]. *)
Definition student_update (id : string) (f : Student -> Student) : Act unit :=
  let* db := se_get in
  if bool_decide (id ∈ st_id <$> db_students db)
  then se_put (mkDB (db_users db)
                 ((fun s => if bool_decide (st_id s = id) then f s else s)
                    <$> db_students db)
                 (db_next_id db))
  else se_throw PrismaNotFound.

(** The [where] filters of the student queries: [{}] or
    [{ uploadedById }]; an [undefined] value does not filter. *)
Inductive StudentWhere : Type :=
  | WhereAll
  | WhereUploadedBy (uid : option string).

Definition where_matches (w : StudentWhere) (s : Student) : bool :=
  match w with
  | WhereAll | WhereUploadedBy None => true
  | WhereUploadedBy (Some u) => bool_decide (st_uploaded_by_id s = u)
  end.

Definition student_select (w : StudentWhere) (ss : list Student) : list Student :=
  filter (fun s => where_matches w s = true) ss.

(** [db.student.count({ where })]. *)
Definition student_count (w : StudentWhere) : Act nat :=
  se_gets (fun db => length (student_select w (db_students db))).

(** [db.student.findMany({ where, orderBy: { createdAt: 'desc' } })]. *)
Definition student_find_many_desc (w : StudentWhere) : Act (list Student) :=
  se_gets (fun db => rev (student_select w (db_students db))).

(** [groupBy] with [_count: { _all: true }]: one entry per key value
    that occurs, with its number of rows. *)
Definition group_counts {K} `{EqDecision K} (vals : list K)
    (key : Student -> option K) (ss : list Student) : list (K * nat) :=
  filter (fun kc => 0 < kc.2)
    ((fun k => (k, length (filter (fun s => key s = Some k) ss))) <$> vals).

(** [groupBy({ by: ['futureInterest'], where: { ...where,
    futureInterest: { not: null } } })]. *)
Definition student_group_by_interest (w : StudentWhere)
  : Act (list (Interest * nat)) :=
  se_gets (fun db => group_counts Interest_values st_future_interest
                       (filter (fun s => is_Some (st_future_interest s))
                          (student_select w (db_students db)))).

(** [groupBy({ by: ['callStatus'], where })]. *)
Definition student_group_by_status (w : StudentWhere)
  : Act (list (CallStatus * nat)) :=
  se_gets (fun db => group_counts CallStatus_values
                       (fun s => Some (st_call_status s))
                       (student_select w (db_students db))).

(** The rows uploaded by [uid]. *)
Definition owned_by (uid : string) (ss : list Student) : list Student :=
  filter (fun s => st_uploaded_by_id s = uid) ss.

(** ** The store invariant *)

Record db_wf (db : DB) : Prop := {
  wf_email_unique : forall i j u v,
    db_users db !! i = Some u -> db_users db !! j = Some v ->
    user_email u = user_email v -> i = j;
  wf_student_ids : NoDup (st_id <$> db_students db);
  wf_student_keys : NoDup (student_key <$> db_students db);
  wf_fresh : forall k, (db_next_id db <= k)%N ->
    db_users db !! fresh_id k = None /\ fresh_id k ∉ st_id <$> db_students db;
}.

(** ** Lemmas on the store operations *)

Lemma set_users_users db us : db_users (set_users db us) = us.
Proof. reflexivity. Qed.

Lemma set_users_students db us : db_students (set_users db us) = db_students db.
Proof. reflexivity. Qed.

Lemma user_find_unique_reads_only id : se_reads_only (user_find_unique id).
Proof. destruct id; simpl; auto with crm. Qed.

Lemma user_find_by_email_reads_only e : se_reads_only (user_find_by_email e).
Proof. unfold user_find_by_email. auto with crm. Qed.

Lemma user_find_many_reads_only : se_reads_only user_find_many.
Proof. apply se_gets_reads_only. Qed.

#[export] Instance fresh_id_inj : Inj (=) (=) fresh_id.
Proof. intros n m H. unfold fresh_id in H. by apply (inj (String.app "c")), (inj pretty) in H. Qed.

Lemma email_taken_spec us e :
  email_taken us e = true <-> exists i u, us !! i = Some u /\ user_email u = e.
Proof. unfold email_taken. by rewrite bool_decide_eq_true. Qed.

Lemma email_taken_false us e i u :
  email_taken us e = false -> us !! i = Some u -> user_email u <> e.
Proof.
  intros Ht Hi He. assert (email_taken us e = true) as Ht'
    by (apply email_taken_spec; eauto). congruence.
Qed.

(** With unique e-mails, the lookup by e-mail finds the one row that
    has it, and nothing when no row has it. *)
Lemma user_find_by_email_some db i u :
  db_wf db -> db_users db !! i = Some u ->
  user_find_by_email (user_email u) db = Ok (Some (i, u)) db.
Proof.
  intros Hwf Hi. unfold user_find_by_email. se_step.
  destruct (list_find_elem_of (fun kv => user_email kv.2 = user_email u)
              (map_to_list (db_users db)) (i, u)) as [[k [j v]] Hf];
    [by apply elem_of_map_to_list | done |].
  rewrite Hf. apply list_find_Some in Hf as (Hk & Hv & _).
  apply list_elem_of_lookup_2, elem_of_map_to_list in Hk.
  assert (j = i) as -> by (eapply (wf_email_unique db Hwf); eauto).
  simplify_eq. done.
Qed.

Lemma user_find_by_email_none db e :
  email_taken (db_users db) e = false -> user_find_by_email e db = Ok None db.
Proof.
  intros Ht. unfold user_find_by_email. se_step.
  destruct (list_find _ _) as [[k [j v]]|] eqn:Hf; [|done].
  apply list_find_Some in Hf as (Hk & Hv & _).
  apply list_elem_of_lookup_2, elem_of_map_to_list in Hk.
  by apply (email_taken_false _ _ _ _ Ht Hk) in Hv.
Qed.

Lemma user_create_ok db name e pw r :
  db_wf db -> email_taken (db_users db) e = false ->
  user_create name (Some e) pw r db =
  Ok (fresh_id (db_next_id db))
     (mkDB (<[fresh_id (db_next_id db) := mkUser name e pw r]> (db_users db))
           (db_students db) (N.succ (db_next_id db))).
Proof.
  intros Hwf Ht. unfold user_create. se_step. rewrite Ht.
  destruct (wf_fresh db Hwf (db_next_id db)) as [-> _]; [lia|].
  reflexivity.
Qed.

Lemma user_create_taken db name e pw r :
  email_taken (db_users db) e = true ->
  user_create name (Some e) pw r db = Err PrismaUnique.
Proof. intros Ht. unfold user_create. se_step. by rewrite Ht. Qed.

Lemma user_create_inv db name em pw r id db' :
  user_create name em pw r db = Ok id db' ->
  exists e, em = Some e /\ email_taken (db_users db) e = false /\
    db_users db !! fresh_id (db_next_id db) = None /\
    id = fresh_id (db_next_id db) /\
    db' = mkDB (<[id := mkUser name e pw r]> (db_users db))
               (db_students db) (N.succ (db_next_id db)).
Proof.
  unfold user_create. destruct em as [e|]; se_step; [|discriminate].
  destruct (email_taken _ e) eqn:Ht; [discriminate|]. simpl.
  case_bool_decide as Hs; [discriminate|]. intros H; se_inv.
  exists e. repeat split; auto. by apply eq_None_not_Some.
Qed.

Lemma user_delete_inv db id u db' :
  user_delete id db = Ok u db' ->
  exists i, id = Some i /\ is_Some (db_users db !! i) /\
    db' = set_users db (delete i (db_users db)).
Proof.
  unfold user_delete. destruct id as [i|]; se_step; [|discriminate].
  destruct (db_users db !! i) eqn:E; [|discriminate]. intros H; se_inv. eauto.
Qed.

Lemma user_update_inv db id f u db' :
  user_update id f db = Ok u db' ->
  exists i v, id = Some i /\ db_users db !! i = Some v /\
    db' = set_users db (<[i := f v]> (db_users db)).
Proof.
  unfold user_update. destruct id as [i|]; se_step; [|discriminate].
  destruct (db_users db !! i) eqn:E; [|discriminate]. intros H; se_inv. eauto.
Qed.

(** A write to the users table that keeps the e-mails and drops no
    fresh id keeps the invariant. *)
Lemma wf_set_users db us :
  db_wf db ->
  (forall i j u v, us !! i = Some u -> us !! j = Some v ->
     user_email u = user_email v -> i = j) ->
  (forall k, (db_next_id db <= k)%N -> us !! fresh_id k = None) ->
  db_wf (set_users db us).
Proof.
  intros Hwf He Hf. constructor; simpl; try apply Hwf; auto.
  intros k Hk. split; [by apply Hf|]. by apply (wf_fresh db Hwf).
Qed.

Lemma user_delete_wf db id u db' :
  db_wf db -> user_delete id db = Ok u db' -> db_wf db'.
Proof.
  intros Hwf H. apply user_delete_inv in H as (i0 & -> & _ & ->).
  apply wf_set_users; [done| |].
  - intros i j v w Hi Hj. apply lookup_delete_Some in Hi as [_ Hi].
    apply lookup_delete_Some in Hj as [_ Hj]. by apply (wf_email_unique db Hwf).
  - intros k Hk. rewrite lookup_delete_None. right. by apply (wf_fresh db Hwf).
Qed.

Lemma user_update_wf db id f u db' :
  (forall v, user_email (f v) = user_email v) ->
  db_wf db -> user_update id f db = Ok u db' -> db_wf db'.
Proof.
  intros Hf Hwf H. apply user_update_inv in H as (i & v & -> & Hv & ->).
  apply wf_set_users; [done| |].
  - intros j1 j2 w1 w2 H1 H2.
    rewrite lookup_insert in H1. rewrite lookup_insert in H2.
    destruct (decide (i = j1)) as [<-|]; destruct (decide (i = j2)) as [<-|];
      simplify_eq; try done; rewrite ?Hf; intros E; eapply (wf_email_unique db Hwf); eauto.
  - intros k Hk. rewrite lookup_insert_ne; [by apply (wf_fresh db Hwf)|].
    intros ->. pose proof (proj1 (wf_fresh db Hwf k Hk)). congruence.
Qed.

Lemma set_password_wf db j v h :
  db_wf db -> db_users db !! j = Some v ->
  db_wf (set_users db (<[j := set_password h v]> (db_users db))).
Proof.
  intros Hwf Hv. apply (user_update_wf db (Some j) (set_password h) tt); [done|done|].
  unfold user_update. se_step. by rewrite Hv.
Qed.

Lemma user_create_wf db name em pw r id db' :
  db_wf db -> user_create name em pw r db = Ok id db' -> db_wf db'.
Proof.
  intros Hwf H. apply user_create_inv in H as (e & -> & Ht & Hnone & -> & ->).
  constructor; simpl; try apply Hwf.
  - intros i j u v Hi Hj. rewrite lookup_insert in Hi. rewrite lookup_insert in Hj.
    destruct (decide (fresh_id (db_next_id db) = i)) as [<-|];
      destruct (decide (fresh_id (db_next_id db) = j)) as [<-|]; simplify_eq; simpl.
    + done.
    + intros E. symmetry in E. by apply (email_taken_false _ _ _ _ Ht Hj) in E.
    + intros E. by apply (email_taken_false _ _ _ _ Ht Hi) in E.
    + eauto using wf_email_unique.
  - intros k Hk. rewrite lookup_insert_ne.
    + apply (wf_fresh db Hwf). lia.
    + intros Hk'%(inj fresh_id). lia.
Qed.

Lemma student_select_all ss : student_select WhereAll ss = ss.
Proof. apply filter_all, Forall_forall. done. Qed.

Lemma student_select_owned uid ss :
  student_select (WhereUploadedBy (Some uid)) ss = owned_by uid ss.
Proof.
  unfold student_select, owned_by. apply list_filter_iff. intros s. simpl.
  by rewrite bool_decide_eq_true.
Qed.

(** ** Lemmas on [groupBy] *)

Lemma sum_filter_pos {K} (l : list (K * nat)) :
  sum_list (snd <$> filter (fun kc => 0 < kc.2) l) = sum_list (snd <$> l).
Proof.
  induction l as [|[k c] l IH]; [done|]. rewrite filter_cons, (fmap_cons snd (k, c) l).
  cbn [sum_list snd]. rewrite <- IH.
  case_decide as Hc; [rewrite fmap_cons; reflexivity|].
  assert (c = 0) as -> by (cbn in Hc; lia). reflexivity.
Qed.

Lemma sum_list_fmap_add {A} (f g : A -> nat) (l : list A) :
  sum_list ((fun x => f x + g x) <$> l) = sum_list (f <$> l) + sum_list (g <$> l).
Proof.
  induction l as [|x l IH]; [done|]. rewrite !fmap_cons. cbn [sum_list id].
  rewrite IH. lia.
Qed.

Lemma sum_list_fmap_zero {A} (f : A -> nat) (l : list A) :
  (forall x, f x = 0) -> sum_list (f <$> l) = 0.
Proof.
  intros Hf. induction l as [|x l IH]; [done|]. rewrite fmap_cons. cbn [sum_list id].
  by rewrite IH, Hf.
Qed.

Lemma sum_indicator_some {K} `{EqDecision K} (vals : list K) k0 :
  NoDup vals ->
  sum_list ((fun k => if decide (Some k0 = Some k) then 1 else 0) <$> vals) =
  if decide (k0 ∈ vals) then 1 else 0.
Proof.
  induction 1 as [|k vals Hk Hnd IH]; [done|]. rewrite fmap_cons. cbn [sum_list id].
  rewrite IH.
  destruct (decide (Some k0 = Some k)) as [[= ->]|Hne].
  - rewrite decide_False, decide_True by set_solver. done.
  - assert (k0 ≠ k) by congruence.
    destruct (decide (k0 ∈ vals)); [rewrite decide_True | rewrite decide_False];
      set_solver.
Qed.

(** The counts of a [groupBy] over a complete, duplicate-free enumeration
    add up to the number of rows whose key is set. *)
Lemma group_counts_sum {K} `{EqDecision K} (vals : list K) (key : Student -> option K) ss :
  NoDup vals -> (forall k, k ∈ vals) ->
  sum_list (snd <$> group_counts vals key ss) = length (filter (fun s => is_Some (key s)) ss).
Proof.
  intros Hnd Hall. unfold group_counts. rewrite sum_filter_pos, <- list_fmap_compose.
  change (sum_list ((fun k => length (filter (fun s => key s = Some k) ss)) <$> vals) =
          length (filter (fun s => is_Some (key s)) ss)).
  induction ss as [|s ss IH].
  - rewrite (list_fmap_ext _ (fun _ => 0)) by (intros; done). clear.
    induction vals as [|k vals IHv]; [done|]. rewrite fmap_cons. cbn [sum_list id].
    by rewrite IHv.
  - rewrite (list_fmap_ext _ (fun k => (if decide (key s = Some k) then 1 else 0) +
                                      length (filter (fun s' => key s' = Some k) ss))).
    2:{ intros i k _. rewrite filter_cons. case_decide; simpl; lia. }
    rewrite sum_list_fmap_add, IH, filter_cons. destruct (key s) as [k0|] eqn:Hk.
    + rewrite sum_indicator_some, !decide_True by eauto. simpl. lia.
    + rewrite sum_list_fmap_zero by (intros k; by rewrite decide_False).
      rewrite decide_False by (intros [? ?]; discriminate). done.
Qed.

Lemma group_find_absent {K} `{EqDecision K} (vals : list K) (cnt : K -> nat) k :
  k ∉ vals ->
  List.find (fun kc => bool_decide (kc.1 = k))
    (filter (fun kc => 0 < kc.2) ((fun k' => (k', cnt k')) <$> vals)) = None.
Proof.
  induction vals as [|k' vals IH]; intros Hk; [done|].
  rewrite fmap_cons, filter_cons. case_decide; simpl; [|apply IH; set_solver].
  rewrite bool_decide_false by set_solver. apply IH. set_solver.
Qed.

(** Looking one key value up in a [groupBy] result: its entry when it
    occurs, nothing otherwise. *)
Lemma group_counts_find {K} `{EqDecision K} (vals : list K) (key : Student -> option K) ss k :
  NoDup vals -> k ∈ vals ->
  List.find (fun kc => bool_decide (kc.1 = k)) (group_counts vals key ss) =
  let c := length (filter (fun s => key s = Some k) ss) in
  if decide (0 < c) then Some (k, c) else None.
Proof.
  intros Hnd Hk. unfold group_counts. induction Hnd as [|k' vals Hk' Hnd IH];
    [set_solver|]. rewrite fmap_cons, filter_cons. simpl.
  destruct (decide (k' = k)) as [<-|Hne].
  - case_decide; simpl.
    + by rewrite bool_decide_true.
    + by apply group_find_absent.
  - assert (k ∈ vals) as Hk2 by set_solver.
    etransitivity; [|apply (IH Hk2)].
    destruct (decide (0 < length (filter (fun s => key s = Some k') ss))); simpl;
      try rewrite bool_decide_false by done; reflexivity.
Qed.

(** ** Lemmas on [createMany] with [skipDuplicates] *)

(** Every id drawn from [next] on is unused in the table. *)
Definition ids_fresh_from (ss : list Student) (next : N) : Prop :=
  forall k, (next <= k)%N -> fresh_id k ∉ st_id <$> ss.

Definition row_key (r : NewStudent) : string * string := (ns_name r, ns_phone r).

Lemma student_key_new_row id r : student_key (new_student_row id r) = row_key r.
Proof. done. Qed.

(** The rows already in the table stay, in order, and the inserted rows
    are rows of the batch. *)
Lemma insert_skip_prefix ss next rows :
  let '(ss', n', c) := insert_skip_duplicates ss next rows in
  exists added, ss' = ss ++ added /\ length added = c /\
    (n' = next + N.of_nat (length rows))%N /\
    Forall (fun s => exists r, r ∈ rows /\ s = new_student_row (st_id s) r) added.
Proof.
  revert ss next. induction rows as [|r rs IH]; intros ss next; simpl.
  { exists []. rewrite app_nil_r. split_and!; done || lia. }
  destruct (student_conflict ss _).
  - specialize (IH ss (N.succ next)).
    destruct (insert_skip_duplicates ss _ rs) as [[ss' n'] c].
    destruct IH as (added & -> & Hlen & Hn & Hall). exists added.
    split_and!; [done|done|lia|].
    eapply Forall_impl; [exact Hall|]. intros s (r' & ? & ?). exists r'. set_solver.
  - specialize (IH (ss ++ [new_student_row (fresh_id next) r]) (N.succ next)).
    destruct (insert_skip_duplicates _ _ rs) as [[ss' n'] c].
    destruct IH as (added & -> & Hlen & Hn & Hall).
    exists (new_student_row (fresh_id next) r :: added).
    rewrite <- app_assoc. split_and!; [done|simpl; lia|lia|].
    constructor; [exists r; set_solver|].
    eapply Forall_impl; [exact Hall|]. intros s (r' & ? & ?). exists r'. set_solver.
Qed.

Lemma insert_skip_wf ss next rows :
  NoDup (st_id <$> ss) -> NoDup (student_key <$> ss) -> ids_fresh_from ss next ->
  let '(ss', n', c) := insert_skip_duplicates ss next rows in
  NoDup (st_id <$> ss') /\ NoDup (student_key <$> ss') /\ ids_fresh_from ss' n'.
Proof.
  revert ss next. induction rows as [|r rs IH]; intros ss next Hid Hkey Hfr; simpl.
  { done. }
  destruct (student_conflict ss _) eqn:Hc.
  - apply IH; [done|done|]. intros k Hk. apply Hfr. lia.
  - pose proof (IH (ss ++ [new_student_row (fresh_id next) r]) (N.succ next)) as IH'.
    destruct (insert_skip_duplicates (ss ++ _) _ rs) as [[ss' n'] c]. apply IH'.
    + rewrite fmap_app. apply NoDup_app. split_and!; [done| |by apply NoDup_singleton].
      intros x Hx. simpl. rewrite list_elem_of_singleton. intros ->.
      by apply (Hfr next); [lia|].
    + rewrite fmap_app. apply NoDup_app. split_and!; [done| |by apply NoDup_singleton].
      intros x Hx. simpl. rewrite list_elem_of_singleton. intros ->.
      unfold student_conflict in Hc. apply bool_decide_eq_false in Hc. tauto.
    + intros k Hk. rewrite fmap_app, elem_of_app.
      intros [Hin | Heq%list_elem_of_singleton%(inj fresh_id)]; [|lia].
      by apply (Hfr k); [lia|].
Qed.

(** With fresh ids, a skipped row is a duplicate of its natural key: after
    the batch, the key of every row of the batch is in the table. *)
Lemma insert_skip_keys_present ss next rows :
  ids_fresh_from ss next ->
  let '(ss', n', c) := insert_skip_duplicates ss next rows in
  forall r, r ∈ rows -> row_key r ∈ student_key <$> ss'.
Proof.
  revert ss next. induction rows as [|r rs IH]; intros ss next Hfr; simpl.
  { intros r Hr. set_solver. }
  pose proof (insert_skip_prefix ss (N.succ next) rs) as Hpre1.
  pose proof (insert_skip_prefix (ss ++ [new_student_row (fresh_id next) r])
                (N.succ next) rs) as Hpre2.
  destruct (student_conflict ss _) eqn:Hc.
  - specialize (IH ss (N.succ next) ltac:(intros k Hk; apply Hfr; lia)).
    destruct (insert_skip_duplicates ss _ rs) as [[ss' n'] c].
    destruct Hpre1 as (added & -> & _).
    intros r' [->|Hr']%elem_of_cons; [|by apply IH].
    unfold student_conflict in Hc. apply bool_decide_eq_true in Hc as [Hid|Hk].
    + exfalso. by apply (Hfr next); [lia|].
    + rewrite fmap_app, elem_of_app. by left.
  - assert (ids_fresh_from (ss ++ [new_student_row (fresh_id next) r]) (N.succ next)) as Hfr'.
    { intros k Hk. rewrite fmap_app, elem_of_app.
      intros [Hin | Heq%list_elem_of_singleton%(inj fresh_id)]; [|lia].
      by apply (Hfr k); [lia|]. }
    specialize (IH _ _ Hfr').
    destruct (insert_skip_duplicates _ _ rs) as [[ss' n'] c].
    destruct Hpre2 as (added & -> & _).
    intros r' [->|Hr']%elem_of_cons; [|by apply IH].
    rewrite !fmap_app, !elem_of_app. left. right. simpl. set_solver.
Qed.

(** A batch whose keys are all in the table inserts nothing. *)
Lemma insert_skip_all_present ss next rows :
  (forall r, r ∈ rows -> row_key r ∈ student_key <$> ss) ->
  insert_skip_duplicates ss next rows = (ss, (next + N.of_nat (length rows))%N, 0).
Proof.
  revert next. induction rows as [|r rs IH]; intros next Hall; simpl.
  { f_equal. f_equal. lia. }
  assert (student_conflict ss (new_student_row (fresh_id next) r) = true) as ->.
  { apply bool_decide_eq_true. right. apply Hall. set_solver. }
  rewrite IH; [|set_solver]. f_equal. f_equal. lia.
Qed.

Lemma student_create_many_prefix rows db c db' :
  student_create_many rows db = Ok c db' ->
  exists added, db_students db' = db_students db ++ added.
Proof.
  intros H. unfold student_create_many in H. se_step.
  pose proof (insert_skip_prefix (db_students db) (db_next_id db) rows) as Hp.
  destruct (insert_skip_duplicates _ _ rows) as [[ss' n'] c']. se_inv.
  destruct Hp as (added & -> & _). by exists added.
Qed.

Lemma student_create_many_wf db rows c db' :
  db_wf db -> student_create_many rows db = Ok c db' -> db_wf db'.
Proof.
  intros Hwf H. unfold student_create_many in H. se_step.
  pose proof (insert_skip_wf (db_students db) (db_next_id db) rows
                (wf_student_ids db Hwf) (wf_student_keys db Hwf)
                (fun k Hk => proj2 (wf_fresh db Hwf k Hk))) as Hw.
  pose proof (insert_skip_prefix (db_students db) (db_next_id db) rows) as Hp.
  destruct (insert_skip_duplicates _ _ rows) as [[ss' n'] c']. se_inv.
  destruct Hw as (Hid & Hkey & Hfr). destruct Hp as (_ & _ & _ & Hn & _).
  constructor; simpl; try apply Hwf; auto.
  intros k Hk. split; [|by apply Hfr]. apply (wf_fresh db Hwf). lia.
Qed.

(** ** Lemmas on [student.update] *)

Lemma student_update_inv db id f u db' :
  student_update id f db = Ok u db' ->
  id ∈ st_id <$> db_students db /\
  db' = mkDB (db_users db)
          ((fun s => if bool_decide (st_id s = id) then f s else s) <$> db_students db)
          (db_next_id db).
Proof.
  unfold student_update. se_step. case_bool_decide as Hin; [|discriminate].
  intros H; se_inv. done.
Qed.

Lemma student_update_fmap_eq {B} (g : Student -> B) id f (ss : list Student) :
  (forall s, g (f s) = g s) ->
  g <$> ((fun s => if bool_decide (st_id s = id) then f s else s) <$> ss) = g <$> ss.
Proof.
  intros Hg. rewrite <- list_fmap_compose. apply list_fmap_ext.
  intros i s _. simpl. case_bool_decide; auto.
Qed.

Lemma student_update_wf db id f u db' :
  (forall s, st_id (f s) = st_id s) -> (forall s, student_key (f s) = student_key s) ->
  db_wf db -> student_update id f db = Ok u db' -> db_wf db'.
Proof.
  intros Hid Hkey Hwf H. apply student_update_inv in H as [_ ->].
  constructor; simpl; try apply Hwf;
    rewrite ?(student_update_fmap_eq st_id), ?(student_update_fmap_eq student_key);
    try apply Hwf; auto.
Qed.

(** ** The reads *)

Lemma student_count_reads_only w : se_reads_only (student_count w).
Proof. apply se_gets_reads_only. Qed.

Lemma student_find_many_desc_reads_only w : se_reads_only (student_find_many_desc w).
Proof. apply se_gets_reads_only. Qed.

Lemma student_group_by_interest_reads_only w : se_reads_only (student_group_by_interest w).
Proof. apply se_gets_reads_only. Qed.

Lemma student_group_by_status_reads_only w : se_reads_only (student_group_by_status w).
Proof. apply se_gets_reads_only. Qed.

(** ** The writes as predicate transformers *)

(** A predicate that only looks at the users table. *)
Definition on_users (P : DB -> Prop) : Prop :=
  forall db db', db_users db' = db_users db -> P db -> P db'.

(** A predicate that only looks at the students table. *)
Definition on_students (P : DB -> Prop) : Prop :=
  forall db db', db_students db' = db_students db -> P db -> P db'.

Lemma user_delete_preserves_wf id : se_preserves db_wf (user_delete id).
Proof. intros db u db'. apply user_delete_wf. Qed.

Lemma user_update_password_preserves_wf id h :
  se_preserves db_wf (user_update id (set_password h)).
Proof. intros db u db'. by apply user_update_wf. Qed.

Lemma user_update_role_preserves_wf id r :
  se_preserves db_wf (user_update_role id r).
Proof.
  unfold user_update_role. case_match; [|auto with crm].
  intros db u db'. by apply user_update_wf.
Qed.

Lemma user_create_preserves_wf name em pw r :
  se_preserves db_wf (user_create name em pw r).
Proof. intros db u db'. apply user_create_wf. Qed.

Lemma student_create_many_preserves_wf rows : se_preserves db_wf (student_create_many rows).
Proof. intros db u db'. apply student_create_many_wf. Qed.

Lemma student_update_preserves_wf id f :
  (forall s, st_id (f s) = st_id s) -> (forall s, student_key (f s) = student_key s) ->
  se_preserves db_wf (student_update id f).
Proof. intros Hid Hkey db u db'. by apply student_update_wf. Qed.

Lemma student_create_many_preserves_users P rows :
  on_users P -> se_preserves P (student_create_many rows).
Proof.
  intros HP db c db' H0 H. unfold student_create_many in H. se_step.
  destruct (insert_skip_duplicates _ _ rows) as [[ss' n'] c']. se_inv.
  by apply (HP db).
Qed.

Lemma student_update_preserves_users P id f :
  on_users P -> se_preserves P (student_update id f).
Proof. intros HP db u db' H0 H. apply student_update_inv in H as [_ ->]. by apply (HP db). Qed.

Lemma set_users_preserves_students P db us :
  on_students P -> P db -> P (set_users db us).
Proof. intros HP. by apply HP. Qed.

Lemma user_delete_preserves_students P id :
  on_students P -> se_preserves P (user_delete id).
Proof.
  intros HP db u db' H0 H. apply user_delete_inv in H as (? & _ & _ & ->).
  by apply set_users_preserves_students.
Qed.

Lemma user_update_preserves_students P id f :
  on_students P -> se_preserves P (user_update id f).
Proof.
  intros HP db u db' H0 H. apply user_update_inv in H as (? & ? & _ & _ & ->).
  by apply set_users_preserves_students.
Qed.

Lemma user_update_role_preserves_students P id r :
  on_students P -> se_preserves P (user_update_role id r).
Proof.
  intros HP. unfold user_update_role. case_match; [|auto with crm].
  by apply user_update_preserves_students.
Qed.

Lemma user_create_preserves_students P name em pw r :
  on_students P -> se_preserves P (user_create name em pw r).
Proof.
  intros HP db u db' H0 H. apply user_create_inv in H as (? & _ & _ & _ & _ & ->).
  by apply (HP db).
Qed.

End Prisma.

#[export] Hint Resolve Prisma.user_delete_preserves_wf Prisma.user_update_password_preserves_wf
  Prisma.user_update_role_preserves_wf Prisma.user_create_preserves_wf
  Prisma.student_create_many_preserves_wf Prisma.student_update_preserves_wf
  Prisma.student_create_many_preserves_users
  Prisma.student_update_preserves_users Prisma.user_delete_preserves_students
  Prisma.user_update_preserves_students Prisma.user_update_role_preserves_students
  Prisma.user_create_preserves_students : crm.

#[export] Hint Resolve Prisma.student_count_reads_only Prisma.student_find_many_desc_reads_only
  Prisma.student_group_by_interest_reads_only Prisma.student_group_by_status_reads_only : crm.
#[export] Hint Resolve Prisma.user_find_unique_reads_only Prisma.user_find_by_email_reads_only
  Prisma.user_find_many_reads_only : crm.
