(* ===== verification/Auth.v ===== *)
(** * Sessions, role re-fetch and the credential check ([src/auth.ts])

    A request carries the session token that next-auth issued at sign-in:
    the user's id ([sub]), name and e-mail as they were then.  [auth()]
    decodes it and runs the [session] callback of [src/auth.ts], which
    copies [token.sub] into [session.user.id] and reads the user's current
    role from the database: the role an action sees is never the one of
    the sign-in, but the one stored now ([None] when the user has been
    deleted since).  [getCurrentUser] of [src/app/actions.ts] returns
    [session?.user].

    [authorize] is the credential provider: the e-mail must pass zod's
    [z.string().email()] check (a library predicate, taken as the section
    variable [zod_email]), the user is looked up by e-mail and the password
    is compared with bcrypt. *)

From S2P Require Import Prelude JsValue Schema Store.
Import Js Prisma.

Module Auth.

(** The JWT of the session cookie: next-auth's default [jwt] step copies
    the signed-in user's id, name and e-mail into it; the [jwt] callback
    of [src/auth.ts] returns it unchanged. *)
Record Token : Type := mkToken {
  tok_sub : string;
  tok_name : option string;
  tok_email : option string;
}.

(** [session.user] as the actions read it. *)
Record SessionUser : Type := mkSessionUser {
  su_id : option string;
  su_name : option string;
  su_email : option string;
  su_role : option Role;
}.

(** The [session] callback: when [token.sub] is set, [session.user.id]
    becomes [token.sub] and [session.user.role] the stored role
    ([u?.role]). *)
Definition session_callback (t : Token) : Act SessionUser :=
  if bool_decide (tok_sub t <> "") then
    let* u := user_find_unique (Some (tok_sub t)) in
    se_ret (mkSessionUser (Some (tok_sub t)) (tok_name t) (tok_email t) (user_role <$> u))
  else se_ret (mkSessionUser None (tok_name t) (tok_email t) None).

(** [auth()]: no cookie, no session. *)
Definition auth (tok : option Token) : Act (option SessionUser) :=
  match tok with
  | None => se_ret None
  | Some t => let* su := session_callback t in se_ret (Some su)
  end.

(** [getCurrentUser()]: [session?.user]. *)
Definition getCurrentUser (tok : option Token) : Act (option SessionUser) :=
  let* session := auth tok in
  se_ret session.

(** [(session?.user as any).role]: reading [.role] of [undefined] throws. *)
Definition session_role (session : option SessionUser) : Act (option Role) :=
  match session with
  | None => se_throw TypeError
  | Some su => se_ret (su_role su)
  end.

(** [role === r] on the role read from the session ([undefined] is no
  role). *)
Definition role_is (r : option Role) (x : Role) : bool := bool_decide (r = Some x).

(** [bcrypt.hash(password, cost)]: a [null] password is rejected. *)
Definition bcrypt_hash (password : option string) (cost : nat) : Act Hash :=
  match password with
  | None => se_throw (ErrorMsg "Illegal arguments: object, number")
  | Some p => se_ret (mkHash cost p)
  end.

(** [bcrypt.compare(password, hash)]. *)
Definition bcrypt_compare (password : string) (h : Hash) : bool :=
  String.eqb password (hash_secret h).

Section Credentials.
  (** zod's e-mail format check. *)
  Variable zod_email : string -> bool.

  (** [authorize(credentials)]: the user row, or [null]. *)
Definition authorize (email password : option string)
    : Act (option (string * User)) :=
    match email, password with
    | Some e, Some p =>
        if zod_email e then
          let* found := user_find_by_email e in
          match found with
          | None => se_ret None
          | Some (id, u) =>
              if bcrypt_compare p (user_password u) then se_ret (Some (id, u))
              else se_ret None
          end
        else se_ret None
    | _, _ => se_ret None
    end.
(** The outcome of the login form: signed in (next-auth sets the session
  cookie for the user and redirects), or the message shown on the form. *)
Inductive LoginOutcome : Type :=
  | SignedIn (id : string) (u : User)
  | LoginMessage (msg : string).

(** [authenticate(prevState, formData)]: [signIn('credentials', formData)]
    runs [authorize]; a [null] user is next-auth's [CredentialsSignin]
    error, reported as "Invalid credentials.". *)
Definition authenticate (fd : FormData) : Act LoginOutcome :=
  let* found := authorize (form_get fd "email") (form_get fd "password") in
  match found with
  | None => se_ret (LoginMessage "Invalid credentials.")
  | Some (id, u) => se_ret (SignedIn id u)
  end.
End Credentials.

  (** The token issued for a user who signed in. *)
Definition token_of (id : string) (u : User) : Token :=
    mkToken id (user_name u) (Some (user_email u)).

  (** ** Lemmas *)

  (** A token that names user [i], who is in the store as [a]. *)
Definition signed_in (db : DB) (t : Token) (i : string) (a : User) : Prop :=
    tok_sub t = i /\ i <> "" /\ db_users db !! i = Some a.

  (** The session a token yields on a store: [session.user.id] is
    [token.sub] (when set) and the role is the one stored now. *)
Definition session_of (db : DB) (t : Token) : SessionUser :=
  if bool_decide (tok_sub t <> "")
  then mkSessionUser (Some (tok_sub t)) (tok_name t) (tok_email t)
         (user_role <$> db_users db !! tok_sub t)
  else mkSessionUser None (tok_name t) (tok_email t) None.

Lemma auth_some db t : auth (Some t) db = Ok (Some (session_of db t)) db.
Proof.
  unfold auth, session_callback, session_of. se_step.
  case_bool_decide; reflexivity.
Qed.

Lemma getCurrentUser_some db t :
  getCurrentUser (Some t) db = Ok (Some (session_of db t)) db.
Proof. unfold getCurrentUser. se_step. by rewrite (auth_some db t). Qed.

(** The session of a signed-in user: its id and the role stored now. *)
Lemma session_of_signed_in db t i a :
  signed_in db t i a ->
  session_of db t = mkSessionUser (Some i) (tok_name t) (tok_email t) (Some (user_role a)).
Proof.
  intros (<- & Hne & Hu). unfold session_of. rewrite bool_decide_true by done.
  by rewrite Hu.
Qed.

Lemma auth_signed_in db t i a :
  signed_in db t i a ->
  auth (Some t) db =
  Ok (Some (mkSessionUser (Some i) (tok_name t) (tok_email t) (Some (user_role a)))) db.
Proof. intros Hs. by rewrite auth_some, (session_of_signed_in db t i a Hs). Qed.

Lemma auth_reads_only tok : se_reads_only (auth tok).
Proof.
    destruct tok as [t|]; unfold auth, session_callback; [|auto with crm].
    apply se_bind_reads_only; [|auto with crm].
    case_bool_decide; [|auto with crm]. apply se_bind_reads_only; auto with crm.
Qed.

Lemma getCurrentUser_reads_only tok : se_reads_only (getCurrentUser tok).
Proof. unfold getCurrentUser. auto using auth_reads_only with crm. Qed.

Lemma session_role_reads_only s : se_reads_only (session_role s).
Proof. destruct s; simpl; auto with crm. Qed.

Lemma bcrypt_hash_reads_only pw c : se_reads_only (bcrypt_hash pw c).
Proof. destruct pw; simpl; auto with crm. Qed.

(** Signing in reads the users table and writes nothing. *)
Lemma authorize_reads_only zod e p : se_reads_only (authorize zod e p).
Proof.
  unfold authorize. destruct e, p; auto with crm. destruct (zod _); [|auto with crm].
  apply se_bind_reads_only; [auto with crm|]. intros [[? ?]|]; [case_match|]; auto with crm.
Qed.

Lemma bcrypt_hash_inv pw c h db db' :
    bcrypt_hash pw c db = Ok h db' -> pw = Some (hash_secret h) /\ hash_cost h = c /\ db' = db.
Proof. destruct pw; simpl; intros H; se_inv; done. Qed.

(** The credential check on a stored row: the row is found by its
    e-mail, and the password decides. *)
Lemma authorize_row zod_email db i u p :
  db_wf db -> db_users db !! i = Some u -> zod_email (user_email u) = true ->
  authorize zod_email (Some (user_email u)) (Some p) db =
    Ok (if bcrypt_compare p (user_password u) then Some (i, u) else None) db.
Proof.
  intros Hwf Hi Hz. unfold authorize. rewrite Hz.
  rewrite (se_bind_ok _ _ _ _ _ (user_find_by_email_some db i u Hwf Hi)).
  by destruct (bcrypt_compare p (user_password u)).
Qed.

(** The login action: with unique e-mails, a stored user's e-mail and
    password sign that user in, any other password gets "Invalid
    credentials.", and nothing is written. *)
Theorem authenticate_spec zod_email db i u fd p :
  db_wf db -> db_users db !! i = Some u ->
  form_get fd "email" = Some (user_email u) -> form_get fd "password" = Some p ->
  zod_email (user_email u) = true ->
  authenticate zod_email fd db =
    Ok (if bcrypt_compare p (user_password u) then SignedIn i u
        else LoginMessage "Invalid credentials.") db.
Proof.
  intros Hwf Hi He Hp Hz. unfold authenticate. rewrite He, Hp.
  rewrite (se_bind_ok _ _ _ _ _ (authorize_row zod_email db i u p Hwf Hi Hz)).
  by destruct (bcrypt_compare p (user_password u)).
Qed.

End Auth.

#[export] Hint Resolve Auth.auth_reads_only Auth.getCurrentUser_reads_only
  Auth.session_role_reads_only Auth.bcrypt_hash_reads_only Auth.authorize_reads_only : crm.
