(* ===== verification/Fixtures.v ===== *)
(** * A concrete store on which the theorems are instantiated

    Three staff accounts under the ids the store hands out first (a Super
    Admin as created by [src/prisma/seed.ts], an Admin and a Faculty
    member), each with the session token of its sign-in, and a small
    calling list with rows uploaded by the Admin and by the Faculty
    member.  [demo_db_wf] shows the store is well formed, so the
    witnesses can use the theorems that assume it. *)

From S2P Require Import Prelude Schema Store Auth.
Import Prisma Auth.

Definition demo_super : User :=
  mkUser (Some "Super Admin") "admin@college.edu" (mkHash 10 "admin123") SUPER_ADMIN.
Definition demo_admin : User :=
  mkUser (Some "Asha") "asha@college.edu" (mkHash 10 "asha-pass") ADMIN.
Definition demo_faculty : User :=
  mkUser (Some "Farid") "farid@college.edu" (mkHash 10 "farid-pass") FACULTY.

Definition id_super : string := fresh_id 0.
Definition id_admin : string := fresh_id 1.
Definition id_faculty : string := fresh_id 2.

Definition demo_users : gmap string User :=
  <[id_super := demo_super]> (<[id_admin := demo_admin]> (<[id_faculty := demo_faculty]> ∅)).

(** Two students uploaded by the Admin, one by the Faculty member. *)
Definition demo_students : list Student :=
  [ mkStudent (fresh_id 3) "Ravi" "9000000001" None None NOT_CALLED None None None id_admin;
    mkStudent (fresh_id 4) "Meera" "9000000002" None (Some "BCA") INTERESTED (Some MCA)
      None (Some "Asha") id_admin;
    mkStudent (fresh_id 5) "Kiran" "9000000003" None None RINGING None None None id_faculty ].

Definition demo_db : DB := mkDB demo_users demo_students 6.

Definition tok_super : Token := token_of id_super demo_super.
Definition tok_admin : Token := token_of id_admin demo_admin.
Definition tok_faculty : Token := token_of id_faculty demo_faculty.

Lemma fresh_id_ne_empty k : fresh_id k <> "".
Proof. discriminate. Qed.

Lemma fresh_id_ne k l : k <> l -> fresh_id k <> fresh_id l.
Proof. intros Hne Heq%(inj fresh_id). done. Qed.

Lemma demo_db_wf : db_wf demo_db.
Proof.
  constructor; simpl.
  - intros i j u v Hi Hj. unfold demo_users in *.
    repeat match goal with
           | H : <[_:=_]> _ !! _ = Some _ |- _ =>
               apply lookup_insert_Some in H as [[<- <-]|[? H]]
           | H : ∅ !! _ = Some _ |- _ => rewrite lookup_empty in H; discriminate
           end; done.
  - change (NoDup (fresh_id <$> [3; 4; 5]%N)).
    apply NoDup_fmap_2; [apply _|].
    repeat constructor; rewrite ?elem_of_cons, ?elem_of_nil; intuition discriminate.
  - repeat constructor; rewrite ?elem_of_cons, ?elem_of_nil; intuition discriminate.
  - intros k Hk. unfold demo_users, demo_students. simpl.
    rewrite !lookup_insert_ne, lookup_empty by (apply fresh_id_ne; lia).
    split; [done|]. rewrite !elem_of_cons.
    intros [?%(inj fresh_id)|[?%(inj fresh_id)|[?%(inj fresh_id)|?%elem_of_nil]]];
      [lia|lia|lia|done].
Qed.

Lemma demo_signed_in_super : signed_in demo_db tok_super id_super demo_super.
Proof. split_and!; [done | apply fresh_id_ne_empty | reflexivity]. Qed.
Lemma demo_signed_in_admin : signed_in demo_db tok_admin id_admin demo_admin.
Proof. split_and!; [done | apply fresh_id_ne_empty | reflexivity]. Qed.
Lemma demo_signed_in_faculty : signed_in demo_db tok_faculty id_faculty demo_faculty.
Proof. split_and!; [done | apply fresh_id_ne_empty | reflexivity]. Qed.

#[export] Hint Resolve demo_db_wf demo_signed_in_super demo_signed_in_admin
  demo_signed_in_faculty : crm.
