(* ===== verification/Accounts.v ===== *)
(** * Account management: the admin actions and the policy they implement

    [src/app/actions.ts] has five actions on accounts: [createFaculty],
    [deleteFaculty], [adminResetPassword], [updateUserRole] and
    [updateOwnPassword].  Each resolves the session with [auth()], checks
    the caller's role (re-read from the store by the session callback),
    reads the target when there is one, and performs one write.  The
    client [FacultyClient] ([faculty-client.tsx]) decides with [canManage]
    which buttons to show.

    [Spec] states the authorization policy of the specification (section
    4.1): [canManageAccount], [canChangeRole], [canCreateAccount].  The
    refinement theorems give the full result of each action for a
    signed-in caller in terms of that policy and show where the code
    departs from it.  Section [AccountInversion] describes what a
    successful run of each action can have written (used by [System.v]),
    [AccountRuns] the runs of an allowed caller that succeed (used by the
    faculty page's controls in [Views.v] and the liveness of [System.v]);
    [FacultyPageProperties] relates the page, its [canManage] rule and the
    role select's [handleRoleChange] to the policy; [LoginProperties]
    shows that the accounts [createFaculty] creates and the passwords
    [adminResetPassword] sets are the ones [authorize] accepts. *)

From S2P Require Import Prelude JsValue Schema Store Auth Fixtures.
Import Js Prisma Auth.

(** ** The policy of the specification *)
Module Spec.

  (** An authenticated caller: its id and its current role. *)
Record Principal : Type := mkPrincipal { p_id : string; p_role : Role }.

  (** [canManageAccount(actor, target)]: not oneself, and either a Super
      Admin, or an Admin acting on a Faculty account. *)
Definition canManageAccount (actor : Principal) (target_id : string) (target_role : Role)
    : bool :=
    negb (String.eqb (p_id actor) target_id) &&
    (bool_decide (p_role actor = SUPER_ADMIN) ||
     (bool_decide (p_role actor = ADMIN) && bool_decide (target_role = FACULTY))).

  (** [canChangeRole(actor)]: only the top tier. *)
Definition canChangeRole (actor : Principal) : bool :=
    bool_decide (p_role actor = SUPER_ADMIN).

  (** [canCreateAccount(actor)]: Super Admin or Admin. *)
Definition canCreateAccount (actor : Principal) : bool :=
    bool_decide (p_role actor = SUPER_ADMIN) || bool_decide (p_role actor = ADMIN).

End Spec.

Module Accounts.

    (** [currentUserRole !== Role.SUPER_ADMIN && currentUserRole !== Role.ADMIN] *)
Definition not_admin_or_super (r : option Role) : bool :=
    negb (role_is r SUPER_ADMIN) && negb (role_is r ADMIN).

  (** [!newPassword || newPassword.length < 6] *)
Definition password_too_short (p : option string) : bool :=
    match p with
    | None => true
    | Some s => bool_decide (s = "") || (String.length s <? 6)
    end.

  (** [targetUser.role === Role.ADMIN || targetUser.role === Role.SUPER_ADMIN] *)
Definition is_admin_tier (r : Role) : bool :=
    bool_decide (r = ADMIN) || bool_decide (r = SUPER_ADMIN).

  (** [createFaculty(formData)] *)
Definition createFaculty (tok : option Token) (fd : FormData) : Act unit :=
    let* session := auth tok in
    let* currentUserRole := session_role session in
    if not_admin_or_super currentUserRole then se_throw (ErrorMsg "Forbidden") else
    let name := form_get fd "name" in
    let email := form_get fd "email" in
    let password := form_get fd "password" in
    let* hashedPassword := bcrypt_hash password 10 in
    let* _ := user_create name email hashedPassword FACULTY in
    se_ret tt.

  (** [deleteFaculty(formData)] *)
Definition deleteFaculty (tok : option Token) (fd : FormData) : Act unit :=
    let* session := auth tok in
    let* currentUserRole := session_role session in
    let currentUserId := session ≫= su_id in
    let targetUserId := form_get fd "id" in
    if not_admin_or_super currentUserRole then se_throw (ErrorMsg "Forbidden") else
    let* targetUser := user_find_unique targetUserId in
    match targetUser with
    | None => se_ret tt
    | Some target =>
        if role_is currentUserRole ADMIN && is_admin_tier (user_role target)
        then se_throw (ErrorMsg "Admins can only remove Faculty.")
        else if strict_eq_opt targetUserId currentUserId then se_ret tt
        else user_delete targetUserId
    end.

  (** [adminResetPassword(formData)] *)
Definition adminResetPassword (tok : option Token) (fd : FormData) : Act Reply :=
    let* session := auth tok in
    let* currentUserRole := session_role session in
    if not_admin_or_super currentUserRole then se_throw (ErrorMsg "Forbidden") else
    let id := form_get fd "id" in
    let newPassword := form_get fd "newPassword" in
    if password_too_short newPassword
    then se_throw (ErrorMsg "Password must be at least 6 characters") else
    let* targetUser := user_find_unique id in
    match targetUser with
    | None => se_throw (ErrorMsg "User not found")
    | Some target =>
        if role_is currentUserRole ADMIN && is_admin_tier (user_role target)
        then se_throw (ErrorMsg "Admins can only reset passwords for Faculty.")
        else
          let* hashedPassword := bcrypt_hash newPassword 10 in
          let* _ := user_update id (set_password hashedPassword) in
          se_ret Success
    end.

  (** [updateUserRole(formData)] *)
Definition updateUserRole (tok : option Token) (fd : FormData) : Act Reply :=
    let* session := auth tok in
    let* currentUserRole := session_role session in
    if negb (role_is currentUserRole SUPER_ADMIN)
    then se_ret (Failure "Only Super Admin can change roles.") else
    let targetUserId := form_get fd "id" in
    let newRole := form_get fd "newRole" in
    let currentUserId := session ≫= su_id in
    if strict_eq_opt targetUserId currentUserId
    then se_ret (Failure "You cannot change your own role.") else
    let* _ := user_update_role targetUserId newRole in
    se_ret Success.

  (** [updateOwnPassword(formData)] *)
Definition updateOwnPassword (tok : option Token) (fd : FormData) : Act Reply :=
    let* session := auth tok in
    match session with
    | None => se_throw (ErrorMsg "Unauthorized")
    | Some su =>
        let newPassword := form_get fd "newPassword" in
        if password_too_short newPassword
        then se_throw (ErrorMsg "Password must be at least 6 characters") else
        let* hashedPassword := bcrypt_hash newPassword 10 in
        let* _ := user_update (su_id su) (set_password hashedPassword) in
        se_ret Success
    end.

(** [const isSuperAdmin = currentUser.role === "SUPER_ADMIN"] and
    [isAdmin] of [FacultyClient]. *)
Definition isSuperAdmin (currentUser : SessionUser) : bool := role_is (su_role currentUser) SUPER_ADMIN.

Definition isAdmin (currentUser : SessionUser) : bool := role_is (su_role currentUser) ADMIN.

(** [canManage] of [FacultyClient], for the row of user [f] (id [fid]). *)
Definition canManage (currentUser : SessionUser) (fid : string) (f : User) : bool :=
    let isMe := strict_eq_opt (Some fid) (su_id currentUser) in
    let targetIsSuper := bool_decide (user_role f = SUPER_ADMIN) in
    let targetIsAdmin := bool_decide (user_role f = ADMIN) in
    negb isMe && (isSuperAdmin currentUser ||
                  (isAdmin currentUser && negb targetIsSuper && negb targetIsAdmin)).

(** ** The Faculty Management page *)

(** What [FacultyPage] renders: a redirect, or the user list handed to
    [FacultyClient] with the session's user. *)
Inductive FacultyView : Type :=
  | RedirectLogin
  | RedirectDashboard
  | FacultyList (users : list (string * User)) (currentUser : SessionUser).

(** [FacultyPage()] of [src/app/dashboard/faculty/page.tsx]; the second
    query ([faculty], Faculty rows only) is never used by the page. *)
Definition facultyPage (tok : option Token) : Act FacultyView :=
  let* session := auth tok in
  match session with
  | None => se_ret RedirectLogin
  | Some su =>
      if not_admin_or_super (su_role su) then se_ret RedirectDashboard else
      let* users := user_find_many in
      se_ret (FacultyList users su)
  end.

(** The toast [handleRoleChange] shows. *)
Inductive Toast : Type :=
  | ToastError (description : string)
  | ToastInfo (title description : string).

(** [handleRoleChange(userId, newRole)] of [FacultyClient]: the role
    select's handler posts the form to [updateUserRole]. *)
Definition handleRoleChange (tok : option Token) (userId newRole : string) : Act Toast :=
  let* res := updateUserRole tok [("id", userId); ("newRole", newRole)] in
  match res with
  | Failure e => se_ret (ToastError e)
  | Success => se_ret (ToastInfo "Updated" "User role changed.")
  end.

(** ** The profile dialog *)

(** The [required minLength={6}] constraints of the new-password input of
    [UserProfileDialog]: the browser submits the form only when they hold. *)
Definition password_input_valid (v : string) : bool :=
  negb (String.eqb v "") && (6 <=? String.length v).

(** [handleSubmit(formData)] of [UserProfileDialog]. *)
Definition profileSubmit (tok : option Token) (fd : FormData) : Act Toast :=
  se_catch
    (let* _ := updateOwnPassword tok fd in
     se_ret (ToastInfo "Success" "Your password has been changed."))
    (fun _ => se_ret (ToastError "Failed to update password.")).

End Accounts.

(** ** Properties of the account actions *)
Section AccountProperties.
  Import Accounts.

  Arguments user_create : simpl never.

(** The principal of a signed-in user [i] stored as [a]. *)
Definition principal (i : string) (a : User) : Spec.Principal :=
    Spec.mkPrincipal i (user_role a).

  (** Run an action of a signed-in caller past its [auth()] call. *)
Ltac run_auth Hs :=
    erewrite se_bind_ok by (apply auth_signed_in; exact Hs);
    destruct Hs as (<- & ? & ?).

Lemma strict_eq_some_ne i j : i <> j -> strict_eq_opt (Some j) (Some i) = false.
  Proof. intros Hne. simpl. apply String.eqb_neq. congruence. Qed.

Lemma strict_eq_some_eq i : strict_eq_opt (Some i) (Some i) = true.
  Proof. simpl. apply String.eqb_refl. Qed.

Lemma canManageAccount_ne i j r :
    i <> j -> Spec.canManageAccount (Spec.mkPrincipal i r) j =
              fun tr => bool_decide (r = SUPER_ADMIN) ||
                        (bool_decide (r = ADMIN) && bool_decide (tr = FACULTY)).
  Proof.
    intros Hne. unfold Spec.canManageAccount. simpl.
    by rewrite (proj2 (String.eqb_neq i j) Hne).
  Qed.

  (** C1. [deleteFaculty] refines the specification's [canManageAccount]:
      for a signed-in caller and another user's id, an Admin-tier caller
      deletes the target exactly when the policy allows it; a target that
      does not exist is a silent no-op; otherwise the action throws and
      the store is unchanged. *)
Theorem deleteFaculty_refines db t i a fd j :
    signed_in db t i a -> form_get fd "id" = Some j -> i <> j ->
    deleteFaculty (Some t) fd db =
      if negb (Spec.canCreateAccount (principal i a)) then Err (ErrorMsg "Forbidden")
      else match db_users db !! j with
           | None => Ok tt db
           | Some target =>
               if Spec.canManageAccount (principal i a) j (user_role target)
               then Ok tt (set_users db (delete j (db_users db)))
               else Err (ErrorMsg "Admins can only remove Faculty.")
           end.
  Proof.
    intros Hs Hfd Hne. unfold deleteFaculty, principal.
    rewrite canManageAccount_ne by done. run_auth Hs. rewrite Hfd.
    se_step. simpl. str_simpl.
    destruct (user_role a); simpl; [| |reflexivity];
      destruct (db_users db !! j) as [tu|] eqn:Ht; simpl; try reflexivity;
      destruct (user_role tu); simpl; unfold user_delete; se_step; rewrite ?Ht;
      reflexivity.
  Qed.

(** C28. An Admin or Super Admin deleting its own account: the Super Admin
    gets a silent no-op, but the Admin hits the hierarchy rule first (its
    own role is ADMIN) and the action throws; a Faculty caller is refused.
    The specification says self-deletion is a no-op for every role. *)
Theorem deleteFaculty_self db t i a fd :
  signed_in db t i a -> form_get fd "id" = Some i ->
  deleteFaculty (Some t) fd db =
    match user_role a with
    | SUPER_ADMIN => Ok tt db
    | ADMIN => Err (ErrorMsg "Admins can only remove Faculty.")
    | FACULTY => Err (ErrorMsg "Forbidden")
    end.
Proof.
  intros Hs Hfd. unfold deleteFaculty. run_auth Hs. rewrite Hfd.
  se_step. simpl.
  destruct (user_role a) eqn:Er; simpl; rewrite ?H0; simpl; rewrite ?Er; simpl;
    str_simpl; reflexivity.
Qed.

(** C2. [adminResetPassword] refines [canManageAccount] on another user's
    account: with a valid password it replaces the target's hash exactly
    when the policy allows; the role check comes before the length check,
    and a missing target is an error. *)
Theorem adminResetPassword_refines db t i a fd j p :
  signed_in db t i a -> form_get fd "id" = Some j ->
  form_get fd "newPassword" = Some p -> i <> j ->
  adminResetPassword (Some t) fd db =
    if negb (Spec.canCreateAccount (principal i a)) then Err (ErrorMsg "Forbidden")
    else if password_too_short (Some p)
    then Err (ErrorMsg "Password must be at least 6 characters")
    else match db_users db !! j with
         | None => Err (ErrorMsg "User not found")
         | Some target =>
             if Spec.canManageAccount (principal i a) j (user_role target)
             then Ok Success (set_users db (<[j := set_password (mkHash 10 p) target]>
                                              (db_users db)))
             else Err (ErrorMsg "Admins can only reset passwords for Faculty.")
         end.
Proof.
  intros Hs Hfd Hpw Hne. unfold adminResetPassword, principal.
  rewrite canManageAccount_ne by done. run_auth Hs. rewrite Hfd, Hpw.
  cbv zeta. remember (password_too_short (Some p)) as short eqn:Hshort.
  se_step. simpl.
  destruct (user_role a); simpl; [| |reflexivity];
    destruct short; simpl; try reflexivity;
    destruct (db_users db !! j) as [tu|] eqn:Ht; simpl; try reflexivity;
    destruct (user_role tu); simpl; unfold user_update; se_step; rewrite ?Ht;
    reflexivity.
Qed.

(** C29. A password shorter than six characters is rejected, but with the
    validation message only for an Admin-tier caller: a Faculty caller gets
    "Forbidden" first.  The specification asks for a validation error
    whatever the role. *)
Theorem adminResetPassword_short_password db t i a fd p :
  signed_in db t i a -> form_get fd "newPassword" = Some p -> String.length p < 6 ->
  adminResetPassword (Some t) fd db =
    Err (ErrorMsg (if Spec.canCreateAccount (principal i a)
                   then "Password must be at least 6 characters" else "Forbidden")).
Proof.
  intros Hs Hpw Hlen. unfold adminResetPassword, principal. run_auth Hs. rewrite Hpw.
  assert (password_too_short (Some p) = true) as Hshort.
  { simpl. apply orb_true_intro. right. apply Nat.ltb_lt. lia. }
  cbv zeta. rewrite Hshort. se_step. simpl. destruct (user_role a); reflexivity.
Qed.

(** C30. A Super Admin resets its own password through the admin action:
    [adminResetPassword] has no self check, while the specification's
    [canManageAccount], which gates the reset, is false on oneself. *)
Theorem adminResetPassword_self db t i a fd p :
  signed_in db t i a -> user_role a = SUPER_ADMIN ->
  form_get fd "id" = Some i -> form_get fd "newPassword" = Some p ->
  password_too_short (Some p) = false ->
  Spec.canManageAccount (principal i a) i (user_role a) = false /\
  adminResetPassword (Some t) fd db =
    Ok Success (set_users db (<[i := set_password (mkHash 10 p) a]> (db_users db))).
Proof.
  intros Hs Hr Hfd Hpw Hshort. split.
  { unfold Spec.canManageAccount. simpl. by rewrite String.eqb_refl. }
  unfold adminResetPassword. pose proof Hs as (_ & _ & Ha). run_auth Hs.
  rewrite Hfd, Hpw. cbv zeta. rewrite Hshort. se_step. simpl. rewrite Hr. simpl.
  unfold user_find_unique. se_step. rewrite Ha. simpl.
  unfold user_update. se_step. by rewrite Ha.
Qed.

(** C3. [updateUserRole] refines [canChangeRole]: only a Super Admin, never
    on its own account, sets the target's role to the submitted one; the
    refusals are returned as values and leave the store unchanged. *)
Theorem updateUserRole_refines db t i a fd j r :
  signed_in db t i a -> form_get fd "id" = Some j ->
  form_get fd "newRole" = Some (role_to_string r) ->
  updateUserRole (Some t) fd db =
    if negb (Spec.canChangeRole (principal i a))
    then Ok (Failure "Only Super Admin can change roles.") db
    else if String.eqb j i then Ok (Failure "You cannot change your own role.") db
    else match db_users db !! j with
         | None => Err PrismaNotFound
         | Some target => Ok Success (set_users db (<[j := set_role r target]> (db_users db)))
         end.
Proof.
  intros Hs Hfd Hrole. unfold updateUserRole, principal. run_auth Hs.
  rewrite Hfd, Hrole. se_step. simpl.
  destruct (user_role a); simpl; try reflexivity.
  destruct (String.eqb j (tok_sub t)); [reflexivity|].
  unfold user_update_role. simpl. rewrite role_of_string_to_string.
  unfold user_update. se_step. destruct (db_users db !! j); reflexivity.
Qed.

(** C4. [createFaculty] refines [canCreateAccount], and the new account is
    always a Faculty account under a fresh id, whatever the caller's
    tier; a taken e-mail is refused by the store. *)
Theorem createFaculty_refines db t i a fd e p :
  db_wf db -> signed_in db t i a ->
  form_get fd "email" = Some e -> form_get fd "password" = Some p ->
  createFaculty (Some t) fd db =
    if negb (Spec.canCreateAccount (principal i a)) then Err (ErrorMsg "Forbidden")
    else if email_taken (db_users db) e then Err PrismaUnique
    else Ok tt (mkDB (<[fresh_id (db_next_id db) :=
                          mkUser (form_get fd "name") e (mkHash 10 p) FACULTY]> (db_users db))
                     (db_students db) (N.succ (db_next_id db))).
Proof.
  intros Hwf Hs He Hp. unfold createFaculty, principal. run_auth Hs.
  rewrite He, Hp. se_step. simpl.
  destruct (user_role a); simpl; try reflexivity;
    (destruct (email_taken (db_users db) e) eqn:Ht;
     [ rewrite user_create_taken by exact Ht; reflexivity
     | rewrite user_create_ok by assumption; reflexivity ]).
Qed.

(** ** Witnesses on the demo store *)

(** An Admin deletes a Faculty account. *)
Lemma deleteFaculty_refines_witness :
  signed_in demo_db tok_admin id_admin demo_admin /\
  form_get [("id", id_faculty)] "id" = Some id_faculty /\ id_admin <> id_faculty /\
  deleteFaculty (Some tok_admin) [("id", id_faculty)] demo_db =
    Ok tt (set_users demo_db (delete id_faculty demo_users)).
Proof.
  split_and!; [apply demo_signed_in_admin | reflexivity | apply fresh_id_ne; lia |].
  rewrite (deleteFaculty_refines demo_db tok_admin id_admin demo_admin [("id", id_faculty)] id_faculty
             demo_signed_in_admin eq_refl (fresh_id_ne 1 2 ltac:(lia))).
  reflexivity.
Defined.

(** The Admin's attempt to delete itself throws. *)
Lemma deleteFaculty_self_witness :
  signed_in demo_db tok_admin id_admin demo_admin /\
  form_get [("id", id_admin)] "id" = Some id_admin /\
  deleteFaculty (Some tok_admin) [("id", id_admin)] demo_db =
    Err (ErrorMsg "Admins can only remove Faculty.").
Proof.
  split_and!; [apply demo_signed_in_admin | reflexivity |].
  exact (deleteFaculty_self demo_db tok_admin id_admin demo_admin [("id", id_admin)]
           demo_signed_in_admin eq_refl).
Defined.

(** The Admin resets the Faculty member's password. *)
Lemma adminResetPassword_refines_witness :
  signed_in demo_db tok_admin id_admin demo_admin /\
  form_get [("id", id_faculty); ("newPassword", "welcome1")] "id" = Some id_faculty /\
  form_get [("id", id_faculty); ("newPassword", "welcome1")] "newPassword" = Some "welcome1" /\
  id_admin <> id_faculty /\
  adminResetPassword (Some tok_admin) [("id", id_faculty); ("newPassword", "welcome1")] demo_db =
    Ok Success (set_users demo_db (<[id_faculty := set_password (mkHash 10 "welcome1") demo_faculty]>
                                     demo_users)).
Proof.
  split_and!; [apply demo_signed_in_admin | reflexivity | reflexivity
              | apply fresh_id_ne; lia |].
  rewrite (adminResetPassword_refines demo_db tok_admin id_admin demo_admin
             [("id", id_faculty); ("newPassword", "welcome1")] id_faculty
             "welcome1" demo_signed_in_admin eq_refl eq_refl (fresh_id_ne 1 2 ltac:(lia))).
  reflexivity.
Defined.

(** A Faculty caller with a five-character password is told "Forbidden". *)
Lemma adminResetPassword_short_password_witness :
  signed_in demo_db tok_faculty id_faculty demo_faculty /\
  form_get [("id", id_faculty); ("newPassword", "abcde")] "newPassword" = Some "abcde" /\
  String.length "abcde" < 6 /\
  adminResetPassword (Some tok_faculty) [("id", id_faculty); ("newPassword", "abcde")] demo_db =
    Err (ErrorMsg "Forbidden").
Proof.
  split_and!; [apply demo_signed_in_faculty | reflexivity | simpl; lia |].
  exact (adminResetPassword_short_password demo_db tok_faculty id_faculty demo_faculty
           [("id", id_faculty); ("newPassword", "abcde")]
           "abcde" demo_signed_in_faculty eq_refl ltac:(simpl; lia)).
Defined.

(** The Super Admin resets its own password. *)
Lemma adminResetPassword_self_witness :
  signed_in demo_db tok_super id_super demo_super /\ user_role demo_super = SUPER_ADMIN /\
  password_too_short (Some "new-secret") = false /\
  Spec.canManageAccount (principal id_super demo_super) id_super (user_role demo_super) = false /\
  adminResetPassword (Some tok_super) [("id", id_super); ("newPassword", "new-secret")] demo_db =
    Ok Success (set_users demo_db (<[id_super := set_password (mkHash 10 "new-secret") demo_super]>
                                     (db_users demo_db))).
Proof.
  split_and!; [apply demo_signed_in_super | reflexivity | reflexivity | |];
  refine (proj1 (adminResetPassword_self demo_db tok_super id_super demo_super
           [("id", id_super); ("newPassword", "new-secret")] "new-secret"
           demo_signed_in_super eq_refl eq_refl eq_refl eq_refl)) ||
  refine (proj2 (adminResetPassword_self demo_db tok_super id_super demo_super
           [("id", id_super); ("newPassword", "new-secret")] "new-secret"
           demo_signed_in_super eq_refl eq_refl eq_refl eq_refl)).
Defined.

(** The Super Admin promotes the Faculty member to Admin. *)
Lemma updateUserRole_refines_witness :
  signed_in demo_db tok_super id_super demo_super /\
  form_get [("id", id_faculty); ("newRole", "ADMIN")] "id" = Some id_faculty /\
  form_get [("id", id_faculty); ("newRole", "ADMIN")] "newRole" = Some (role_to_string ADMIN) /\
  updateUserRole (Some tok_super) [("id", id_faculty); ("newRole", "ADMIN")] demo_db =
    Ok Success (set_users demo_db (<[id_faculty := set_role ADMIN demo_faculty]> demo_users)).
Proof.
  split_and!; [apply demo_signed_in_super | reflexivity | reflexivity |].
  rewrite (updateUserRole_refines demo_db tok_super id_super demo_super
             [("id", id_faculty); ("newRole", "ADMIN")] id_faculty ADMIN
             demo_signed_in_super eq_refl eq_refl).
  reflexivity.
Defined.

(** The Admin creates an account: it gets the next id and the Faculty role. *)
Lemma createFaculty_refines_witness :
  db_wf demo_db /\ signed_in demo_db tok_admin id_admin demo_admin /\
  form_get [("name", "Nila"); ("email", "nila@college.edu"); ("password", "pw-nila")] "email"
    = Some "nila@college.edu" /\
  form_get [("name", "Nila"); ("email", "nila@college.edu"); ("password", "pw-nila")] "password"
    = Some "pw-nila" /\
  createFaculty (Some tok_admin)
    [("name", "Nila"); ("email", "nila@college.edu"); ("password", "pw-nila")] demo_db =
    Ok tt (mkDB (<[fresh_id 6 := mkUser (Some "Nila") "nila@college.edu" (mkHash 10 "pw-nila")
                                   FACULTY]> demo_users) demo_students 7).
Proof.
  split_and!; [apply demo_db_wf | apply demo_signed_in_admin | reflexivity | reflexivity |].
  rewrite (createFaculty_refines demo_db tok_admin id_admin demo_admin
             [("name", "Nila"); ("email", "nila@college.edu"); ("password", "pw-nila")]
             "nila@college.edu"
             "pw-nila" demo_db_wf demo_signed_in_admin eq_refl eq_refl).
  vm_compute. reflexivity.
Defined.

End AccountProperties.

Section AccountInversion.
Import Accounts.

(** Close a goal about the roles of the caller and the target by cases
    on both. *)
Ltac roles_tac :=
  repeat match goal with |- context [user_role ?x] => destruct (user_role x) end;
  simpl in *; repeat split; intros; by try discriminate.

(** ** What each account action can have written

    The successful runs of each action, as changes of the users table;
    the system invariants of [System.v] are proved from them. *)

Lemma deleteFaculty_inv tok fd db u db' :
  deleteFaculty tok fd db = Ok u db' ->
  db' = db \/
  exists t j a v, tok = Some t /\ db' = set_users db (delete j (db_users db)) /\
    db_users db !! tok_sub t = Some a /\ j <> tok_sub t /\ db_users db !! j = Some v /\
    is_admin_tier (user_role a) = true /\
    (user_role v = SUPER_ADMIN -> user_role a = SUPER_ADMIN).
Proof.
  unfold deleteFaculty. destruct tok as [t|]; intros H.
  2:{ act_split H. }
  rewrite (se_bind_ok _ _ _ _ _ (auth_some db t)) in H. unfold session_of in H.
  destruct (db_users db !! tok_sub t) as [a|] eqn:Ha;
  unfold user_delete, user_find_unique, not_admin_or_super, role_is, is_admin_tier in H;
  act_split H; try (left; reflexivity); try done.
  all: right; do 4 eexists; split_and!; [reflexivity | reflexivity | eassumption
    | intros ?; congruence | eassumption | | ]; unfold is_admin_tier; roles_tac.
Qed.

Lemma adminResetPassword_inv tok fd db r db' :
  adminResetPassword tok fd db = Ok r db' ->
  exists t j a v p, tok = Some t /\ form_get fd "id" = Some j /\
    form_get fd "newPassword" = Some p /\ db_users db !! tok_sub t = Some a /\
    db_users db !! j = Some v /\ is_admin_tier (user_role a) = true /\
    db' = set_users db (<[j := set_password (mkHash 10 p) v]> (db_users db)).
Proof.
  unfold adminResetPassword. destruct tok as [t|]; intros H.
  2:{ act_split H. }
  rewrite (se_bind_ok _ _ _ _ _ (auth_some db t)) in H. unfold session_of in H.
  destruct (db_users db !! tok_sub t) as [a|] eqn:Ha;
  unfold user_update, user_find_unique, bcrypt_hash, not_admin_or_super, role_is, is_admin_tier in H;
  act_split H; try done.
  all: do 5 eexists; split_and!; try solve [reflexivity | eassumption].
  all: unfold is_admin_tier; roles_tac.
Qed.

Lemma updateUserRole_inv tok fd db r db' :
  updateUserRole tok fd db = Ok r db' ->
  db' = db \/
  exists t j a v nr, tok = Some t /\ db' = set_users db (<[j := set_role nr v]> (db_users db)) /\
    db_users db !! tok_sub t = Some a /\ user_role a = SUPER_ADMIN /\ j <> tok_sub t /\
    db_users db !! j = Some v.
Proof.
  unfold updateUserRole. destruct tok as [t|]; intros H.
  2:{ act_split H. }
  rewrite (se_bind_ok _ _ _ _ _ (auth_some db t)) in H. unfold session_of in H.
  destruct (db_users db !! tok_sub t) as [a|] eqn:Ha;
  unfold user_update_role, user_update, role_is in H;
  act_split H; try (left; reflexivity); try done.
  all: right; do 5 eexists; split_and!; [reflexivity | reflexivity | eassumption |
    | intros ?; congruence | eassumption].
  all: by destruct (user_role a).
Qed.

Lemma updateOwnPassword_inv tok fd db r db' :
  updateOwnPassword tok fd db = Ok r db' ->
  exists t v p, tok = Some t /\ form_get fd "newPassword" = Some p /\
    db_users db !! tok_sub t = Some v /\
    db' = set_users db (<[tok_sub t := set_password (mkHash 10 p) v]> (db_users db)).
Proof.
  unfold updateOwnPassword. destruct tok as [t|]; intros H.
  2:{ act_split H. }
  rewrite (se_bind_ok _ _ _ _ _ (auth_some db t)) in H. unfold session_of in H.
  unfold user_update, bcrypt_hash in H. act_split H.
  all: do 3 eexists; split_and!; solve [reflexivity | eassumption].
Qed.

Lemma createFaculty_caller tok fd db u db' :
  createFaculty tok fd db = Ok u db' ->
  exists t a, tok = Some t /\ db_users db !! tok_sub t = Some a /\
    is_admin_tier (user_role a) = true.
Proof.
  unfold createFaculty. destruct tok as [t|]; intros H.
  2:{ act_split H. }
  rewrite (se_bind_ok _ _ _ _ _ (auth_some db t)) in H. unfold session_of in H.
  destruct (db_users db !! tok_sub t) as [a|] eqn:Ha;
  unfold not_admin_or_super, role_is in H; act_split H.
  all: do 2 eexists; split_and!; try solve [reflexivity | eassumption].
  all: unfold is_admin_tier; roles_tac.
Qed.

(** A successful [createFaculty] created one account from the form. *)
Lemma createFaculty_writes tok fd db u db' :
  createFaculty tok fd db = Ok u db' ->
  exists p r id, user_create (form_get fd "name") (form_get fd "email") (mkHash 10 p) r db = Ok id db'.
Proof.
  unfold createFaculty. destruct tok as [t|]; intros H.
  2:{ act_split H. }
  rewrite (se_bind_ok _ _ _ _ _ (auth_some db t)) in H. unfold session_of in H.
  destruct (db_users db !! tok_sub t) as [a|] eqn:Ha;
  unfold bcrypt_hash, not_admin_or_super, role_is in H.
  all: act_split H.
  all: do 3 eexists; eassumption.
Qed.

Lemma createFaculty_inv tok fd db u db' :
  createFaculty tok fd db = Ok u db' ->
  exists t a p id, tok = Some t /\ form_get fd "password" = Some p /\
    db_users db !! tok_sub t = Some a /\ is_admin_tier (user_role a) = true /\
    user_create (form_get fd "name") (form_get fd "email") (mkHash 10 p) FACULTY db = Ok id db'.
Proof.
  unfold createFaculty. destruct tok as [t|]; intros H.
  2:{ act_split H. }
  rewrite (se_bind_ok _ _ _ _ _ (auth_some db t)) in H. unfold session_of in H.
  destruct (db_users db !! tok_sub t) as [a|] eqn:Ha;
  unfold bcrypt_hash, not_admin_or_super, role_is in H.
  all: act_split H.
  do 4 eexists; split_and!; try solve [reflexivity | eassumption].
  unfold is_admin_tier; roles_tac.
Qed.

End AccountInversion.

(** ** Runs that succeed

    An Admin-tier caller acting on a target it may manage: the password
    reset and the deletion go through.  The Faculty Management page and
    the liveness of [System.v] use these runs. *)
Section AccountRuns.
Import Accounts.

Lemma adminResetPassword_ok db t i a fd j v p :
  signed_in db t i a -> is_admin_tier (user_role a) = true ->
  (user_role a = ADMIN -> user_role v = FACULTY) ->
  form_get fd "id" = Some j -> form_get fd "newPassword" = Some p ->
  password_too_short (Some p) = false -> db_users db !! j = Some v ->
  adminResetPassword (Some t) fd db =
    Ok Success (set_users db (<[j := set_password (mkHash 10 p) v]> (db_users db))).
Proof.
  intros Hs Ha Hv Hj Hp Hshort Hjv. unfold adminResetPassword.
  rewrite (se_bind_ok _ _ _ _ _ (auth_signed_in _ _ _ _ Hs)). rewrite Hj, Hp. cbv zeta.
  rewrite Hshort. unfold user_find_unique, user_update, bcrypt_hash. se_step. simpl.
  unfold not_admin_or_super, role_is, is_admin_tier in *.
  destruct (user_role a); simpl in *; try discriminate; rewrite Hjv; simpl;
    destruct (user_role v); simpl in *; try (specialize (Hv eq_refl); discriminate);
    by rewrite ?Hjv.
Qed.

Lemma deleteFaculty_ok db t i a fd j v :
  signed_in db t i a -> is_admin_tier (user_role a) = true ->
  (user_role a = ADMIN -> user_role v = FACULTY) ->
  form_get fd "id" = Some j -> j <> i -> db_users db !! j = Some v ->
  deleteFaculty (Some t) fd db = Ok tt (set_users db (delete j (db_users db))).
Proof.
  intros Hs Ha Hv Hj Hne Hjv. unfold deleteFaculty.
  rewrite (se_bind_ok _ _ _ _ _ (auth_signed_in _ _ _ _ Hs)). rewrite Hj. cbv zeta.
  assert (String.eqb j i = false) as Hji by (apply String.eqb_neq; congruence).
  unfold user_find_unique, user_delete. se_step. simpl.
  unfold not_admin_or_super, role_is, is_admin_tier in *.
  destruct (user_role a); simpl in *; try discriminate; rewrite Hjv; simpl;
    destruct (user_role v); simpl in *; try (specialize (Hv eq_refl); discriminate);
    rewrite ?Hji; by rewrite ?Hjv.
Qed.
(** The Faculty Management page of a signed-in user: the list of every
    account for the Admin tier, a redirect to the dashboard otherwise. *)
Lemma facultyPage_signed_in db t i a :
  signed_in db t i a ->
  facultyPage (Some t) db =
    Ok (if is_admin_tier (user_role a)
        then FacultyList (map_to_list (db_users db))
               (mkSessionUser (Some i) (tok_name t) (tok_email t) (Some (user_role a)))
        else RedirectDashboard) db.
Proof.
  intros Hs. unfold facultyPage. rewrite (se_bind_ok _ _ _ _ _ (auth_signed_in _ _ _ _ Hs)).
  unfold not_admin_or_super, role_is, is_admin_tier, user_find_many. se_step.
  by destruct (user_role a).
Qed.
End AccountRuns.

(** ** The Faculty Management page against the policy *)
Section FacultyPageProperties.
Import Accounts.

(** C17. The page's [canManage] (which shows the role select, the reset
    and the delete buttons of a row) is the specification's
    [canManageAccount] for the signed-in viewer. *)
Theorem canManage_spec i n e r fid f :
  canManage (mkSessionUser (Some i) n e (Some r)) fid f =
  Spec.canManageAccount (Spec.mkPrincipal i r) fid (user_role f).
Proof.
  unfold canManage, isSuperAdmin, isAdmin, Spec.canManageAccount, role_is. simpl.
  rewrite (String.eqb_sym fid i).
  destruct (String.eqb i fid), r, (user_role f); reflexivity.
Qed.

(** C16. [FacultyPage] lists the accounts only to a signed-in Admin or
    Super Admin: any other request is redirected, and the page writes
    nothing. *)
Theorem facultyPage_guard tok db v db' :
  facultyPage tok db = Ok v db' ->
  db' = db /\
  match v with
  | FacultyList us su =>
      exists t a, tok = Some t /\ db_users db !! tok_sub t = Some a /\
        is_admin_tier (user_role a) = true /\ su = session_of db t /\
        us = map_to_list (db_users db)
  | _ => True
  end.
Proof.
  unfold facultyPage. destruct tok as [t|]; intros H.
  2:{ act_split H. done. }
  rewrite (se_bind_ok _ _ _ _ _ (auth_some db t)) in H.
  unfold user_find_many, session_of, not_admin_or_super, role_is in H.
  destruct (db_users db !! tok_sub t) as [a|] eqn:Ha;
    act_split H; split; try done.
  exists t, a. unfold session_of. rewrite bool_decide_true, Ha by done.
  split_and!; auto. unfold is_admin_tier.
  destruct (user_role a); simpl in *; by try discriminate.
Qed.

(** C32. The role select is offered to an Admin for every Faculty row,
    but [updateUserRole] refuses every request of an Admin: whatever
    role is picked, [handleRoleChange] shows the error toast and the
    store is unchanged. *)
Theorem admin_role_select_refused db t i a j f nr :
  signed_in db t i a -> user_role a = ADMIN ->
  canManage (session_of db t) j f = true ->
  handleRoleChange (Some t) j nr db = Ok (ToastError "Only Super Admin can change roles.") db.
Proof.
  intros Hs Hr _. unfold handleRoleChange.
  assert (updateUserRole (Some t) [("id", j); ("newRole", nr)] db =
          Ok (Failure "Only Super Admin can change roles.") db) as Hu.
  2:{ by rewrite (se_bind_ok _ _ _ _ _ Hu). }
  unfold updateUserRole. erewrite se_bind_ok by (apply auth_signed_in; exact Hs).
  simpl. by rewrite Hr.
Qed.

Lemma facultyPage_guard_witness :
  facultyPage (Some tok_admin) demo_db =
    Ok (FacultyList (map_to_list demo_users) (session_of demo_db tok_admin)) demo_db /\
  demo_db = demo_db /\
  exists t a, Some tok_admin = Some t /\ db_users demo_db !! tok_sub t = Some a /\
    is_admin_tier (user_role a) = true /\ session_of demo_db tok_admin = session_of demo_db t /\
    map_to_list demo_users = map_to_list (db_users demo_db).
Proof.
  assert (facultyPage (Some tok_admin) demo_db =
    Ok (FacultyList (map_to_list demo_users) (session_of demo_db tok_admin)) demo_db) as H
    by reflexivity.
  split; [exact H|].
  exact (facultyPage_guard (Some tok_admin) demo_db _ demo_db H).
Defined.

Lemma admin_role_select_refused_witness :
  signed_in demo_db tok_admin id_admin demo_admin /\ user_role demo_admin = ADMIN /\
  canManage (session_of demo_db tok_admin) id_faculty demo_faculty = true /\
  handleRoleChange (Some tok_admin) id_faculty "ADMIN" demo_db =
    Ok (ToastError "Only Super Admin can change roles.") demo_db.
Proof.
  assert (canManage (session_of demo_db tok_admin) id_faculty demo_faculty = true) as Hc
    by reflexivity.
  split_and!; [apply demo_signed_in_admin | reflexivity | exact Hc |].
  apply (admin_role_select_refused demo_db tok_admin id_admin demo_admin id_faculty
           demo_faculty "ADMIN"); [apply demo_signed_in_admin | reflexivity | exact Hc].
Defined.

End FacultyPageProperties.

(** ** Signing in after an account change *)
Section LoginProperties.
Import Accounts.

(** C22. An account created by [createFaculty] signs in with the submitted
    e-mail and password, as the Faculty row the action wrote. *)
Theorem createFaculty_login zod_email db t fd u db' e p :
  db_wf db -> createFaculty (Some t) fd db = Ok u db' ->
  form_get fd "email" = Some e -> form_get fd "password" = Some p -> zod_email e = true ->
  authorize zod_email (Some e) (Some p) db' =
    Ok (Some (fresh_id (db_next_id db), mkUser (form_get fd "name") e (mkHash 10 p) FACULTY)) db'.
Proof.
  intros Hwf H He Hp Hz.
  pose proof H as (t' & a & p' & id & _ & Hp' & _ & _ & Hc)%createFaculty_inv.
  rewrite Hp in Hp'. injection Hp' as <-.
  pose proof (user_create_wf _ _ _ _ _ _ _ Hwf Hc) as Hwf'.
  apply user_create_inv in Hc as (e' & He' & _ & _ & -> & ->).
  rewrite He in He'. injection He' as <-.
  refine (eq_trans (authorize_row zod_email _ (fresh_id (db_next_id db))
             (mkUser (form_get fd "name") e (mkHash 10 p) FACULTY) p Hwf' _ Hz) _).
  - apply lookup_insert_eq.
  - unfold bcrypt_compare. simpl. by rewrite String.eqb_refl.
Qed.

(** C23. After [adminResetPassword] the target signs in with the new
    password and with no other (the old one included). *)
Theorem adminResetPassword_login zod_email db t fd r db' j v p q :
  db_wf db -> adminResetPassword (Some t) fd db = Ok r db' ->
  form_get fd "id" = Some j -> form_get fd "newPassword" = Some p ->
  db_users db !! j = Some v -> zod_email (user_email v) = true ->
  authorize zod_email (Some (user_email v)) (Some q) db' =
    Ok (if String.eqb q p then Some (j, set_password (mkHash 10 p) v) else None) db'.
Proof.
  intros Hwf H Hj Hp Hv Hz.
  apply adminResetPassword_inv in H as (t' & j' & a & v' & p' & _ & Hj' & Hp' & _ & Hv' & _ & ->).
  rewrite Hj in Hj'. injection Hj' as <-. rewrite Hp in Hp'. injection Hp' as <-.
  rewrite Hv in Hv'. injection Hv' as <-.
  change (user_email v) with (user_email (set_password (mkHash 10 p) v)).
  rewrite (authorize_row zod_email _ j); [reflexivity | by apply set_password_wf
    | by rewrite set_users_users, lookup_insert_eq | done].
Qed.

(** An Admin creates Nina's account; a Super Admin resets Farid's
    password. *)
Definition nina_form : FormData :=
  [("name", "Nina"); ("email", "nina@college.edu"); ("password", "secret1")].

Definition reset_form : FormData := [("id", id_faculty); ("newPassword", "fresh-pass")].

Definition accept_any_email (e : string) : bool := true.

Lemma createFaculty_login_witness :
  db_wf demo_db /\
  createFaculty (Some tok_admin) nina_form demo_db =
    Ok tt (run_store (createFaculty (Some tok_admin) nina_form) demo_db) /\
  authorize accept_any_email (Some "nina@college.edu") (Some "secret1")
    (run_store (createFaculty (Some tok_admin) nina_form) demo_db) =
    Ok (Some (fresh_id 6, mkUser (Some "Nina") "nina@college.edu" (mkHash 10 "secret1") FACULTY))
       (run_store (createFaculty (Some tok_admin) nina_form) demo_db).
Proof.
  assert (createFaculty (Some tok_admin) nina_form demo_db =
    Ok tt (run_store (createFaculty (Some tok_admin) nina_form) demo_db)) as H
    by (vm_compute; reflexivity).
  split_and!; [apply demo_db_wf | exact H |].
  apply (createFaculty_login accept_any_email demo_db tok_admin nina_form tt);
    [apply demo_db_wf | exact H | reflexivity | reflexivity | reflexivity].
Defined.

Lemma adminResetPassword_login_witness :
  db_wf demo_db /\
  adminResetPassword (Some tok_super) reset_form demo_db =
    Ok Success (run_store (adminResetPassword (Some tok_super) reset_form) demo_db) /\
  authorize accept_any_email (Some (user_email demo_faculty)) (Some "farid-pass")
    (run_store (adminResetPassword (Some tok_super) reset_form) demo_db) =
    Ok None (run_store (adminResetPassword (Some tok_super) reset_form) demo_db).
Proof.
  assert (adminResetPassword (Some tok_super) reset_form demo_db =
    Ok Success (run_store (adminResetPassword (Some tok_super) reset_form) demo_db)) as H
    by (vm_compute; reflexivity).
  split_and!; [apply demo_db_wf | exact H |].
  apply (adminResetPassword_login accept_any_email demo_db tok_super reset_form Success _
           id_faculty demo_faculty "fresh-pass" "farid-pass");
    [apply demo_db_wf | exact H | reflexivity | reflexivity | reflexivity | reflexivity].
Defined.

End LoginProperties.

(** ** The profile dialog against the action *)
Section ProfileProperties.
Import Accounts.

(** The browser's check of the new-password input accepts exactly the
    passwords [updateOwnPassword] accepts. *)
Lemma password_input_valid_spec v :
  password_input_valid v = negb (password_too_short (Some v)).
Proof.
  unfold password_input_valid, password_too_short.
  rewrite negb_orb. f_equal.
  - destruct (String.eqb_spec v "") as [->|Hne]; [reflexivity|].
    by rewrite bool_decide_false.
  - apply eq_true_iff_eq. rewrite negb_true_iff, Nat.leb_le, Nat.ltb_ge. done.
Qed.

(** C25. Submitting the profile dialog as a signed-in user sets the user's
    own password and shows the success toast when the password passes the
    input's check; otherwise the action's error is caught, the failure
    toast is shown and the store is unchanged. *)
Theorem profileSubmit_spec db t i a fd p :
  signed_in db t i a -> form_get fd "newPassword" = Some p ->
  profileSubmit (Some t) fd db =
    if password_input_valid p
    then Ok (ToastInfo "Success" "Your password has been changed.")
            (set_users db (<[i := set_password (mkHash 10 p) a]> (db_users db)))
    else Ok (ToastError "Failed to update password.") db.
Proof.
  intros Hs Hp. rewrite password_input_valid_spec.
  pose proof Hs as (<- & Hne & Ha).
  unfold profileSubmit, se_catch, updateOwnPassword. se_step.
  rewrite (auth_some db t). unfold session_of.
  rewrite bool_decide_true by done. cbv zeta. rewrite Hp.
  destruct (password_too_short (Some p)); [reflexivity|].
  simpl. unfold user_update. se_step. by rewrite Ha.
Qed.

(** A signed-in Faculty member with a valid password. *)
Lemma profileSubmit_spec_witness :
  signed_in demo_db tok_faculty id_faculty demo_faculty /\
  form_get [("newPassword", "better-pass")] "newPassword" = Some "better-pass" /\
  profileSubmit (Some tok_faculty) [("newPassword", "better-pass")] demo_db =
    Ok (ToastInfo "Success" "Your password has been changed.")
       (set_users demo_db (<[id_faculty := set_password (mkHash 10 "better-pass") demo_faculty]>
                             (db_users demo_db))).
Proof.
  split_and!; [apply demo_signed_in_faculty | reflexivity |].
  exact (profileSubmit_spec demo_db tok_faculty id_faculty demo_faculty
           [("newPassword", "better-pass")] "better-pass" demo_signed_in_faculty eq_refl).
Defined.

End ProfileProperties.
