(* ===== verification/Students.v ===== *)
(** * The student record service: upload, call updates, list, dashboard

    [uploadStudents] ([src/app/actions.ts]) maps each spreadsheet row to
    the data of a new student (name, phone, address and previous course
    read under their accepted header spellings, name and phone trimmed),
    drops the rows without a name or a phone, tags the rest with the
    caller's id and inserts them with [createMany({ skipDuplicates: true
    })].  [updateStudent] writes the call outcome of one student and the
    caller's display name.  The calling list
    ([src/app/dashboard/students/page.tsx]) shows every student to a Super
    Admin and the caller's own uploads to everyone else;
    [getDashboardStats] counts every student for a Super Admin or an Admin
    and the caller's own uploads for a Faculty member; the dashboard page
    ([src/app/dashboard/page.tsx]) shows the number of interested
    students. *)

From S2P Require Import Prelude JsValue Schema Store Auth Fixtures.
Import Js Prisma Auth.

Module Students.

(** ** [uploadStudents] *)

(** [row["Previous Course"] || row["PreviousCourse"] || row["prev_course"]
    || row["previous course"] || null] *)
Definition prev_course_value (row : JsObject) : JsVal :=
  js_or (js_or (js_or (js_or (prop row "Previous Course") (prop row "PreviousCourse"))
                      (prop row "prev_course"))
               (prop row "previous course"))
        JNull.

(** The [map] callback of [uploadStudents]: one row to the data of a new
    student owned by [uid]. *)
Definition row_to_student (uid : string) (row : JsObject) : NewStudent :=
  let prevCourseVal := prev_course_value row in
  mkNewStudent
    (trim (to_string (js_or (js_or (prop row "Name") (prop row "name")) (JStr ""))))
    (trim (to_string (js_or (js_or (prop row "Phone") (prop row "phone")) (JStr ""))))
    (if truthy (js_or (prop row "Address") (prop row "address"))
     then Some (to_string (js_or (prop row "Address") (prop row "address")))
     else None)
    (if truthy prevCourseVal then Some (to_string prevCourseVal) else None)
    uid.

(** The [filter] callback:
    [s.name.length > 0 && s.phone.length > 0 && s.phone !== "undefined"]. *)
Definition valid_student (s : NewStudent) : bool :=
  (0 <? String.length (ns_name s)) && (0 <? String.length (ns_phone s)) &&
  negb (String.eqb (ns_phone s) "undefined").

Definition students_to_create (uid : string) (data : list JsObject) : list NewStudent :=
  filter (fun s => valid_student s = true) (row_to_student uid <$> data).

(** [uploadStudents(data)] *)
Definition uploadStudents (tok : option Token) (data : list JsObject) : Act Reply :=
  let* user := getCurrentUser tok in
  match user ≫= su_id with
  | None => se_throw (ErrorMsg "Unauthorized")
  | Some uid =>
      if bool_decide (uid = "") then se_throw (ErrorMsg "Unauthorized") else
      let studentsToCreate := students_to_create uid data in
      if Nat.eqb (length studentsToCreate) 0
      then se_ret (Failure "No valid students found.")
      else let* _ := student_create_many studentsToCreate in
           se_ret Success
  end.

(** ** [updateStudent] *)

(** [interest === "OTHER" && !Object.values(Interest).includes(interest)
    ? null : interest] *)
Definition interest_normalize (interest : option string) : option string :=
  if bool_decide (interest = Some "OTHER") &&
     negb (bool_decide (interest ∈ (Some ∘ interest_to_string) <$> Interest_values))
  then None else interest.

(** [user.name || "Unknown Staff"] *)
Definition updater_name (name : option string) : string :=
  match name with
  | Some n => if String.eqb n "" then "Unknown Staff" else n
  | None => "Unknown Staff"
  end.

(** The new values of the columns [updateStudent] writes. *)
Definition set_call_record (cs : CallStatus) (fi : option Interest)
    (notes prevCourse : option string) (updater : string) (s : Student) : Student :=
  mkStudent (st_id s) (st_name s) (st_phone s) (st_address s) prevCourse cs fi notes
    (Some updater) (st_uploaded_by_id s).

(** [db.student.update({ where: { id }, data: { callStatus, futureInterest,
    notes, prevCourse, lastUpdatedBy } })]: the enum columns are validated
    first ([callStatus] is required, [futureInterest] may be [null]). *)
Definition student_update_call (id : string) (status interest notes prevCourse : option string)
    (updater : string) : Act unit :=
  match status ≫= call_status_of_string with
  | None => se_throw PrismaValidation
  | Some cs =>
      match interest with
      | None => student_update id (set_call_record cs None notes prevCourse updater)
      | Some i =>
          match interest_of_string i with
          | None => se_throw PrismaValidation
          | Some fi => student_update id (set_call_record cs (Some fi) notes prevCourse updater)
          end
      end
  end.

(** [updateStudent(id, formData)] *)
Definition updateStudent (tok : option Token) (id : string) (fd : FormData) : Act unit :=
  let* user := getCurrentUser tok in
  match user with
  | None => se_throw (ErrorMsg "Unauthorized")
  | Some u =>
      let status := form_get fd "status" in
      let interest := form_get fd "interest" in
      let notes := form_get fd "notes" in
      let prevCourse := form_get fd "prevCourse" in
      let updaterName := updater_name (su_name u) in
      student_update_call id status (interest_normalize interest) notes prevCourse updaterName
  end.

(** ** The calling list and the dashboard *)

(** [StudentsPage]: [role === SUPER_ADMIN ? {} : { uploadedById: userId }],
    newest first. *)
Definition studentsPage (tok : option Token) : Act (list Student) :=
  let* session := auth tok in
  let* role := session_role session in
  let userId := session ≫= su_id in
  let where_ := if role_is role SUPER_ADMIN then WhereAll else WhereUploadedBy userId in
  student_find_many_desc where_.

(** The object [getDashboardStats] returns. *)
Record DashboardStats : Type := mkStats {
  total : nat;
  interestedGroups : list (Interest * nat);
  statusCounts : list (CallStatus * nat);
}.

(** [const where = (role === Role.SUPER_ADMIN || role === Role.ADMIN)
    ? {} : { uploadedById: user.id }] *)
Definition dashboard_where (u : SessionUser) : StudentWhere :=
  let role := su_role u in
  if role_is role SUPER_ADMIN || role_is role ADMIN then WhereAll
  else WhereUploadedBy (su_id u).

(** [getDashboardStats()] *)
Definition getDashboardStats (tok : option Token) : Act (option DashboardStats) :=
  let* user := getCurrentUser tok in
  match user with
  | None => se_ret None
  | Some u =>
      let where_ := dashboard_where u in
      let* total := student_count where_ in
      let* interestedGroups := student_group_by_interest where_ in
      let* statusCounts := student_group_by_status where_ in
      se_ret (Some (mkStats total interestedGroups statusCounts))
  end.

(** The "Interested" card of [DashboardPage]:
    [statusCounts.find(s => s.callStatus === 'INTERESTED')?._count._all || 0]. *)
Definition interested_card (stats : DashboardStats) : nat :=
  default 0 (snd <$> List.find (fun sc => bool_decide (sc.1 = INTERESTED)) (statusCounts stats)).

End Students.

(** ** Properties of the student service *)
Section StudentProperties.
Import Students.

Lemma valid_student_spec r :
  valid_student r = true <->
  ns_name r <> "" /\ ns_phone r <> "" /\ ns_phone r <> "undefined".
Proof.
  unfold valid_student. rewrite !andb_true_iff, !Nat.ltb_lt, negb_true_iff,
    String.eqb_neq.
  destruct (ns_name r), (ns_phone r); simpl; intuition (try lia; try discriminate).
Qed.

Lemma students_to_create_spec uid data r :
  r ∈ students_to_create uid data <->
  exists row, row ∈ data /\ r = row_to_student uid row /\ valid_student r = true.
Proof.
  unfold students_to_create. rewrite list_elem_of_filter, list_elem_of_fmap.
  split; [intros (Hv & row & -> & Hrow); eauto|].
  intros (row & Hrow & -> & Hv). eauto.
Qed.

(** [uploadStudents] for any session token, as one expression. *)
Lemma uploadStudents_unfold db t data :
  uploadStudents (Some t) data db =
    if bool_decide (tok_sub t = "") then Err (ErrorMsg "Unauthorized")
    else if Nat.eqb (length (students_to_create (tok_sub t) data)) 0
    then Ok (Failure "No valid students found.") db
    else let '(ss, n, _) := insert_skip_duplicates (db_students db) (db_next_id db)
                              (students_to_create (tok_sub t) data) in
         Ok Success (mkDB (db_users db) ss n).
Proof.
  unfold uploadStudents. rewrite (se_bind_ok _ _ _ _ _ (getCurrentUser_some db t)).
  unfold session_of. destruct (decide (tok_sub t = "")) as [He|Hne].
  - rewrite bool_decide_false, bool_decide_true by (done || tauto). reflexivity.
  - rewrite bool_decide_true, !bool_decide_false by done. simpl.
    rewrite bool_decide_false by done.
    destruct (Nat.eqb _ 0); [reflexivity|].
    unfold student_create_many. se_step.
    destruct (insert_skip_duplicates _ _ _) as [[ss n] c]. reflexivity.
Qed.

(** C13. Ownership of uploaded rows: an upload never touches the users
    table, keeps every existing student row in place, and appends only rows
    that come from valid rows of the batch, owned by the session's user
    id, with a non-empty name and phone and the default call state. *)
Theorem uploadStudents_owned db t data r db' :
  uploadStudents (Some t) data db = Ok r db' ->
  db_users db' = db_users db /\
  exists added, db_students db' = db_students db ++ added /\
    Forall (fun s =>
      st_uploaded_by_id s = tok_sub t /\ st_call_status s = NOT_CALLED /\
      st_future_interest s = None /\ st_last_updated_by s = None /\
      st_name s <> "" /\ st_phone s <> "" /\ st_phone s <> "undefined" /\
      exists row, row ∈ data /\
        student_key s = row_key (row_to_student (tok_sub t) row)) added.
Proof.
  rewrite uploadStudents_unfold. case_bool_decide as Hsub; [discriminate|].
  destruct (Nat.eqb _ 0).
  { intros H; se_inv. split; [done|]. exists []. by rewrite app_nil_r. }
  pose proof (insert_skip_prefix (db_students db) (db_next_id db)
                (students_to_create (tok_sub t) data)) as Hpre.
  destruct (insert_skip_duplicates _ _ _) as [[ss n] c].
  intros H; se_inv. destruct Hpre as (added & -> & _ & _ & Hall).
  split; [done|]. exists added. split; [done|].
  eapply Forall_impl; [exact Hall|]. intros s (r' & Hr' & ->).
  apply students_to_create_spec in Hr' as (row & Hrow & -> & Hv).
  apply valid_student_spec in Hv as (? & ? & ?). simpl.
  split_and!; auto. eauto.
Qed.

(** C14. Uploading the same batch again is harmless: with a well-formed
    store, a second upload of a batch gives the same reply and leaves both
    tables exactly as the first upload left them (every row is skipped as
    a duplicate). *)
Theorem uploadStudents_idempotent db t data r db1 :
  db_wf db -> uploadStudents (Some t) data db = Ok r db1 ->
  exists n, uploadStudents (Some t) data db1 = Ok r (mkDB (db_users db1) (db_students db1) n).
Proof.
  intros Hwf. rewrite !uploadStudents_unfold. case_bool_decide as Hsub; [discriminate|].
  destruct (Nat.eqb _ 0) eqn:Hz.
  { intros H; se_inv. match goal with |- context [Ok _ ?d] => destruct d end. by eexists. }
  pose proof (insert_skip_keys_present (db_students db) (db_next_id db)
                (students_to_create (tok_sub t) data)
                (fun k Hk => proj2 (wf_fresh db Hwf k Hk))) as Hkeys.
  destruct (insert_skip_duplicates _ _ _) as [[ss n] c].
  intros H; se_inv. simpl.
  rewrite (insert_skip_all_present ss n _ Hkeys). eauto.
Qed.

(** The [interest] guard of [updateStudent] is dead code: "OTHER" is a
    member of [Interest], so the normalization never maps a value to
    [null] and "OTHER" is stored as [OTHER]. *)
Lemma interest_normalize_id v : interest_normalize v = v.
Proof.
  unfold interest_normalize. case_bool_decide as Ho; [|done]. subst v.
  rewrite (bool_decide_true (_ ∈ _)); [done|].
  apply list_elem_of_fmap. exists OTHER. split; [done|]. auto with crm.
Qed.

(** C15. [updateStudent] for any session, whatever its role and whoever
    uploaded the row: with a valid status and interest it rewrites the call
    columns of the row with that id and stamps the session's display name;
    an unknown id is Prisma's P2025 error.  No ownership check is made. *)
Theorem updateStudent_refines db t id fd cs fi :
  form_get fd "status" = Some (call_status_to_string cs) ->
  form_get fd "interest" = Some (interest_to_string fi) ->
  updateStudent (Some t) id fd db =
    if bool_decide (id ∈ st_id <$> db_students db)
    then Ok tt (mkDB (db_users db)
                  ((fun s => if bool_decide (st_id s = id)
                             then set_call_record cs (Some fi) (form_get fd "notes")
                                    (form_get fd "prevCourse") (updater_name (tok_name t)) s
                             else s) <$> db_students db)
                  (db_next_id db))
    else Err PrismaNotFound.
Proof.
  intros Hs Hi. unfold updateStudent.
  rewrite (se_bind_ok _ _ _ _ _ (getCurrentUser_some db t)).
  cbv zeta. rewrite Hs, Hi, interest_normalize_id. unfold student_update_call. simpl.
  rewrite call_status_of_string_to_string, interest_of_string_to_string.
  assert (su_name (session_of db t) = tok_name t) as ->
    by (unfold session_of; by case_bool_decide).
  unfold student_update. se_step. by case_bool_decide.
Qed.

(** [updateStudent] keeps every row's id, natural key and owner. *)
Lemma updateStudent_keeps_rows tok id fd db u db' :
  updateStudent tok id fd db = Ok u db' ->
  db_users db' = db_users db /\ db_next_id db' = db_next_id db /\
  st_id <$> db_students db' = st_id <$> db_students db /\
  student_key <$> db_students db' = student_key <$> db_students db /\
  st_uploaded_by_id <$> db_students db' = st_uploaded_by_id <$> db_students db.
Proof.
  unfold updateStudent. intros H. apply se_bind_inv in H as (user & db1 & Hu & H).
  assert (db1 = db) as -> by (eapply (auth_reads_only tok); unfold getCurrentUser in Hu;
                                apply se_bind_inv in Hu as (? & ? & Ha & Hr); se_inv; exact Ha).
  destruct user as [su|]; [|discriminate]. unfold student_update_call in H.
  destruct (_ ≫= call_status_of_string); [|discriminate].
  repeat (case_match; try discriminate);
    apply student_update_inv in H as [_ ->]; simpl;
    rewrite ?(student_update_fmap_eq st_id), ?(student_update_fmap_eq student_key),
      ?(student_update_fmap_eq st_uploaded_by_id); done.
Qed.

Lemma studentsPage_some db t :
  studentsPage (Some t) db =
  Ok (rev (student_select (if role_is (su_role (session_of db t)) SUPER_ADMIN then WhereAll
                           else WhereUploadedBy (su_id (session_of db t)))
             (db_students db))) db.
Proof. unfold studentsPage. by rewrite (se_bind_ok _ _ _ _ _ (auth_some db t)). Qed.

(** The calling list renders for every session cookie. *)
Lemma studentsPage_ok db t : exists ss, studentsPage (Some t) db = Ok ss db.
Proof. unfold studentsPage. rewrite (se_bind_ok _ _ _ _ _ (auth_some db t)). by eexists. Qed.

(** C11. The calling list: a Super Admin sees every student, any other
    role (Admin included) only the rows it uploaded; newest first. *)
Theorem studentsPage_visibility db t i a :
  signed_in db t i a ->
  studentsPage (Some t) db =
    Ok (rev (if bool_decide (user_role a = SUPER_ADMIN) then db_students db
             else owned_by i (db_students db))) db.
Proof.
  intros Hs. rewrite studentsPage_some, (session_of_signed_in _ _ _ _ Hs).
  destruct (user_role a); simpl;
    rewrite ?student_select_all, ?student_select_owned; reflexivity.
Qed.

(** The statistics [getDashboardStats] computes over the rows a filter
    selects. *)
Definition stats_of (w : StudentWhere) (ss : list Student) : DashboardStats :=
  let visible := student_select w ss in
  mkStats (length visible)
    (group_counts Interest_values st_future_interest
       (filter (fun s => is_Some (st_future_interest s)) visible))
    (group_counts CallStatus_values (fun s => Some (st_call_status s)) visible).

Lemma getDashboardStats_some db t :
  getDashboardStats (Some t) db =
  Ok (Some (stats_of (dashboard_where (session_of db t)) (db_students db))) db.
Proof.
  unfold getDashboardStats. rewrite (se_bind_ok _ _ _ _ _ (getCurrentUser_some db t)).
  reflexivity.
Qed.

(** The statistics a page gets are those of some filter of the table. *)
Lemma getDashboardStats_stats tok db st db' :
  getDashboardStats tok db = Ok (Some st) db' ->
  db' = db /\ exists w, st = stats_of w (db_students db).
Proof.
  destruct tok as [t|].
  2:{ unfold getDashboardStats, getCurrentUser, auth. intros H; se_inv; congruence. }
  rewrite getDashboardStats_some. intros H; se_inv. split; [done|]. by eexists.
Qed.

(** The students the dashboard counts for a caller of role [r]. *)
Definition dashboard_scope (r : Role) (i : string) (ss : list Student) : list Student :=
  if bool_decide (r = FACULTY) then owned_by i ss else ss.

Lemma dashboard_where_signed_in db t i a ss :
  signed_in db t i a ->
  student_select (dashboard_where (session_of db t)) ss = dashboard_scope (user_role a) i ss.
Proof.
  intros Hs. rewrite (session_of_signed_in _ _ _ _ Hs). unfold dashboard_scope, dashboard_where.
  destruct (user_role a); simpl;
    rewrite ?student_select_all, ?student_select_owned; reflexivity.
Qed.

(** C12. [getDashboardStats]: a Super Admin or an Admin gets the counts
    over every student, a Faculty member over its own uploads; the total
    is the number of those students and the groups are their counts by
    interest (set interests only) and by call status. *)
Theorem getDashboardStats_spec db t i a :
  signed_in db t i a ->
  let visible := dashboard_scope (user_role a) i (db_students db) in
  getDashboardStats (Some t) db =
    Ok (Some (mkStats (length visible)
                (group_counts Interest_values st_future_interest
                   (filter (fun s => is_Some (st_future_interest s)) visible))
                (group_counts CallStatus_values (fun s => Some (st_call_status s)) visible)))
       db.
Proof.
  intros Hs. rewrite getDashboardStats_some. unfold stats_of.
  by rewrite (dashboard_where_signed_in _ _ _ _ _ Hs).
Qed.

(** The counts of [stats_of]: the call-status counts add up to the
    total, the interest counts to the selected students whose interest is
    set, and the "Interested" card is the number of INTERESTED ones. *)
Lemma stats_of_counts w ss :
  let visible := student_select w ss in
  total (stats_of w ss) = length visible /\
  sum_list (snd <$> statusCounts (stats_of w ss)) = length visible /\
  sum_list (snd <$> interestedGroups (stats_of w ss)) =
    length (filter (fun s => is_Some (st_future_interest s)) visible) /\
  interested_card (stats_of w ss) =
    length (filter (fun s => st_call_status s = INTERESTED) visible).
Proof.
  unfold stats_of, interested_card. simpl. split_and!; [done| | |].
  - rewrite group_counts_sum by auto using CallStatus_values_NoDup with crm.
    f_equal. apply filter_all, Forall_forall. intros s _. by eexists.
  - rewrite group_counts_sum by auto using Interest_values_NoDup with crm.
    f_equal. apply filter_all, Forall_forall. intros s Hs.
    by apply list_elem_of_filter in Hs as [? _].
  - rewrite group_counts_find by auto using CallStatus_values_NoDup with crm. simpl.
    rewrite (list_filter_iff (fun s => st_call_status s = INTERESTED)
               (fun s => Some (st_call_status s) = Some INTERESTED))
      by (intros s; split; [intros ->|intros [= ->]]; done).
    case_decide; simpl; lia.
Qed.

(** The asymmetry the specification asks to keep: for an Admin, the
    calling list holds only its own uploads while the dashboard total
    counts every student. *)
Lemma admin_list_vs_dashboard db t i a :
  signed_in db t i a -> user_role a = ADMIN ->
  studentsPage (Some t) db = Ok (rev (owned_by i (db_students db))) db /\
  getDashboardStats (Some t) db =
    Ok (Some (stats_of WhereAll (db_students db))) db /\
  total (stats_of WhereAll (db_students db)) = length (db_students db).
Proof.
  intros Hs Hr. split_and!.
  - rewrite studentsPage_some, (session_of_signed_in _ _ _ _ Hs), Hr. simpl.
    by rewrite student_select_owned.
  - rewrite getDashboardStats_some, (session_of_signed_in _ _ _ _ Hs), Hr. reflexivity.
  - unfold stats_of. simpl. by rewrite student_select_all.
Qed.

(** C31. A session whose account has been deleted still uploads: the
    session callback finds no role ([u?.role] is [undefined]), but
    [uploadStudents] only checks [user.id], so the rows are inserted under
    the id of an account that no longer exists.  The specification says
    an action without a resolvable principal is denied. *)
Theorem uploadStudents_deleted_account db t data :
  tok_sub t <> "" -> db_users db !! tok_sub t = None ->
  students_to_create (tok_sub t) data <> [] ->
  su_role (session_of db t) = None /\
  exists db', uploadStudents (Some t) data db = Ok Success db'.
Proof.
  intros Hne Hnone Hrows. split.
  - unfold session_of. rewrite bool_decide_true by done. by rewrite Hnone.
  - rewrite uploadStudents_unfold, bool_decide_false by done.
    destruct (Nat.eqb_spec (length (students_to_create (tok_sub t) data)) 0) as [Hz|_].
    + by apply nil_length_inv in Hz.
    + destruct (insert_skip_duplicates _ _ _) as [[ss n] c]. eauto.
Qed.

(** C37. A row is read under the exact spellings "Name"/"name" and
    "Phone"/"phone" only: a row whose name sits under any other header
    (such as "NAME" or "Student Name") has an empty name and is dropped.
    The specification describes a case- and spacing-insensitive lookup. *)
Theorem row_without_name_header_dropped uid row :
  row !! "Name" = None -> row !! "name" = None ->
  valid_student (row_to_student uid row) = false.
Proof.
  intros H1 H2. unfold row_to_student, prop. rewrite H1, H2. reflexivity.
Qed.

(** The batch of the specification's example: two rows under different
    header spellings and one row without a name. *)
Definition spec_batch : list JsObject :=
  [ <["Name" := JStr "A"]> (<["Phone" := JStr "123"]> ∅);
    <["name" := JStr "B"]> (<["phone" := JStr "456"]> ∅);
    <["Name" := JStr ""]> (<["Phone" := JStr "789"]> ∅) ].

(** ** Witnesses on the demo store *)

Lemma uploadStudents_owned_witness :
  uploadStudents (Some tok_faculty) spec_batch demo_db =
    Ok Success (mkDB demo_users
                  (demo_students ++
                   [new_student_row (fresh_id 6) (mkNewStudent "A" "123" None None id_faculty);
                    new_student_row (fresh_id 7) (mkNewStudent "B" "456" None None id_faculty)])
                  8) /\
  db_users (mkDB demo_users
                  (demo_students ++
                   [new_student_row (fresh_id 6) (mkNewStudent "A" "123" None None id_faculty);
                    new_student_row (fresh_id 7) (mkNewStudent "B" "456" None None id_faculty)])
                  8) = demo_users.
Proof.
  assert (H : uploadStudents (Some tok_faculty) spec_batch demo_db =
    Ok Success (mkDB demo_users
                  (demo_students ++
                   [new_student_row (fresh_id 6) (mkNewStudent "A" "123" None None id_faculty);
                    new_student_row (fresh_id 7) (mkNewStudent "B" "456" None None id_faculty)])
                  8)) by (vm_compute; reflexivity).
  split; [exact H|]. exact (proj1 (uploadStudents_owned _ _ _ _ _ H)).
Defined.

Lemma uploadStudents_idempotent_witness :
  db_wf demo_db /\
  exists n, uploadStudents (Some tok_faculty) spec_batch
    (mkDB demo_users
       (demo_students ++
        [new_student_row (fresh_id 6) (mkNewStudent "A" "123" None None id_faculty);
         new_student_row (fresh_id 7) (mkNewStudent "B" "456" None None id_faculty)]) 8) =
    Ok Success (mkDB demo_users
       (demo_students ++
        [new_student_row (fresh_id 6) (mkNewStudent "A" "123" None None id_faculty);
         new_student_row (fresh_id 7) (mkNewStudent "B" "456" None None id_faculty)]) n).
Proof.
  split; [apply demo_db_wf|].
  apply (uploadStudents_idempotent demo_db tok_faculty spec_batch Success
           (mkDB demo_users
           (demo_students ++
            [new_student_row (fresh_id 6) (mkNewStudent "A" "123" None None id_faculty);
             new_student_row (fresh_id 7) (mkNewStudent "B" "456" None None id_faculty)]) 8) demo_db_wf).
  vm_compute. reflexivity.
Defined.

Lemma updateStudent_refines_witness :
  form_get [("status", "INTERESTED"); ("interest", "MBA"); ("notes", "call again")] "status"
    = Some (call_status_to_string INTERESTED) /\
  form_get [("status", "INTERESTED"); ("interest", "MBA"); ("notes", "call again")] "interest"
    = Some (interest_to_string MBA) /\
  updateStudent (Some tok_faculty) (fresh_id 3)
    [("status", "INTERESTED"); ("interest", "MBA"); ("notes", "call again")] demo_db =
    Ok tt (mkDB demo_users
             [ mkStudent (fresh_id 3) "Ravi" "9000000001" None None INTERESTED (Some MBA)
                 (Some "call again") (Some "Farid") id_admin;
               mkStudent (fresh_id 4) "Meera" "9000000002" None (Some "BCA") INTERESTED (Some MCA)
                 None (Some "Asha") id_admin;
               mkStudent (fresh_id 5) "Kiran" "9000000003" None None RINGING None None None
                 id_faculty ] 6).
Proof.
  split_and!; [reflexivity | reflexivity |].
  rewrite (updateStudent_refines demo_db tok_faculty (fresh_id 3)
             [("status", "INTERESTED"); ("interest", "MBA"); ("notes", "call again")]
             INTERESTED MBA eq_refl eq_refl).
  vm_compute. reflexivity.
Defined.

Lemma studentsPage_visibility_witness :
  signed_in demo_db tok_faculty id_faculty demo_faculty /\
  studentsPage (Some tok_faculty) demo_db = Ok [nth 2 demo_students (mkStudent "" "" "" None None NOT_CALLED None None None "")] demo_db.
Proof.
  split; [apply demo_signed_in_faculty|].
  rewrite (studentsPage_visibility _ _ _ _ demo_signed_in_faculty). vm_compute. reflexivity.
Defined.

Lemma getDashboardStats_spec_witness :
  signed_in demo_db tok_faculty id_faculty demo_faculty /\
  getDashboardStats (Some tok_faculty) demo_db =
    Ok (Some (mkStats 1 [] [(RINGING, 1)])) demo_db.
Proof.
  split; [apply demo_signed_in_faculty|].
  rewrite (getDashboardStats_spec _ _ _ _ demo_signed_in_faculty). vm_compute. reflexivity.
Defined.

Lemma admin_list_vs_dashboard_witness :
  signed_in demo_db tok_admin id_admin demo_admin /\ user_role demo_admin = ADMIN /\
  length (owned_by id_admin demo_students) = 2 /\
  total (stats_of WhereAll demo_students) = 3 /\
  studentsPage (Some tok_admin) demo_db = Ok (rev (owned_by id_admin demo_students)) demo_db.
Proof.
  split_and!; [apply demo_signed_in_admin | reflexivity | vm_compute; reflexivity
              | vm_compute; reflexivity |].
  exact (proj1 (admin_list_vs_dashboard demo_db tok_admin id_admin demo_admin
                  demo_signed_in_admin eq_refl)).
Defined.

Lemma uploadStudents_deleted_account_witness :
  tok_sub (mkToken "c99" (Some "Gone") None) <> "" /\
  db_users demo_db !! tok_sub (mkToken "c99" (Some "Gone") None) = None /\
  students_to_create "c99" spec_batch <> [] /\
  su_role (session_of demo_db (mkToken "c99" (Some "Gone") None)) = None /\
  exists db', uploadStudents (Some (mkToken "c99" (Some "Gone") None)) spec_batch demo_db
                = Ok Success db'.
Proof.
  assert (H1 : tok_sub (mkToken "c99" (Some "Gone") None) <> "") by discriminate.
  assert (H2 : db_users demo_db !! tok_sub (mkToken "c99" (Some "Gone") None) = None)
    by reflexivity.
  assert (H3 : students_to_create "c99" spec_batch <> []) by (vm_compute; discriminate).
  split_and!; [exact H1 | exact H2 | exact H3 |
    exact (proj1 (uploadStudents_deleted_account _ _ _ H1 H2 H3)) |
    exact (proj2 (uploadStudents_deleted_account _ _ _ H1 H2 H3))].
Defined.

Lemma row_without_name_header_dropped_witness :
  (<["NAME" := JStr "A"]> (<["PHONE" := JStr "123"]> ∅) : JsObject) !! "Name" = None /\
  (<["NAME" := JStr "A"]> (<["PHONE" := JStr "123"]> ∅) : JsObject) !! "name" = None /\
  valid_student (row_to_student id_faculty (<["NAME" := JStr "A"]> (<["PHONE" := JStr "123"]> ∅)))
    = false.
Proof.
  split_and!; [reflexivity | reflexivity |].
  apply row_without_name_header_dropped; reflexivity.
Defined.

End StudentProperties.
