(* ===== verification/ClientView.v ===== *)
(** * The calling list in the browser ([src/app/dashboard/students/client-view.tsx])

    [StudentClient] keeps the rows the page sent, a search text and a sort
    configuration.  The rows shown are the rows whose lower-cased name
    contains the lower-cased search text or whose phone contains it, sorted
    by [Array.prototype.sort] (a stable sort since ES2019) with the
    comparator of the component; a click on a column header toggles the
    direction.  Strings are compared by code unit, which on the ASCII
    strings of the model is [String.compare].  The update dialog submits
    its fields with their default values unless the user changed them,
    and calls [updateStudent].  The sort itself is the stable insertion
    sort of [StableSort.v]; the table, the icons and the component's
    state machine are in [Views.v]. *)

From S2P Require Import Prelude StableSort JsValue Schema Store Auth Students.
From Stdlib Require Import Sorting.Sorted Structures.OrderedTypeEx.
Import Js Prisma Auth Students.

Module ClientView.

(** ** JavaScript string methods *)

(** [toLowerCase()] on ASCII. *)
Definition lower_ascii (c : Ascii.ascii) : Ascii.ascii :=
  let n := Ascii.nat_of_ascii c in
  if (65 <=? n) && (n <=? 90) then Ascii.ascii_of_nat (n + 32) else c.

Fixpoint to_lower (s : string) : string :=
  match s with
  | EmptyString => EmptyString
  | String c s' => String (lower_ascii c) (to_lower s')
  end.

(** [hay.includes(needle)]: some suffix of [hay] starts with [needle]. *)
Fixpoint includes (hay needle : string) : bool :=
  String.prefix needle hay ||
  match hay with
  | EmptyString => false
  | String _ hay' => includes hay' needle
  end.

(** ** Filtering *)

(** [s.name.toLowerCase().includes(search.toLowerCase()) || s.phone.includes(search)] *)
Definition matches_search (search : string) (s : Student) : bool :=
  includes (to_lower (st_name s)) (to_lower search) || includes (st_phone s) search.

Definition filtered (search : string) (students : list Student) : list Student :=
  filter (fun s => matches_search search s = true) students.

(** ** Sorting *)

Inductive Direction : Type := Asc | Desc.

Record SortConfig : Type := mkSortConfig { sort_key : string; sort_dir : Direction }.

#[export] Instance Direction_eq_dec : EqDecision Direction.
Proof. solve_decision. Defined.

(** [handleSort(key)]: ascending, unless the same column is already sorted
    ascending. *)
Definition handleSort (cfg : option SortConfig) (key : string) : option SortConfig :=
  let direction :=
    match cfg with
    | Some c => if String.eqb (sort_key c) key && bool_decide (sort_dir c = Asc)
                then Desc else Asc
    | None => Asc
    end in
  Some (mkSortConfig key direction).

(** [a[key]] on a row as Prisma returns it. *)
Definition student_field (key : string) (s : Student) : JsVal :=
  let opt o := match o with Some v => JStr v | None => JNull end in
  if String.eqb key "id" then JStr (st_id s)
  else if String.eqb key "name" then JStr (st_name s)
  else if String.eqb key "phone" then JStr (st_phone s)
  else if String.eqb key "address" then opt (st_address s)
  else if String.eqb key "prevCourse" then opt (st_prev_course s)
  else if String.eqb key "callStatus" then JStr (call_status_to_string (st_call_status s))
  else if String.eqb key "futureInterest" then opt (interest_to_string <$> st_future_interest s)
  else if String.eqb key "notes" then opt (st_notes s)
  else if String.eqb key "lastUpdatedBy" then opt (st_last_updated_by s)
  else if String.eqb key "uploadedById" then JStr (st_uploaded_by_id s)
  else JUndefined.

(** [(a[key] || "").toString().toLowerCase()] *)
Definition sort_value (key : string) (s : Student) : string :=
  to_lower (to_string (js_or (student_field key s) (JStr ""))).

(** The comparator passed to [sort]. *)
Definition compare_students (cfg : option SortConfig) (a b : Student) : Z :=
  match cfg with
  | None => 0
  | Some c =>
      let valA := sort_value (sort_key c) a in
      let valB := sort_value (sort_key c) b in
      match String.compare valA valB with
      | Lt => if bool_decide (sort_dir c = Asc) then -1 else 1
      | Gt => if bool_decide (sort_dir c = Asc) then 1 else -1
      | Eq => 0
      end
  end%Z.

(** [sortedStudents]. *)
Definition sortedStudents (cfg : option SortConfig) (search : string)
    (students : list Student) : list Student :=
  sort_by (compare_students cfg) (filtered search students).

(** ** The update dialog *)

(** The form of the update dialog with its default values, in document
    order: [defaultValue={selectedStudent?.callStatus}],
    [selectedStudent?.prevCourse || ""], [selectedStudent?.futureInterest
    || "OTHER"] and [selectedStudent?.notes] (empty when [null]). *)
Definition dialog_form (s : Student) : FormData :=
  [("status", call_status_to_string (st_call_status s));
   ("prevCourse", default "" (st_prev_course s));
   ("interest", default "OTHER" (interest_to_string <$> st_future_interest s));
   ("notes", default "" (st_notes s))].

(** The [FormData] the browser submits after the user changed the fields
    named in [edits]. *)
Definition dialog_submit (s : Student) (edits : FormData) : FormData :=
  (fun kv => (kv.1, default kv.2 (form_get edits kv.1))) <$> dialog_form s.

(** The dialog's form action: [await updateStudent(selectedStudent.id,
    formData)]. *)
Definition saveDialog (tok : option Token) (s : Student) (edits : FormData) : Act unit :=
  updateStudent tok (st_id s) (dialog_submit s edits).

(** ** Properties *)

Lemma compare_students_antisym cfg a b :
  compare_students cfg a b = (- compare_students cfg b a)%Z.
Proof.
  destruct cfg as [[k d]|]; simpl; [|done].
  rewrite (String.compare_antisym (sort_value k a)).
  destruct (String.compare (sort_value k b) (sort_value k a)), d; reflexivity.
Qed.

(** Comparing code units: "not after" is transitive. *)
Lemma string_compare_le_trans a b c :
  String.compare a b <> Gt -> String.compare b c <> Gt -> String.compare a c <> Gt.
Proof.
  pose proof String_as_OT.cmp_eq as Heq. pose proof String_as_OT.cmp_lt as Hlt.
  unfold String_as_OT.cmp in *.
  destruct (String.compare a b) eqn:Eab; [apply Heq in Eab as ->; done| |done].
  destruct (String.compare b c) eqn:Ebc; [apply Heq in Ebc as ->; by rewrite Eab| |done].
  intros _ _. apply Hlt in Eab, Ebc. by rewrite (proj2 (Hlt a c) (String_as_OT.lt_trans _ _ _ Eab Ebc)).
Qed.

(** With a sort configuration, a row "not after" another is one whose
    column value is not after the other's in the chosen direction. *)
Lemma compare_students_le c a b :
  (compare_students (Some c) a b <= 0)%Z <->
  if bool_decide (sort_dir c = Asc)
  then String.compare (sort_value (sort_key c) a) (sort_value (sort_key c) b) <> Gt
  else String.compare (sort_value (sort_key c) b) (sort_value (sort_key c) a) <> Gt.
Proof.
  rewrite (String.compare_antisym (sort_value (sort_key c) b)). destruct c as [k []]; simpl.
  all: destruct (String.compare _ _); simpl; split; (done || lia).
Qed.

Lemma compare_students_le_trans c a b d :
  (compare_students (Some c) a b <= 0)%Z -> (compare_students (Some c) b d <= 0)%Z ->
  (compare_students (Some c) a d <= 0)%Z.
Proof.
  rewrite !compare_students_le. case_bool_decide; eauto using string_compare_le_trans.
Qed.

Lemma compare_students_zero c a b :
  compare_students (Some c) a b = 0%Z <-> sort_value (sort_key c) a = sort_value (sort_key c) b.
Proof.
  pose proof (String_as_OT.cmp_eq (sort_value (sort_key c) a) (sort_value (sort_key c) b)) as H.
  unfold String_as_OT.cmp in H. rewrite <- H. destruct c as [k []]; simpl.
  all: destruct (String.compare _ _); simpl; split; done.
Qed.

Lemma includes_empty hay : includes hay "" = true.
Proof. destruct hay; reflexivity. Qed.

(** The rows shown are exactly the rows of the page that match the
    search, each once: the sort only reorders them. *)
Lemma sortedStudents_perm cfg search ss :
  sortedStudents cfg search ss ≡ₚ filter (fun s => matches_search search s = true) ss.
Proof. apply sort_by_perm. Qed.

(** With a sort configuration, no shown row compares greater than the
    next one: the list is ordered by the clicked column, ascending or
    descending. *)
Lemma sortedStudents_sorted cfg search ss :
  Sorted (fun a b => (compare_students cfg a b <= 0)%Z) (sortedStudents cfg search ss).
Proof. apply sort_by_sorted, compare_students_antisym. Qed.

(** Before any header is clicked, and with an empty search, the rows
    are shown in the order the page sent them (newest first). *)
Lemma sortedStudents_initial ss : sortedStudents None "" ss = ss.
Proof.
  unfold sortedStudents, filtered, matches_search. simpl.
  rewrite sort_by_zero. apply filter_all, Forall_forall.
  intros s _. by rewrite includes_empty.
Qed.

(** The sort is stable: after a header click, the shown rows with the
    same value in the clicked column appear in the order the page sent
    them (newest first), whatever the direction. *)
Lemma sortedStudents_stable c search ss v :
  filter (fun s => sort_value (sort_key c) s = v) (sortedStudents (Some c) search ss) =
  filter (fun s => sort_value (sort_key c) s = v) (filtered search ss).
Proof.
  apply (sort_by_stable _ (compare_students_antisym _) _
           (compare_students_le_trans c) (compare_students_zero c)).
Qed.

(** A header click sorts ascending, a second click on the same header
    descending, a third ascending again: after the first click the
    direction alternates. *)
Lemma handleSort_toggle cfg key :
  handleSort (handleSort (handleSort cfg key) key) key = handleSort cfg key /\
  handleSort (handleSort cfg key) key <> handleSort cfg key.
Proof.
  unfold handleSort. simpl. rewrite String.eqb_refl. simpl.
  destruct cfg as [[k d]|]; simpl;
    [destruct (String.eqb k key), d|]; simpl; rewrite ?String.eqb_refl; by split.
Qed.

(** The value the comparator reads from the "Status" column: the enum's
    text, lower-cased. *)
Lemma sort_value_callStatus s :
  sort_value "callStatus" s = to_lower (call_status_to_string (st_call_status s)).
Proof. by destruct s as [? ? ? ? ? [] ? ? ? ?]. Qed.

(** Lower-casing keeps the order of the status texts and tells them
    apart. *)
Lemma to_lower_status_compare c1 c2 :
  String.compare (to_lower (call_status_to_string c1)) (to_lower (call_status_to_string c2)) =
  String.compare (call_status_to_string c1) (call_status_to_string c2).
Proof. by destruct c1, c2. Qed.

Lemma to_lower_status_inj c1 c2 :
  to_lower (call_status_to_string c1) = to_lower (call_status_to_string c2) -> c1 = c2.
Proof. by destruct c1, c2. Qed.

(** The order and the groups of equal statuses under a sort
    configuration on the "Status" column. *)
Lemma status_sorted d search ss :
  Sorted (fun a b => (compare_students (Some (mkSortConfig "callStatus" d)) a b <= 0)%Z)
         (sortedStudents (Some (mkSortConfig "callStatus" d)) search ss) ->
  Sorted (fun a b => if bool_decide (d = Asc)
                     then String.compare (call_status_to_string (st_call_status a))
                                         (call_status_to_string (st_call_status b)) <> Gt
                     else String.compare (call_status_to_string (st_call_status b))
                                         (call_status_to_string (st_call_status a)) <> Gt)
         (sortedStudents (Some (mkSortConfig "callStatus" d)) search ss).
Proof.
  apply Sorted_impl. intros a b Hab%compare_students_le. simpl in Hab.
  by rewrite !sort_value_callStatus, !to_lower_status_compare in Hab.
Qed.

Lemma status_groups cfg cs (l : list Student) :
  sort_key cfg = "callStatus" ->
  filter (fun s => st_call_status s = cs) l =
  filter (fun s => sort_value (sort_key cfg) s = to_lower (call_status_to_string cs)) l.
Proof.
  intros ->. apply list_filter_iff. intros s. rewrite sort_value_callStatus.
  split; [by intros -> | apply to_lower_status_inj].
Qed.

(** C36. The "Status" header: one click sorts the calling list by the
    status text ascending (ADMISSION_TAKEN, CALL_BACK, INTERESTED,
    NOT_CALLED, NOT_INTERESTED, RINGING), a second click descending;
    either way the students of one status keep the order the page sent
    them in (newest first), among the rows that match the search. *)
Theorem status_header_clicks search ss :
  let asc := handleSort None "callStatus" in
  let desc := handleSort asc "callStatus" in
  Sorted (fun a b => String.compare (call_status_to_string (st_call_status a))
                                    (call_status_to_string (st_call_status b)) <> Gt)
         (sortedStudents asc search ss) /\
  Sorted (fun a b => String.compare (call_status_to_string (st_call_status b))
                                    (call_status_to_string (st_call_status a)) <> Gt)
         (sortedStudents desc search ss) /\
  forall cs,
    filter (fun s => st_call_status s = cs) (sortedStudents asc search ss) =
      filter (fun s => st_call_status s = cs) (filtered search ss) /\
    filter (fun s => st_call_status s = cs) (sortedStudents desc search ss) =
      filter (fun s => st_call_status s = cs) (filtered search ss).
Proof.
  cbn zeta. unfold handleSort. simpl.
  split_and!; [apply (status_sorted Asc), sortedStudents_sorted
              | apply (status_sorted Desc), sortedStudents_sorted |].
  intros cs. split; [set (c := mkSortConfig "callStatus" Asc) | set (c := mkSortConfig "callStatus" Desc)];
    rewrite !(status_groups c) by done; apply sortedStudents_stable.
Qed.

(** C33. Saving the update dialog after changing only the call status of a
    student with no future interest records the interest OTHER: the
    interest select defaults to "OTHER", so the dashboard's interest
    counts grow by a choice nobody made. *)
Theorem saveDialog_sets_interest_other db t s cs :
  s ∈ db_students db -> st_future_interest s = None ->
  exists db', saveDialog (Some t) s [("status", call_status_to_string cs)] db = Ok tt db' /\
    forall s', s' ∈ db_students db' -> st_id s' = st_id s ->
      st_call_status s' = cs /\ st_future_interest s' = Some OTHER.
Proof.
  intros Hin Hfi. unfold saveDialog, updateStudent.
  rewrite (se_bind_ok _ _ _ _ _ (getCurrentUser_some db t)).
  unfold dialog_submit, dialog_form. rewrite Hfi. simpl.
  rewrite !form_get_cons. simpl.
  change (interest_normalize (Some "OTHER")) with (Some "OTHER").
  unfold student_update_call. simpl. rewrite call_status_of_string_to_string.
  change (interest_of_string "OTHER") with (Some OTHER). cbv iota beta.
  unfold student_update. se_step.
  rewrite bool_decide_true by (apply list_elem_of_fmap_2, Hin).
  eexists. split; [reflexivity|]. simpl.
  intros s' (s0 & -> & _)%list_elem_of_fmap. case_bool_decide as E; [by split|].
  intros E'. by rewrite E' in E.
Qed.

Definition dialog_row : Student :=
  mkStudent (fresh_id 3) "Ravi" "9000000001" None None NOT_CALLED None None None (fresh_id 1).

Lemma saveDialog_sets_interest_other_witness :
  dialog_row ∈ db_students (mkDB ∅ [dialog_row] 4) /\ st_future_interest dialog_row = None /\
  exists db', saveDialog (Some (mkToken (fresh_id 1) (Some "Asha") None)) dialog_row
                [("status", call_status_to_string RINGING)] (mkDB ∅ [dialog_row] 4) = Ok tt db' /\
    forall s', s' ∈ db_students db' -> st_id s' = st_id dialog_row ->
      st_call_status s' = RINGING /\ st_future_interest s' = Some OTHER.
Proof.
  assert (dialog_row ∈ db_students (mkDB ∅ [dialog_row] 4)) as H by (simpl; left).
  split_and!; [exact H | reflexivity |].
  exact (saveDialog_sets_interest_other _ _ dialog_row RINGING H eq_refl).
Defined.

End ClientView.
