(* ===== verification/Views.v ===== *)
(** * The pages and dialogs around the server actions

    The server components render what the actions and queries return,
    and the client components post forms to the actions and show a toast
    with the outcome.  This file models that glue, so that what a user
    sees is tied to what the server does:

    - [Module Dashboard]: [DashboardPage] ([src/app/dashboard/page.tsx])
      and the pie charts of [DashboardCharts]
      ([src/components/dashboard/dashboard-charts.tsx]): the cards, the
      chart data and the colour of each slice;
    - [Module Layout]: [DashboardLayout] ([src/app/dashboard/layout.tsx]):
      the redirect and the navigation links;
    - [Module LoginPage]: the login form of [src/app/login/page.tsx] and
      its submit button;
    - [Module FacultyUI]: the rows and dialogs of [FacultyClient]
      ([src/app/dashboard/faculty/faculty-client.tsx]), the create form
      of [src/app/dashboard/faculty/page.tsx] and the page's hand-off of
      the accounts to [FacultyClient];
    - [Module StudentUI]: the table header and cells, the sort icons,
      the component's state machine, the update dialog and the upload
      handler of [StudentClient]
      ([src/app/dashboard/students/client-view.tsx]).

    Markup, styling and the chart library's drawing are not modelled:
    only the values the components compute and the calls they make. *)

From S2P Require Import Prelude JsValue Schema Store Auth Fixtures Accounts Students ClientView.
Import Js Prisma Auth Accounts Students ClientView.

(** [str.replace(pattern, replacement)] with a string pattern: the first
    occurrence only. *)
Fixpoint replace_first (pat rep s : string) : string :=
  if String.prefix pat s then rep ++ String.substring (String.length pat) (String.length s) s
  else match s with
       | EmptyString => s
       | String c s' => String c (replace_first pat rep s')
       end.

Module Dashboard.

(** A row of a [groupBy] result as the page hands it to the chart:
    [{ futureInterest, _count: { _all } }] or [{ callStatus, _count }];
    the property of the other grouping is [undefined]. *)
Record GroupRow : Type := mkGroupRow {
  g_futureInterest : JsVal;
  g_callStatus : JsVal;
  g_count : nat;
}.

Definition interest_rows (gs : list (Interest * nat)) : list GroupRow :=
  (fun g => mkGroupRow (JStr (interest_to_string g.1)) JUndefined g.2) <$> gs.

Definition status_rows (gs : list (CallStatus * nat)) : list GroupRow :=
  (fun g => mkGroupRow JUndefined (JStr (call_status_to_string g.1)) g.2) <$> gs.

(** [COLORS] *)
Definition COLORS : list string :=
  ["#0088FE"; "#00C49F"; "#FFBB28"; "#FF8042"; "#8884d8"; "#82ca9d"; "#ffc658"].

(** [chartData]: [{ name: d.futureInterest, value: d._count._all }] for
    the interest chart, [d.callStatus] for any other [type]. *)
Definition chartData (data : list GroupRow) (type : string) : list (JsVal * nat) :=
  if String.eqb type "interest"
  then (fun d => (g_futureInterest d, g_count d)) <$> data
  else (fun d => (g_callStatus d, g_count d)) <$> data.

(** [COLORS[index % COLORS.length]]; an index past the end would read
    [undefined]. *)
Definition cell_fill (index : nat) : option string :=
  COLORS !! (index mod length COLORS).

(** A slice of the pie: its name, its value and the [fill] of its [Cell]. *)
Record Slice : Type := mkSlice {
  slice_name : JsVal;
  slice_value : nat;
  slice_fill : option string;
}.

(** [DashboardCharts({ data, type })]: one [Cell] per entry of
    [chartData], in order. *)
Definition DashboardCharts (data : list GroupRow) (type : string) : list Slice :=
  imap (fun index e => mkSlice e.1 e.2 (cell_fill index)) (chartData data type).

(** What [DashboardPage] renders. *)
Inductive DashView : Type :=
  | DashLoading
  | DashOverview (totalCard interestedCard : nat) (interestChart statusChart : list Slice).

(** [DashboardPage()]. *)
Definition dashboardPage (tok : option Token) : Act DashView :=
  let* stats := getDashboardStats tok in
  match stats with
  | None => se_ret DashLoading
  | Some st =>
      se_ret (DashOverview (total st) (interested_card st)
                (DashboardCharts (interest_rows (interestedGroups st)) "interest")
                (DashboardCharts (status_rows (statusCounts st)) "status"))
  end.

End Dashboard.

(** ** The dashboard: cards and charts *)
Section DashboardProperties.
Import Dashboard.

Lemma group_counts_length {K} `{EqDecision K} (vals : list K) (key : Student -> option K) ss :
  length (group_counts vals key ss) <= length vals.
Proof. unfold group_counts. etransitivity; [apply length_filter_le|]. by rewrite length_fmap. Qed.

Lemma chartData_length data type : length (chartData data type) = length data.
Proof. unfold chartData. by destruct (String.eqb _ _); rewrite length_fmap. Qed.

Lemma length_DashboardCharts data type : length (DashboardCharts data type) = length data.
Proof. unfold DashboardCharts. by rewrite length_imap, chartData_length. Qed.

(** The fill of the [index]-th slice is [cell_fill index]. *)
Lemma DashboardCharts_fills data type :
  slice_fill <$> DashboardCharts data type = cell_fill <$> seq 0 (length data).
Proof.
  unfold DashboardCharts. rewrite fmap_imap, <- (chartData_length data type).
  apply (imap_seq_0 _ cell_fill).
Qed.

(** The value of a slice is the count of its group. *)
Lemma DashboardCharts_values data type :
  slice_value <$> DashboardCharts data type = g_count <$> data.
Proof.
  unfold DashboardCharts. rewrite fmap_imap, (imap_ext _ (const snd)) by done.
  rewrite imap_const. unfold chartData.
  destruct (String.eqb _ _); by rewrite <- list_fmap_compose.
Qed.

(** Each slice of a chart has a colour, and no two share one. *)
Definition distinct_fills (cs : list Slice) : Prop :=
  Forall is_Some (slice_fill <$> cs) /\ NoDup (slice_fill <$> cs).

(** [COLORS] has seven distinct entries: the first seven indices get a
    colour each, all different. *)
Lemma cell_fills_distinct n :
  n <= length COLORS ->
  Forall is_Some (cell_fill <$> seq 0 n) /\ NoDup (cell_fill <$> seq 0 n).
Proof.
  intros Hn. cut (Forall (fun n => Forall is_Some (cell_fill <$> seq 0 n) /\
                                  NoDup (cell_fill <$> seq 0 n)) (seq 0 (S (length COLORS)))).
  { rewrite Forall_forall. intros H. apply H, elem_of_seq. lia. }
  apply (bool_decide_unpack _). vm_compute. exact I.
Qed.

Lemma DashboardCharts_distinct data type :
  length data <= length COLORS -> distinct_fills (DashboardCharts data type).
Proof. intros Hn. unfold distinct_fills. rewrite DashboardCharts_fills. by apply cell_fills_distinct. Qed.

Lemma dashboardPage_overview tok db v db' :
  dashboardPage tok db = Ok v db' ->
  v = DashLoading \/ exists st, getDashboardStats tok db = Ok (Some st) db /\ db' = db /\
    v = DashOverview (total st) (interested_card st)
          (DashboardCharts (interest_rows (interestedGroups st)) "interest")
          (DashboardCharts (status_rows (statusCounts st)) "status").
Proof.
  unfold dashboardPage. intros H. destruct tok as [t|].
  - rewrite (se_bind_ok _ _ _ _ _ (getDashboardStats_some db t)) in H.
    rewrite getDashboardStats_some. injection H as <- <-. right. by eexists.
  - unfold getDashboardStats, getCurrentUser, auth in H. se_inv. by left.
Qed.

(** C27. Every slice of the two pie charts of the dashboard has a colour
    of [COLORS], and no two slices of a chart share one: the interest
    chart has at most seven slices (one per interest), the status chart
    at most six, and [COLORS] has seven entries. *)
Theorem dashboardPage_fills tok db v db' :
  dashboardPage tok db = Ok v db' ->
  forall tc card ic sc, v = DashOverview tc card ic sc ->
  length ic <= 7 /\ length sc <= 6 /\ distinct_fills ic /\ distinct_fills sc.
Proof.
  intros H tc card ic sc ->.
  destruct (dashboardPage_overview _ _ _ _ H) as [?|(st & Hst & _ & [= _ _ -> ->])]; [done|].
  apply getDashboardStats_stats in Hst as (_ & w & ->).
  unfold stats_of; simpl. unfold interest_rows, status_rows.
  pose proof (group_counts_length Interest_values st_future_interest
                (filter (fun s => is_Some (st_future_interest s))
                   (student_select w (db_students db)))).
  pose proof (group_counts_length CallStatus_values (fun s => Some (st_call_status s))
                (student_select w (db_students db))).
  rewrite !length_DashboardCharts, !length_fmap.
  split_and!; [simpl in *; lia | simpl in *; lia | |];
    apply DashboardCharts_distinct; rewrite length_fmap; simpl in *; lia.
Qed.
(** C26. The cards and charts of the dashboard count the same students,
    those the page's filter selects for the session: the Total card is
    their number, the Interested card the number of INTERESTED ones, the
    values of the status chart add up to the total and those of the
    interest chart to the students with an interest. *)
Theorem dashboardPage_cards db t :
  let visible := student_select (dashboard_where (session_of db t)) (db_students db) in
  exists ic sc,
    dashboardPage (Some t) db =
      Ok (DashOverview (length visible)
            (length (filter (fun s => st_call_status s = INTERESTED) visible)) ic sc) db /\
    sum_list (slice_value <$> sc) = length visible /\
    sum_list (slice_value <$> ic) =
      length (filter (fun s => is_Some (st_future_interest s)) visible).
Proof.
  intros visible. unfold dashboardPage.
  rewrite (se_bind_ok _ _ _ _ _ (getDashboardStats_some db t)). cbn [se_ret].
  destruct (stats_of_counts (dashboard_where (session_of db t)) (db_students db))
    as (Ht & Hsc & Hic & Hcard).
  rewrite Ht, Hcard. do 2 eexists. split; [reflexivity|].
  rewrite !DashboardCharts_values. unfold interest_rows, status_rows.
  rewrite <- !list_fmap_compose. split; [exact Hsc | exact Hic].
Qed.

(** What the dashboard shows a Super Admin on the demo store. *)
Definition demo_view : DashView :=
  Eval vm_compute in
    match dashboardPage (Some tok_super) demo_db with Ok v _ => v | Err _ => DashLoading end.

Lemma dashboardPage_fills_witness :
  dashboardPage (Some tok_super) demo_db = Ok demo_view demo_db /\
  match demo_view with
  | DashOverview _ _ ic sc =>
      length ic <= 7 /\ length sc <= 6 /\ distinct_fills ic /\ distinct_fills sc
  | DashLoading => False
  end.
Proof.
  assert (H : dashboardPage (Some tok_super) demo_db = Ok demo_view demo_db)
    by (vm_compute; reflexivity).
  split; [exact H|]. exact (dashboardPage_fills _ _ _ _ H _ _ _ _ eq_refl).
Defined.

End DashboardProperties.

Module Layout.
Import Dashboard.

(** [(role === 'SUPER_ADMIN' || role === 'ADMIN')]: the "Faculty Team"
    link is shown. *)
Definition showFacultyLink (role : option Role) : bool :=
  role_is role SUPER_ADMIN || role_is role ADMIN.

(** What [DashboardLayout] renders: a redirect, or the sidebar's links
    (in order) with the user handed to [UserProfileDialog]. *)
Inductive LayoutView : Type :=
  | LayoutRedirect (path : string)
  | LayoutNav (links : list string) (profileUser : SessionUser).

(** [DashboardLayout({ children })]. *)
Definition dashboardLayout (tok : option Token) : Act LayoutView :=
  let* session := auth tok in
  match session with
  | None => se_ret (LayoutRedirect "/login")
  | Some su =>
      let role := su_role su in
      se_ret (LayoutNav (["/dashboard"; "/dashboard/students"] ++
                         (if showFacultyLink role then ["/dashboard/faculty"] else [])) su)
  end.

(** [toUpperCase()] on ASCII. *)
Definition upper_ascii (c : Ascii.ascii) : Ascii.ascii :=
  let n := Ascii.nat_of_ascii c in
  if (97 <=? n) && (n <=? 122) then Ascii.ascii_of_nat (n - 32) else c.

Fixpoint to_upper (s : string) : string :=
  match s with
  | EmptyString => EmptyString
  | String c s' => String (upper_ascii c) (to_upper s')
  end.

(** [user?.name?.substring(0, 2).toUpperCase() || "U"]: the avatar of
    [UserProfileDialog]. *)
Definition initials (user : SessionUser) : string :=
  match su_name user with
  | Some n => let s := to_upper (String.substring 0 2 n) in if String.eqb s "" then "U" else s
  | None => "U"
  end.

(** The pages the links lead to, as the App Router maps the paths to the
    [page.tsx] files of [src/app/dashboard]. *)
Inductive PageView : Type :=
  | PDashboard (v : DashView)
  | PStudents (students : list Student)
  | PFaculty (v : FacultyView)
  | PNotFound.

Definition route (path : string) (tok : option Token) : Act PageView :=
  if String.eqb path "/dashboard" then let* v := dashboardPage tok in se_ret (PDashboard v)
  else if String.eqb path "/dashboard/students" then
    let* ss := studentsPage tok in se_ret (PStudents ss)
  else if String.eqb path "/dashboard/faculty" then
    let* v := facultyPage tok in se_ret (PFaculty v)
  else se_ret PNotFound.

(** The page shows its content: no redirect, no "Loading...". *)
Definition opens (p : PageView) : bool :=
  match p with
  | PDashboard (DashOverview _ _ _ _) | PStudents _ | PFaculty (FacultyList _ _) => true
  | _ => false
  end.

End Layout.

(** ** The layout's navigation *)
Section LayoutProperties.
Import Dashboard Layout.

Lemma dashboardPage_signed_in db t :
  exists tc card ic sc, dashboardPage (Some t) db = Ok (DashOverview tc card ic sc) db.
Proof.
  unfold dashboardPage. rewrite (se_bind_ok _ _ _ _ _ (getDashboardStats_some db t)).
  by do 4 eexists.
Qed.

(** C19. The sidebar links exactly the pages the signed-in user can open:
    the overview and the calling list always open, and the Faculty Team
    link is shown exactly when the Faculty Management page does not
    redirect the user back to the dashboard. *)
Theorem dashboardLayout_links db t i a :
  signed_in db t i a ->
  exists links su, dashboardLayout (Some t) db = Ok (LayoutNav links su) db /\
    forall path, path ∈ links <-> exists p, route path (Some t) db = Ok p db /\ opens p = true.
Proof.
  intros Hs. do 2 eexists. split.
  { unfold dashboardLayout. by rewrite (se_bind_ok _ _ _ _ _ (auth_signed_in _ _ _ _ Hs)). }
  intros path. cbn [su_role]. unfold route.
  destruct (String.eqb_spec path "/dashboard") as [->|H1].
  { destruct (dashboardPage_signed_in db t) as (tc & card & ic & sc & Hd).
    rewrite (se_bind_ok _ _ _ _ _ Hd). split; [|set_solver]. intros _. by eexists. }
  destruct (String.eqb_spec path "/dashboard/students") as [->|H2].
  { destruct (studentsPage_ok db t) as (ss & Hss).
    rewrite (se_bind_ok _ _ _ _ _ Hss). split; [|set_solver]. intros _. by eexists. }
  destruct (String.eqb_spec path "/dashboard/faculty") as [->|H3].
  - rewrite (se_bind_ok _ _ _ _ _ (facultyPage_signed_in _ _ _ _ Hs)).
    unfold showFacultyLink, role_is, is_admin_tier.
    destruct (user_role a); simpl; split; intros H; try set_solver; try (by eexists);
      destruct H as (? & [= <-] & ?); discriminate.
  - split; [|intros (p & [= <-] & ?); discriminate].
    intros Hin. destruct (showFacultyLink _); set_solver.
Qed.
Lemma dashboardLayout_links_witness :
  signed_in demo_db tok_admin id_admin demo_admin /\
  exists links su, dashboardLayout (Some tok_admin) demo_db = Ok (LayoutNav links su) demo_db /\
    forall path, path ∈ links <->
      exists p, route path (Some tok_admin) demo_db = Ok p demo_db /\ opens p = true.
Proof.
  split; [exact demo_signed_in_admin|].
  exact (dashboardLayout_links _ _ _ _ demo_signed_in_admin).
Defined.
End LayoutProperties.

Module LoginPage.

(** What a press of "Sign In" leads to. *)
Inductive LoginStep : Type :=
  | Blocked                                (** the browser refuses to submit *)
  | Redirected (id : string) (u : User)    (** signed in: on to the dashboard *)
  | Rerendered (errorMessage : option string).

Section Login.
(** zod's e-mail check of the credential provider, and the browser's
    check of an [<input type="email">]. *)
Variable zod_email html_email : string -> bool.

(** [<form action={dispatch}>] with the [required] e-mail and password
    inputs: [dispatch] runs [authenticate] and the form state
    [errorMessage] becomes what it returns ([undefined] when [signIn]
    redirects). *)
Definition loginSubmit (email password : string) : Act LoginStep :=
  if String.eqb email "" || negb (html_email email) || String.eqb password ""
  then se_ret Blocked else
  let* res := authenticate zod_email [("email", email); ("password", password)] in
  match res with
  | SignedIn id u => se_ret (Redirected id u)
  | LoginMessage m => se_ret (Rerendered (Some m))
  end.
End Login.

(** [SubmitButton()]: its label and [disabled] while the form's action
    is pending ([useFormStatus]). *)
Definition SubmitButton (pending : bool) : string * bool :=
  (if pending then "Signing in..." else "Sign In", pending).

(** [{errorMessage && <p>{errorMessage}</p>}]: the message shown. *)
Definition error_shown (errorMessage : option string) : option string :=
  match errorMessage with
  | Some m => if String.eqb m "" then None else Some m
  | None => None
  end.

End LoginPage.

Module FacultyUI.

(** [getRoleColor(role)] *)
Definition getRoleColor (role : Role) : string :=
  match role with
  | SUPER_ADMIN => "bg-purple-100 text-purple-700 hover:bg-purple-100"
  | ADMIN => "bg-blue-100 text-blue-700 hover:bg-blue-100"
  | FACULTY => "bg-gray-100 text-gray-700 hover:bg-gray-100"
  end.

(** The role column of a row: the select (its default value and its
    items) or the badge (its text). *)
Inductive RoleCell : Type :=
  | RoleSelect (defaultValue : Role) (items : list Role)
  | RoleBadge (label : string).

(** A row of the table: the account, the "(You)" mark, the role column
    and whether the reset and delete buttons are rendered. *)
Record FacultyRow : Type := mkFacultyRow {
  row_id : string;
  row_user : User;
  row_isMe : bool;
  row_role : RoleCell;
  row_reset : bool;
  row_delete : bool;
}.

(** The body of [facultyList.map((f) => ...)]. *)
Definition facultyRow (currentUser : SessionUser) (f : string * User) : FacultyRow :=
  let isMe := strict_eq_opt (Some f.1) (su_id currentUser) in
  let cm := canManage currentUser f.1 f.2 in
  mkFacultyRow f.1 f.2 isMe
    (if cm then RoleSelect (user_role f.2)
                  ([FACULTY; ADMIN] ++ (if isSuperAdmin currentUser then [SUPER_ADMIN] else []))
     else RoleBadge (replace_first "_" " " (role_to_string (user_role f.2))))
    cm cm.

(** [FacultyClient({ facultyList, currentUser })]: [null] without a
    current user. *)
Definition facultyClient (currentUser : option SessionUser) (facultyList : list (string * User))
    : option (list FacultyRow) :=
  match currentUser with
  | None => None
  | Some cu => Some (facultyRow cu <$> facultyList)
  end.

(** The state of the password-reset dialog. *)
Record ResetDialog : Type := mkResetDialog {
  selectedFaculty : option FacultyRow;
  isResetOpen : bool;
}.

(** The dialog's [onOpenChange={setIsResetOpen}] and its description
    [For user: {selectedFaculty?.name}]. *)
Definition setResetOpen (d : ResetDialog) (open : bool) : ResetDialog :=
  mkResetDialog (selectedFaculty d) open.

Definition resetDescription (d : ResetDialog) : option string :=
  selectedFaculty d ≫= (fun f => user_name (row_user f)).

(** The key button: [setSelectedFaculty(f); setIsResetOpen(true)]. *)
Definition openReset (f : FacultyRow) : ResetDialog := mkResetDialog (Some f) true.

(** The dialog's form: [selectedFaculty?.id || ''] and the password. *)
Definition resetForm (d : ResetDialog) (newPassword : string) : FormData :=
  [("id", match selectedFaculty d with Some f => row_id f | None => "" end);
   ("newPassword", newPassword)].

(** The dialog's form action: the browser submits only when the input's
    [required minLength={6}] hold; the action's error is caught. *)
Definition resetSubmit (tok : option Token) (d : ResetDialog) (newPassword : string)
    : Act (ResetDialog * option Toast) :=
  if negb (password_input_valid newPassword) then se_ret (d, None) else
  se_catch
    (let* _ := adminResetPassword tok (resetForm d newPassword) in
     se_ret (mkResetDialog (selectedFaculty d) false,
             Some (ToastInfo "Success" "Password reset.")))
    (fun _ => se_ret (d, Some (ToastError "Failed to reset password."))).

(** The trash button's form: [<form action={deleteFaculty}>] with the
    hidden id. *)
Definition deleteSubmit (tok : option Token) (f : FacultyRow) : Act unit :=
  deleteFaculty tok [("id", row_id f)].

(** The create form of [FacultyPage]: three [required] inputs (the
    e-mail one of [type="email"]) posted to [createFaculty]; [false] when
    the browser refuses to submit. *)
Definition createSubmit (html_email : string -> bool) (tok : option Token)
    (name email password : string) : Act bool :=
  if String.eqb name "" || String.eqb email "" || negb (html_email email) ||
     String.eqb password ""
  then se_ret false else
  let* _ := createFaculty tok [("name", name); ("email", email); ("password", password)] in
  se_ret true.

(** The "Existing Faculty" card of [FacultyPage]: every account and the
    session's user are passed to [FacultyClient]. *)
Definition existingFaculty (v : FacultyView) : option (list FacultyRow) :=
  match v with
  | FacultyList users su => facultyClient (Some su) users
  | _ => None
  end.

End FacultyUI.

(** ** The Faculty Management controls against the actions *)
Section FacultyUIProperties.
Import FacultyUI.

(** What [canManage] grants a signed-in viewer: another account, and a
    Super Admin viewer or a Faculty target. *)
Lemma canManage_session i n e r j f :
  canManage (mkSessionUser (Some i) n e (Some r)) j f = true ->
  j <> i /\ is_admin_tier r = true /\ (r = ADMIN -> user_role f = FACULTY).
Proof.
  unfold canManage, isSuperAdmin, isAdmin, role_is, is_admin_tier. simpl.
  destruct (String.eqb_spec j i); [done|]. intros H. split; [done|].
  destruct r, (user_role f); simpl in *; by try discriminate.
Qed.

(** C18. Every reset and delete control that the Faculty Management page
    renders works: on a row showing the key button, the reset dialog
    with any password its input accepts ends with the success toast, the
    dialog closed and the account's password replaced; on a row showing
    the trash button, the form deletes exactly that account. *)
Theorem facultyPage_controls db t i a :
  signed_in db t i a -> is_admin_tier (user_role a) = true ->
  exists us su, facultyPage (Some t) db = Ok (FacultyList us su) db /\
  forall r, r ∈ facultyRow su <$> us ->
    (row_reset r = true -> forall p, password_input_valid p = true ->
       resetSubmit (Some t) (openReset r) p db =
         Ok (mkResetDialog (Some r) false, Some (ToastInfo "Success" "Password reset."))
            (set_users db (<[row_id r := set_password (mkHash 10 p) (row_user r)]>
                             (db_users db)))) /\
    (row_delete r = true ->
       deleteSubmit (Some t) r db = Ok tt (set_users db (delete (row_id r) (db_users db)))).
Proof.
  intros Hs Ha. rewrite (facultyPage_signed_in _ _ _ _ Hs), Ha.
  do 2 eexists. split; [reflexivity|].
  intros r ([j f] & -> & Hjf%elem_of_map_to_list)%list_elem_of_fmap. cbn.
  split; intros (Hne & Hr & Hv)%canManage_session.
  - intros p Hp. unfold resetSubmit, resetForm, openReset. rewrite Hp. simpl. unfold se_catch.
    assert (password_too_short (Some p) = false) as Hshort.
    { rewrite password_input_valid_spec in Hp. by destruct (password_too_short _). }
    by rewrite (se_bind_ok _ _ _ _ _ (adminResetPassword_ok db t i a
               [("id", j); ("newPassword", p)] j f p Hs Hr Hv eq_refl eq_refl Hshort Hjf)).
  - apply (deleteFaculty_ok db t i a [("id", j)] j f Hs Hr Hv eq_refl Hne Hjf).
Qed.

Lemma facultyPage_controls_witness :
  signed_in demo_db tok_admin id_admin demo_admin /\ is_admin_tier (user_role demo_admin) = true /\
  exists us su, facultyPage (Some tok_admin) demo_db = Ok (FacultyList us su) demo_db /\
  forall r, r ∈ facultyRow su <$> us ->
    (row_reset r = true -> forall p, password_input_valid p = true ->
       resetSubmit (Some tok_admin) (openReset r) p demo_db =
         Ok (mkResetDialog (Some r) false, Some (ToastInfo "Success" "Password reset."))
            (set_users demo_db (<[row_id r := set_password (mkHash 10 p) (row_user r)]>
                                  (db_users demo_db)))) /\
    (row_delete r = true ->
       deleteSubmit (Some tok_admin) r demo_db =
         Ok tt (set_users demo_db (delete (row_id r) (db_users demo_db)))).
Proof.
  split_and!; [exact demo_signed_in_admin | reflexivity |].
  exact (facultyPage_controls _ _ _ _ demo_signed_in_admin eq_refl).
Defined.
End FacultyUIProperties.

Module StudentUI.

(** [{x || "-"}] on a nullable text column. *)
Definition or_dash (v : option string) : string :=
  match v with
  | Some s => if String.eqb s "" then "-" else s
  | None => "-"
  end.

(** The cells of a row of the calling list, in column order: name, phone,
    previous course, future interest, the status badge's text and the
    last updater. *)
Definition studentCells (s : Student) : list string :=
  [st_name s; st_phone s; or_dash (st_prev_course s);
   or_dash (interest_to_string <$> st_future_interest s);
   replace_first "_" " " (call_status_to_string (st_call_status s));
   or_dash (st_last_updated_by s)].

(** [variant={s.callStatus === 'INTERESTED' ? 'default' : 'secondary'}] *)
Definition badgeVariant (s : Student) : string :=
  if bool_decide (st_call_status s = INTERESTED) then "default" else "secondary".

(** The table body: the "No students found" row when the list is empty,
    then one row per student. *)
Definition tableBody (sorted : list Student) : list (list string) :=
  (if Nat.eqb (length sorted) 0 then [["No students found"]] else []) ++
  (studentCells <$> sorted).

(** The header row: each column's title and, for the two clickable
    ones, the key their [onClick] passes to [handleSort]. *)
Definition tableHeader : list (string * option string) :=
  [("Name", None); ("Phone", None); ("Previous Course", None);
   ("Future Interest", Some "futureInterest"); ("Status", Some "callStatus");
   ("Last Updated By", None); ("Action", None)].

(** The icon of a sortable header. *)
Inductive SortIcon : Type := ArrowUp | ArrowDown | ArrowUpDown.

#[export] Instance SortIcon_eq_dec : EqDecision SortIcon.
Proof. solve_decision. Defined.

Definition sortIcon (cfg : option SortConfig) (key : string) : SortIcon :=
  match cfg with
  | Some c => if String.eqb (sort_key c) key
              then if bool_decide (sort_dir c = Asc) then ArrowUp else ArrowDown
              else ArrowUpDown
  | None => ArrowUpDown
  end.

(** [handleFileUpload(e)]: no file, nothing; otherwise the first sheet's
    rows ([XLSX.utils.sheet_to_json], a library: the rows are the input)
    are posted to [uploadStudents] and a toast reports [res?.success].
    The handler runs in [reader.onload] without a [catch]: a thrown
    error rejects its promise and no toast is shown. *)
Definition handleFileUpload (tok : option Token) (file : option (list JsObject))
    : Act (option Toast) :=
  match file with
  | None => se_ret None
  | Some data =>
      let* res := uploadStudents tok data in
      match res with
      | Success => se_ret (Some (ToastInfo "Success" "Students uploaded successfully"))
      | Failure _ => se_ret (Some (ToastError "Upload failed"))
      end
  end.

(** The state of [StudentClient]: [students], [search],
    [selectedStudent] and [sortConfig]. *)
Record ClientState : Type := mkClientState {
  cs_students : list Student;
  cs_search : string;
  cs_selected : option Student;
  cs_sort : option SortConfig;
}.

(** The [useState] initial values. *)
Definition initClient (initialStudents : list Student) : ClientState :=
  mkClientState initialStudents "" None None.

(** The events the component handles without a server call. *)
Inductive ClientEvent : Type :=
  | TypeSearch (value : string)         (** the search input's [onChange] *)
  | ClickHeader (key : string)          (** a sortable header's [onClick] *)
  | ClickUpdate (s : Student)           (** a row's "Update" button *)
  | CloseDialog.                        (** the dialog's [onOpenChange] *)

Definition client_step (st : ClientState) (ev : ClientEvent) : ClientState :=
  match ev with
  | TypeSearch v => mkClientState (cs_students st) v (cs_selected st) (cs_sort st)
  | ClickHeader key =>
      mkClientState (cs_students st) (cs_search st) (cs_selected st)
        (handleSort (cs_sort st) key)
  | ClickUpdate s => mkClientState (cs_students st) (cs_search st) (Some s) (cs_sort st)
  | CloseDialog => mkClientState (cs_students st) (cs_search st) None (cs_sort st)
  end.

(** The update dialog: [open={!!selectedStudent}] and its title
    [Update Call Details: {selectedStudent?.name}]. *)
Definition dialogOpen (st : ClientState) : bool := bool_decide (is_Some (cs_selected st)).

Definition dialogTitle (st : ClientState) : string :=
  "Update Call Details: " ++ default "" (st_name <$> cs_selected st).

(** The rows the table renders. *)
Definition render (st : ClientState) : list (list string) :=
  tableBody (sortedStudents (cs_sort st) (cs_search st) (cs_students st)).

(** The update dialog's form action: [updateStudent(selectedStudent.id,
    formData)], then the toast and [window.location.reload()], which
    renders [StudentsPage] again from a fresh state.  With no selected
    student, [selectedStudent.id] throws. *)
Definition submitDialog (tok : option Token) (st : ClientState) (edits : FormData)
    : Act (ClientState * Toast) :=
  match cs_selected st with
  | None => se_throw TypeError
  | Some s =>
      let* _ := saveDialog tok s edits in
      let* ss := studentsPage tok in
      se_ret (initClient ss, ToastInfo "Updated" "Student details saved.")
  end.

End StudentUI.

(** ** The login form *)
Section LoginProperties.
Import LoginPage.
Variable zod_email html_email : string -> bool.

(** C24. The login page: with unique e-mails, pressing "Sign In" with a
    stored user's e-mail (accepted by the e-mail input and by zod) and a
    non-empty password redirects as that user when the password is right,
    and otherwise re-renders the form with "Invalid credentials."; the
    store is not written. *)
Theorem loginSubmit_spec db i u p :
  db_wf db -> db_users db !! i = Some u -> user_email u <> "" ->
  html_email (user_email u) = true -> zod_email (user_email u) = true -> p <> "" ->
  loginSubmit zod_email html_email (user_email u) p db =
    Ok (if bcrypt_compare p (user_password u) then Redirected i u
        else Rerendered (Some "Invalid credentials.")) db.
Proof.
  intros Hwf Hi He Hh Hz Hp. unfold loginSubmit.
  rewrite (proj2 (String.eqb_neq _ _) He), (proj2 (String.eqb_neq _ _) Hp), Hh. simpl.
  rewrite (se_bind_ok _ _ _ _ _ (authenticate_spec zod_email db i u
             [("email", user_email u); ("password", p)] p Hwf Hi eq_refl eq_refl Hz)).
  by destruct (bcrypt_compare p (user_password u)).
Qed.

End LoginProperties.

(** The seeded Farid signs in; an Admin creates an account under an
    e-mail that the browser accepts and zod rejects. *)
Definition zod_rejects_nina (e : string) : bool := negb (String.eqb e "nina@college").

Definition nina_bad_form : FormData :=
  [("name", "Nina"); ("email", "nina@college"); ("password", "secret1")].

Lemma loginSubmit_spec_witness :
  db_wf demo_db /\ db_users demo_db !! id_faculty = Some demo_faculty /\
  user_email demo_faculty <> "" /\ accept_any_email (user_email demo_faculty) = true /\
  "farid-pass" <> "" /\
  LoginPage.loginSubmit accept_any_email accept_any_email (user_email demo_faculty) "farid-pass"
    demo_db = Ok (LoginPage.Redirected id_faculty demo_faculty) demo_db.
Proof.
  assert (user_email demo_faculty <> "") as He by (vm_compute; discriminate).
  assert ("farid-pass" <> "") as Hp by discriminate.
  split_and!; [apply demo_db_wf | reflexivity | exact He | reflexivity | exact Hp |].
  exact (loginSubmit_spec accept_any_email accept_any_email demo_db id_faculty demo_faculty
           "farid-pass" demo_db_wf eq_refl He eq_refl eq_refl Hp).
Defined.


(** ** The header of the calling list *)
Section HeaderProperties.
Import StudentUI.

(** The header has a column for each cell of a row, and one for the
    "Update" button. *)
Lemma tableHeader_width s : length tableHeader = S (length (studentCells s)).
Proof. reflexivity. Qed.

(** A click on a header changes the icons the way [handleSort] changes
    the order: the clicked column shows [ArrowDown] after a click that
    found it ascending and [ArrowUp] otherwise; every other column shows
    [ArrowUpDown]. *)
Lemma sortIcon_handleSort cfg k k' :
  sortIcon (handleSort cfg k) k' =
  if String.eqb k k'
  then if bool_decide (sortIcon cfg k = ArrowUp) then ArrowDown else ArrowUp
  else ArrowUpDown.
Proof.
  unfold sortIcon, handleSort. simpl.
  destruct cfg as [[key []]|]; simpl;
    [by destruct (String.eqb key k), (String.eqb k k').. | by destruct (String.eqb k k')].
Qed.

(** The two clickable headers are the columns of the two sort keys the
    comparator reads from a row. *)
Lemma tableHeader_keys t k :
  (t, Some k) ∈ tableHeader -> k = "futureInterest" \/ k = "callStatus".
Proof. unfold tableHeader. intros H. repeat (apply elem_of_cons in H as [H|H]; [simplify_eq; auto|]); set_solver. Qed.
End HeaderProperties.

(** ** The upload handler of the calling list *)
Section UploadProperties.
Import StudentUI.

(** C35. The upload handler's failures: without a session cookie (an
    expired session) [uploadStudents] throws "Unauthorized" inside the
    [FileReader] callback, so no toast is shown and the page is not
    reloaded; a sheet without a valid row gets the generic "Upload
    failed" toast, not the action's reason "No valid students found.",
    and writes nothing. *)
Theorem handleFileUpload_errors data db t :
  handleFileUpload None (Some data) db = Err (ErrorMsg "Unauthorized") /\
  (tok_sub t <> "" -> students_to_create (tok_sub t) data = [] ->
     uploadStudents (Some t) data db = Ok (Failure "No valid students found.") db /\
     handleFileUpload (Some t) (Some data) db = Ok (Some (ToastError "Upload failed")) db).
Proof.
  split; [reflexivity|]. intros Hne Hnil.
  assert (uploadStudents (Some t) data db = Ok (Failure "No valid students found.") db) as H.
  { rewrite uploadStudents_unfold, bool_decide_false, Hnil by done. reflexivity. }
  split; [exact H|]. unfold handleFileUpload. by rewrite (se_bind_ok _ _ _ _ _ H).
Qed.
End UploadProperties.

Lemma handleFileUpload_errors_witness :
  StudentUI.handleFileUpload None (Some []) demo_db = Err (ErrorMsg "Unauthorized") /\
  tok_sub tok_faculty <> "" /\ students_to_create (tok_sub tok_faculty) [] = [] /\
  uploadStudents (Some tok_faculty) [] demo_db = Ok (Failure "No valid students found.") demo_db /\
  StudentUI.handleFileUpload (Some tok_faculty) (Some []) demo_db =
    Ok (Some (ToastError "Upload failed")) demo_db.
Proof.
  assert (tok_sub tok_faculty <> "") as Hne by (vm_compute; discriminate).
  destruct (handleFileUpload_errors [] demo_db tok_faculty) as [H0 H1].
  destruct (H1 Hne eq_refl) as [H2 H3].
  split_and!; [exact H0 | exact Hne | reflexivity | exact H2 | exact H3].
Defined.
