(* ===== verification/System.v ===== *)
(** * The whole application as a transition system

    The server handles one request at a time: a page render
    ([DashboardPage], [StudentsPage]), a server action of
    [src/app/actions.ts], or a sign-in through the credential provider
    of [src/auth.ts]; besides, an operator may run [src/prisma/seed.ts].
    A request whose action throws leaves the store as it was: in every
    action the only write is the last step, so a throw always precedes
    it.  [step] relates the store before and after one request or one
    run of the seed; [reachable] are the stores of a deployment that was
    migrated (empty tables) and seeded once, then served any sequence of
    requests.

    The theorems are invariants of [reachable] (well-formedness, a Super
    Admin always exists, the rows are well typed), proved by rule
    induction with [reachable_ind]; frame properties of one step (what a
    caller who is not Admin-tier can change; the rows of the calling list
    are never removed and their owner never changes) and their
    consequences along any run.  [step] lets a request carry any token;
    the server of [Server]/[sstep] also records the session tokens it
    issued and serves only those, and its stores are reachable ones
    ([sreachable_reachable]).  Over it: the recovery of any account by a
    Super Admin who holds a session, and the absence of any other way
    back in (re-running the seed writes nothing). *)

From S2P Require Import Prelude JsValue Schema Store Auth Fixtures Accounts Students.
Import Js Prisma Auth Accounts Students.

Module System.

(** ** [src/prisma/seed.ts] *)

(** [prisma.user.upsert({ where: { email }, update: {}, create })] after
    [bcrypt.hash('admin123', 10)]. *)
Definition seed : Act unit :=
  let* hashedPassword := bcrypt_hash (Some "admin123") 10 in
  let* found := user_find_by_email "admin@college.edu" in
  match found with
  | Some _ => se_ret tt
  | None =>
      let* _ := user_create (Some "Super Admin") (Some "admin@college.edu")
                  hashedPassword SUPER_ADMIN in
      se_ret tt
  end.

(** [main().then(disconnect).catch(e => { ...; process.exit(1) })]: the
    exit code of the seed script. *)
Definition seed_main : Act nat :=
  se_catch (let* _ := seed in se_ret 0) (fun _ => se_ret 1).

(** ** Requests *)

Inductive Request : Type :=
  | SignIn (email password : option string)
  | ViewDashboard (tok : option Token)
  | ViewStudents (tok : option Token)
  | UploadStudents (tok : option Token) (data : list JsObject)
  | UpdateStudent (tok : option Token) (id : string) (fd : FormData)
  | CreateFaculty (tok : option Token) (fd : FormData)
  | DeleteFaculty (tok : option Token) (fd : FormData)
  | AdminResetPassword (tok : option Token) (fd : FormData)
  | UpdateUserRole (tok : option Token) (fd : FormData)
  | UpdateOwnPassword (tok : option Token) (fd : FormData).

(** What a request returns to the browser. *)
Inductive Response : Type :=
  | RSignIn (user : option (string * User))
  | RStats (stats : option DashboardStats)
  | RStudents (students : list Student)
  | RReply (r : Reply)
  | RDone.

(** The session cookie a request carries. *)
Definition request_token (r : Request) : option Token :=
  match r with
  | SignIn _ _ => None
  | ViewDashboard tok | ViewStudents tok | UploadStudents tok _
  | UpdateStudent tok _ _ | CreateFaculty tok _ | DeleteFaculty tok _
  | AdminResetPassword tok _ | UpdateUserRole tok _ | UpdateOwnPassword tok _ => tok
  end.

Section Server.
(** zod's e-mail check of the credential provider. *)
Variable zod_email : string -> bool.

Definition handle (r : Request) : Act Response :=
  match r with
  | SignIn e p => let* u := authorize zod_email e p in se_ret (RSignIn u)
  | ViewDashboard tok => let* st := getDashboardStats tok in se_ret (RStats st)
  | ViewStudents tok => let* ss := studentsPage tok in se_ret (RStudents ss)
  | UploadStudents tok data => let* rp := uploadStudents tok data in se_ret (RReply rp)
  | UpdateStudent tok id fd => let* _ := updateStudent tok id fd in se_ret RDone
  | CreateFaculty tok fd => let* _ := createFaculty tok fd in se_ret RDone
  | DeleteFaculty tok fd => let* _ := deleteFaculty tok fd in se_ret RDone
  | AdminResetPassword tok fd => let* rp := adminResetPassword tok fd in se_ret (RReply rp)
  | UpdateUserRole tok fd => let* rp := updateUserRole tok fd in se_ret (RReply rp)
  | UpdateOwnPassword tok fd => let* rp := updateOwnPassword tok fd in se_ret (RReply rp)
  end.

Inductive step : DB -> DB -> Prop :=
  | step_request r db : step db (run_store (handle r) db)
  | step_seed db : step db (run_store seed db).

Definition empty_db : DB := mkDB ∅ [] 0.

(** The store after the migration and the first run of the seed. *)
Definition initial_db : DB := run_store seed empty_db.

Definition reachable (db : DB) : Prop := rtc step initial_db db.

(** ** Invariants of the reachable stores *)

Lemma run_store_preserves (P : DB -> Prop) {A} (m : Act A) db :
  se_preserves P m -> P db -> P (run_store m db).
Proof. intros Hm HP. unfold run_store. destruct (m db) eqn:E; [by eapply Hm|done]. Qed.

(** A property that holds after the seed and is kept by every step holds
    in every reachable store. *)
Lemma steps_preserve (P : DB -> Prop) :
  (forall db db', P db -> step db db' -> P db') ->
  forall db db', rtc step db db' -> P db -> P db'.
Proof. intros Hs db db' Hr. induction Hr; eauto. Qed.

Lemma reachable_ind (P : DB -> Prop) :
  P initial_db -> (forall db db', P db -> step db db' -> P db') ->
  forall db, reachable db -> P db.
Proof. intros H0 Hs db Hr. by apply (steps_preserve P Hs initial_db). Qed.

(** Every request and the seed preserve [P] (each on its own). *)
Lemma step_preserves (P : DB -> Prop) :
  (forall r, se_preserves P (handle r)) -> se_preserves P seed ->
  forall db db', P db -> step db db' -> P db'.
Proof. intros Hr Hs db db' HP Hst. destruct Hst; by apply run_store_preserves. Qed.

Lemma empty_db_wf : db_wf empty_db.
Proof.
  split; simpl; [| constructor | constructor |].
  - intros i j u v Hi. by rewrite lookup_empty in Hi.
  - intros n _. split; [apply lookup_empty | apply not_elem_of_nil].
Qed.

Lemma seed_preserves_wf : se_preserves db_wf seed.
Proof. unfold seed. se_preserves_tac. Qed.

(** The seed script never fails on a well-formed store: it exits with
    status 0, whether the Super Admin row is there already or not. *)
Lemma seed_main_exits_zero db : db_wf db -> exists db', seed_main db = Ok 0 db'.
Proof.
  intros Hwf. enough (exists db', seed db = Ok tt db') as [db' Hs]
    by (exists db'; unfold seed_main, se_catch; by rewrite (se_bind_ok _ _ _ _ _ Hs)).
  unfold seed. rewrite (se_bind_ok _ _ _ _ _ (eq_refl (bcrypt_hash (Some "admin123") 10 db))).
  destruct (email_taken (db_users db) "admin@college.edu") eqn:Ht.
  - apply email_taken_spec in Ht as (i & u & Hi & He). rewrite <- He,
      (se_bind_ok _ _ _ _ _ (user_find_by_email_some db i u Hwf Hi)). eauto.
  - rewrite (se_bind_ok _ _ _ _ _ (user_find_by_email_none db _ Ht)).
    rewrite (se_bind_ok _ _ _ _ _ (user_create_ok db _ _ _ _ Hwf Ht)). eauto.
Qed.

Lemma handle_preserves_wf r : se_preserves db_wf (handle r).
Proof.
  destruct r; simpl; apply se_bind_preserves; try (intros; auto with crm);
  unfold authorize, getDashboardStats, studentsPage, uploadStudents, updateStudent,
    student_update_call, createFaculty, deleteFaculty, adminResetPassword,
    updateUserRole, updateOwnPassword; se_preserves_tac.
Qed.

Lemma initial_wf : db_wf initial_db.
Proof.
  unfold initial_db. apply run_store_preserves; [apply seed_preserves_wf | apply empty_db_wf].
Qed.

Lemma wf_step db db' : db_wf db -> step db db' -> db_wf db'.
Proof. apply step_preserves; [apply handle_preserves_wf | apply seed_preserves_wf]. Qed.

(** Every reachable store is well formed: e-mails are unique, student
    ids and (name, phone) keys are unique, and the ids the store will hand
    out are unused. *)
Lemma reachable_wf db : reachable db -> db_wf db.
Proof. apply reachable_ind; [apply initial_wf | apply wf_step]. Qed.

(** *** A Super Admin always exists *)

Definition has_super (db : DB) : Prop :=
  exists i u, db_users db !! i = Some u /\ user_role u = SUPER_ADMIN.

Lemma has_super_on_users : on_users has_super.
Proof. intros db db' Heq. unfold has_super. by rewrite Heq. Qed.

Lemma user_create_preserves_has_super name em pw r :
  se_preserves has_super (user_create name em pw r).
Proof.
  intros db id db' (i & u & Hi & Hu) H.
  apply user_create_inv in H as (e & _ & _ & Hnone & -> & ->).
  exists i, u. cbn [db_users]. rewrite lookup_insert_ne; [done|congruence].
Qed.

Lemma user_update_password_preserves_has_super id h :
  se_preserves has_super (user_update id (set_password h)).
Proof.
  intros db x db' (i & u & Hi & Hu) H.
  apply user_update_inv in H as (j & v & -> & Hv & ->).
  destruct (decide (i = j)) as [->|Hne].
  - exists j, (set_password h v). rewrite set_users_users, lookup_insert_eq.
    simpl. split; [done|congruence].
  - exists i, u. by rewrite set_users_users, lookup_insert_ne by congruence.
Qed.

#[local] Hint Resolve has_super_on_users user_create_preserves_has_super
  user_update_password_preserves_has_super : crm.

(** The caller of an account change is kept, and so is every Super Admin
    but the target. *)
Lemma has_super_change db j a ca us :
  db_users db !! ca = Some a -> user_role a = SUPER_ADMIN -> j <> ca ->
  (forall i, i <> j -> us !! i = db_users db !! i) -> has_super (set_users db us).
Proof. intros Ha Hr Hne Hus. exists ca, a. rewrite set_users_users. rewrite Hus; auto. Qed.

Lemma deleteFaculty_preserves_has_super tok fd : se_preserves has_super (deleteFaculty tok fd).
Proof.
  intros db u db' Hs H.
  apply deleteFaculty_inv in H as [->|(t & j & a & v & _ & -> & Ha & Hj & Hv & _ & Hsa)];
    [done|].
  destruct (decide (user_role a = SUPER_ADMIN)) as [Hr|Hr].
  - apply (has_super_change db j a (tok_sub t)); auto. intros i Hi. by apply lookup_delete_ne.
  - destruct Hs as (i & w & Hi & Hw).
    apply (has_super_change db j w i); auto; [intros ->; naive_solver|].
    intros k Hk. by apply lookup_delete_ne.
Qed.

Lemma updateUserRole_preserves_has_super tok fd : se_preserves has_super (updateUserRole tok fd).
Proof.
  intros db r db' Hs H.
  apply updateUserRole_inv in H as [->|(t & j & a & v & nr & _ & -> & Ha & Hsa & Hj & Hv)];
    [done|].
  apply (has_super_change db j a (tok_sub t)); auto. intros i Hi. by apply lookup_insert_ne.
Qed.

Lemma seed_preserves_has_super : se_preserves has_super seed.
Proof. unfold seed. se_preserves_tac. Qed.

Lemma handle_preserves_has_super r : se_preserves has_super (handle r).
Proof.
  destruct r; simpl; apply se_bind_preserves; try (intros; auto with crm);
    auto using deleteFaculty_preserves_has_super, updateUserRole_preserves_has_super;
  unfold authorize, getDashboardStats, studentsPage, uploadStudents, updateStudent,
    student_update_call, createFaculty, adminResetPassword, updateOwnPassword;
  se_preserves_tac.
Qed.

Lemma initial_has_super : has_super initial_db.
Proof.
  exists (fresh_id 0),
    (mkUser (Some "Super Admin") "admin@college.edu" (mkHash 10 "admin123") SUPER_ADMIN).
  split; [vm_compute; reflexivity | reflexivity].
Qed.

Lemma has_super_step db db' : has_super db -> step db db' -> has_super db'.
Proof.
  apply step_preserves; [apply handle_preserves_has_super | apply seed_preserves_has_super].
Qed.

(** C6. Every reachable store has a Super Admin: nobody can delete or
    demote the last one, since the actions that remove a Super Admin
    are the Super Admin's own and never target the caller. *)
Theorem reachable_has_super db : reachable db -> has_super db.
Proof. apply reachable_ind; [apply initial_has_super | apply has_super_step]. Qed.

(** *** What a caller below the Admin tier can change *)

(** The columns of an account other than its password. *)
Definition profile (u : User) : option string * string * Role :=
  (user_name u, user_email u, user_role u).

(** A request of a signed-in user whose current role is Admin-tier. *)
Definition admin_caller (db : DB) (tok : option Token) : Prop :=
  exists t a, tok = Some t /\ db_users db !! tok_sub t = Some a /\
    is_admin_tier (user_role a) = true.

(** [us'] differs from [us] at most in the password of [self]. *)
Definition users_frame (self : option string) (us us' : gmap string User) : Prop :=
  forall i, (Some i <> self -> us' !! i = us !! i) /\
            profile <$> us' !! i = profile <$> us !! i.

Lemma users_frame_refl self us : users_frame self us us.
Proof. done. Qed.

Lemma users_frame_password us t v h :
  us !! tok_sub t = Some v ->
  users_frame (Some (tok_sub t)) us (<[tok_sub t := set_password h v]> us).
Proof.
  intros Hv i. destruct (decide (tok_sub t = i)) as [<-|Hne].
  - rewrite lookup_insert_eq, Hv. split; [done|reflexivity].
  - rewrite lookup_insert_ne by done. split; [done|reflexivity].
Qed.

Lemma users_eq_on_users us : on_users (fun d => db_users d = us).
Proof. intros d d' Hd Hus. congruence. Qed.

#[local] Hint Resolve users_eq_on_users : crm.

Lemma run_store_bind (P : DB -> Prop) {A B} (m : Act A) (k : A -> Act B) db :
  (forall a, se_reads_only (k a)) -> P db ->
  (forall a db', m db = Ok a db' -> P db') -> P (run_store (se_bind m k) db).
Proof.
  intros Hk HP Hm. unfold run_store. destruct (se_bind m k db) eqn:E; [|done].
  apply se_bind_inv in E as (a' & d & Em & Ek). rewrite (Hk _ _ _ _ Ek). by eapply Hm.
Qed.

Lemma admin_caller_tier db t a :
  db_users db !! tok_sub t = Some a -> is_admin_tier (user_role a) = true ->
  admin_caller db (Some t).
Proof. intros Ha Hr. by exists t, a. Qed.

Lemma keeps_users_frame {A} (m : Act A) self db a db' :
  (forall us, se_preserves (fun d => db_users d = us) m) -> m db = Ok a db' ->
  users_frame self (db_users db) (db_users db').
Proof. intros Hm H. rewrite (Hm (db_users db) db a db' eq_refl H). apply users_frame_refl. Qed.

(** C5. A request whose caller is not signed in as an Admin or a Super
    Admin (no session, a deleted account, or a Faculty member) changes no
    account but its own password: every other row of the users table is
    unchanged, and no name, e-mail or role changes. *)
Theorem non_admin_frame r db :
  ~ admin_caller db (request_token r) ->
  users_frame (tok_sub <$> request_token r) (db_users db) (db_users (run_store (handle r) db)).
Proof.
  intros Hna. destruct r; simpl; apply run_store_bind; auto using users_frame_refl with crm;
    intros x db' H.
  1-5: eapply keeps_users_frame; [|exact H]; intros us;
    unfold authorize, getDashboardStats, studentsPage, uploadStudents, updateStudent,
      student_update_call; se_preserves_tac.
  - apply createFaculty_caller in H as (t & a & -> & Ha & Hr).
    contradict Hna. eauto using admin_caller_tier.
  - apply deleteFaculty_inv in H as [->|(t & j & a & v & -> & -> & Ha & _ & _ & Hr & _)];
      [apply users_frame_refl|].
    contradict Hna. eauto using admin_caller_tier.
  - apply adminResetPassword_inv in H as (t & j & a & v & p & -> & _ & _ & Ha & _ & Hr & ->).
    contradict Hna. eauto using admin_caller_tier.
  - apply updateUserRole_inv in H as [->|(t & j & a & v & nr & -> & -> & Ha & Hsa & _)];
      [apply users_frame_refl|].
    contradict Hna. apply (admin_caller_tier db t a Ha). by rewrite Hsa.
  - apply updateOwnPassword_inv in H as (t & v & p & -> & _ & Hv & ->).
    rewrite set_users_users. by apply users_frame_password.
Qed.

(** *** The rows of the calling list are never removed nor re-owned *)

(** The columns of a student row that no request writes. *)
Definition row_identity (s : Student) : string * string * string * string :=
  (st_id s, st_name s, st_phone s, st_uploaded_by_id s).

(** Every row of [ss] is still in [d], with the same identity. *)
Definition rows_kept (ss : list Student) (d : DB) : Prop :=
  row_identity <$> ss ⊆ row_identity <$> db_students d.

Lemma rows_kept_on_students ss : on_students (rows_kept ss).
Proof. intros d d' Heq. unfold rows_kept. by rewrite Heq. Qed.

Lemma student_create_many_preserves_rows ss rows :
  se_preserves (rows_kept ss) (student_create_many rows).
Proof.
  intros d c d' Hk (added & Heq)%student_create_many_prefix.
  unfold rows_kept. rewrite Heq, fmap_app. intros x Hx. apply elem_of_app. left. by apply Hk.
Qed.

Lemma student_update_preserves_rows ss id f :
  (forall s, row_identity (f s) = row_identity s) ->
  se_preserves (rows_kept ss) (student_update id f).
Proof.
  intros Hf d u d' Hk H. apply student_update_inv in H as [_ ->].
  unfold rows_kept. simpl. by rewrite student_update_fmap_eq.
Qed.

#[local] Hint Resolve rows_kept_on_students student_create_many_preserves_rows
  student_update_preserves_rows : crm.

Lemma seed_preserves_rows ss : se_preserves (rows_kept ss) seed.
Proof. unfold seed. se_preserves_tac. Qed.

(** C10. In a reachable store, a student keeps its uploader forever: any
    later row with the same id has the same [uploadedById]. *)
Theorem uploader_immutable db db' s s' :
  reachable db -> rtc step db db' ->
  s ∈ db_students db -> s' ∈ db_students db' -> st_id s' = st_id s ->
  st_uploaded_by_id s' = st_uploaded_by_id s.
Proof.
  intros Hr Hs Hin Hin' Hid.
  assert (reachable db') as Hr' by (unfold reachable in *; by transitivity db).
  (* Along the run every row stays in the table with its id, name,
     phone and uploader: nothing deletes a student, and [uploadedById]
     is written only when the row is created. *)
  assert (rows_kept (db_students db) db') as Hk.
  { apply (steps_preserve (rows_kept (db_students db))) with db;
      [| exact Hs | unfold rows_kept; reflexivity].
    apply step_preserves; [|apply seed_preserves_rows].
    intros r. destruct r; simpl; apply se_bind_preserves; try (intros; auto with crm);
    unfold authorize, getDashboardStats, studentsPage, uploadStudents, updateStudent,
      student_update_call, createFaculty, deleteFaculty, adminResetPassword,
      updateUserRole, updateOwnPassword; se_preserves_tac. }
  pose proof (Hk (row_identity s) (list_elem_of_fmap_2 _ _ _ Hin))
    as (s'' & Heq & Hin'')%list_elem_of_fmap.
  assert (s' = s'') as ->.
  { apply (NoDup_fmap_elem_eq st_id (db_students db')); auto.
    - apply wf_student_ids. revert Hr'. apply reachable_ind; [apply initial_wf | apply wf_step].
    - unfold row_identity in Heq. simplify_eq. congruence. }
  unfold row_identity in Heq. by simplify_eq.
Qed.

(** *** The rows are well typed *)

(** Every account id is one the store handed out: a cuid, never empty. *)
Definition users_typed (db : DB) : Prop :=
  forall i u, db_users db !! i = Some u -> exists k, i = fresh_id k.

(** What the upload's [filter] and [trim] guarantee of a name and a
    phone. *)
Definition ns_typed (r : NewStudent) : Prop :=
  ns_name r <> "" /\ ns_phone r <> "" /\ ns_phone r <> "undefined" /\
  trim (ns_name r) = ns_name r /\ trim (ns_phone r) = ns_phone r.

Definition student_typed (s : Student) : Prop :=
  st_name s <> "" /\ st_phone s <> "" /\ st_phone s <> "undefined" /\
  trim (st_name s) = st_name s /\ trim (st_phone s) = st_phone s.

Definition students_typed (db : DB) : Prop := Forall student_typed (db_students db).

Lemma users_typed_on_users : on_users users_typed.
Proof. intros db db' Heq. unfold users_typed. by rewrite Heq. Qed.

Lemma students_typed_on_students : on_students students_typed.
Proof. intros db db' Heq. unfold students_typed. by rewrite Heq. Qed.

Lemma user_create_preserves_users_typed name em pw r :
  se_preserves users_typed (user_create name em pw r).
Proof.
  intros db id db' Ht H. apply user_create_inv in H as (e & -> & _ & _ & -> & ->).
  intros k w. cbn [db_users]. destruct (decide (k = fresh_id (db_next_id db))) as [->|Hne];
    [by eexists|]. rewrite lookup_insert_ne by congruence. apply Ht.
Qed.

Lemma user_update_preserves_users_typed id f : se_preserves users_typed (user_update id f).
Proof.
  intros db u db' Ht H. apply user_update_inv in H as (i & v & -> & Hv & ->).
  intros k w. rewrite set_users_users. destruct (decide (k = i)) as [->|Hne].
  - intros _. by apply (Ht i v).
  - rewrite lookup_insert_ne by congruence. apply Ht.
Qed.

Lemma user_update_role_preserves_users_typed id r :
  se_preserves users_typed (user_update_role id r).
Proof.
  unfold user_update_role. case_match; [apply user_update_preserves_users_typed|auto with crm].
Qed.

Lemma user_delete_preserves_users_typed id : se_preserves users_typed (user_delete id).
Proof.
  intros db u db' Ht H. apply user_delete_inv in H as (i & -> & _ & ->).
  intros k w. rewrite set_users_users. intros (_ & Hk)%lookup_delete_Some. by apply (Ht k w).
Qed.

Lemma student_create_many_preserves_typed rows :
  Forall ns_typed rows -> se_preserves students_typed (student_create_many rows).
Proof.
  intros Hrows db c db' Ht H. unfold student_create_many in H. se_step.
  pose proof (insert_skip_prefix (db_students db) (db_next_id db) rows) as Hp.
  destruct (insert_skip_duplicates _ _ rows) as [[ss' n'] c']. se_inv.
  destruct Hp as (added & -> & _ & _ & Hall). apply Forall_app. split; [done|].
  eapply Forall_impl; [exact Hall|]. intros s (r & Hr & Hs). rewrite Hs.
  rewrite Forall_forall in Hrows. exact (Hrows r Hr).
Qed.

Lemma student_update_preserves_typed id f :
  (forall s, st_name (f s) = st_name s) -> (forall s, st_phone (f s) = st_phone s) ->
  se_preserves students_typed (student_update id f).
Proof.
  intros Hn Hp db u db' Ht H. apply student_update_inv in H as [_ ->].
  apply Forall_fmap. eapply Forall_impl; [exact Ht|]. intros s Hs. simpl.
  case_bool_decide; [|done]. unfold student_typed in *. by rewrite Hn, Hp.
Qed.

(** The rows an upload creates are trimmed and pass its filter. *)
Lemma students_to_create_typed uid data : Forall ns_typed (students_to_create uid data).
Proof.
  apply Forall_forall. intros r (row & _ & -> & Hv)%students_to_create_spec.
  apply valid_student_spec in Hv as (Hn & Hp & Hu). unfold ns_typed in *. simpl in *.
  split_and!; [done | done | done | apply trim_idempotent | apply trim_idempotent].
Qed.

#[local] Hint Resolve users_typed_on_users students_typed_on_students
  user_create_preserves_users_typed user_update_preserves_users_typed
  user_update_role_preserves_users_typed user_delete_preserves_users_typed
  student_create_many_preserves_typed student_update_preserves_typed
  students_to_create_typed : crm.

Lemma handle_preserves_typed r :
  se_preserves users_typed (handle r) /\ se_preserves students_typed (handle r).
Proof.
  split; destruct r; simpl; apply se_bind_preserves; try (intros; auto with crm);
  unfold authorize, getDashboardStats, studentsPage, uploadStudents, updateStudent,
    student_update_call, createFaculty, deleteFaculty, adminResetPassword,
    updateUserRole, updateOwnPassword; se_preserves_tac.
Qed.

Lemma typed_step db db' :
  users_typed db /\ students_typed db -> step db db' -> users_typed db' /\ students_typed db'.
Proof.
  intros [Hu Hs] Hst. split.
  - revert Hu Hst. apply step_preserves; [apply handle_preserves_typed|].
    unfold seed. se_preserves_tac.
  - revert Hs Hst. apply step_preserves; [apply handle_preserves_typed|].
    unfold seed. se_preserves_tac.
Qed.

Lemma initial_typed : users_typed initial_db /\ students_typed initial_db.
Proof.
  unfold initial_db. split; apply run_store_preserves; unfold seed; try se_preserves_tac.
  - intros i u. simpl. by rewrite lookup_empty.
  - constructor.
Qed.

(** C9. Every reachable store is well typed beyond the schema: each
    account id is a cuid the store handed out (never empty), and each
    student row has a non-empty, trimmed name and phone, the phone never
    the text "undefined". *)
Theorem reachable_typed db : reachable db -> users_typed db /\ students_typed db.
Proof.
  apply (reachable_ind (fun d => users_typed d /\ students_typed d));
    [apply initial_typed | apply typed_step].
Qed.

(** *** No account is locked out for good *)

(** ** Sessions

    A request carries the session cookie next-auth set at sign-in: a JWT
    it signed, which names the user who signed in ([token_of], the [jwt]
    callback returning the token unchanged).  A client cannot make one
    up.  [Server] adds to the store the tokens issued so far, and [sstep]
    serves only requests that carry none of them or an issued one; a
    successful sign-in issues the token of the user it returns.  [step]
    above allows any token: it over-approximates [sstep]
    ([sstep_step]), so its invariants hold for the stores of
    [sreachable].  Tokens are never revoked: the session is a
    stateless JWT, and signing out only deletes the cookie. *)
Record Server : Type := mkServer { srv_db : DB; issued : list Token }.

(** The token a sign-in issues: [token_of] the row [authorize] returns. *)
Definition issue (r : Request) (resp : Response) : list Token :=
  match r, resp with
  | SignIn _ _, RSignIn (Some (id, u)) => [token_of id u]
  | _, _ => []
  end.

(** One request served: its writes, and the token it issues. *)
Definition serve (r : Request) (s : Server) : Server :=
  match handle r (srv_db s) with
  | Ok resp db' => mkServer db' (issue r resp ++ issued s)
  | Err _ => s
  end.

(** The request's cookie, if any, is one the server issued. *)
Definition authentic (s : Server) (r : Request) : Prop :=
  forall t, request_token r = Some t -> t ∈ issued s.

Inductive sstep : Server -> Server -> Prop :=
  | sstep_request r s : authentic s r -> sstep s (serve r s)
  | sstep_seed s : sstep s (mkServer (run_store seed (srv_db s)) (issued s)).

Definition sinitial : Server := mkServer initial_db [].

Definition sreachable (s : Server) : Prop := rtc sstep sinitial s.

Lemma serve_db r s : srv_db (serve r s) = run_store (handle r) (srv_db s).
Proof. unfold serve, run_store. by destruct (handle r (srv_db s)). Qed.

Lemma sstep_step s s' : sstep s s' -> step (srv_db s) (srv_db s').
Proof. destruct 1; [rewrite serve_db |]; constructor. Qed.

Lemma sreachable_reachable s : sreachable s -> reachable (srv_db s).
Proof.
  unfold sreachable, reachable. intros H. change initial_db with (srv_db sinitial).
  induction H as [|x y z Hxy _ IH]; [done|]. eapply rtc_l; [apply sstep_step, Hxy | exact IH].
Qed.

Lemma sreachable_wf s : sreachable s -> db_wf (srv_db s).
Proof. intros H. exact (reachable_ind _ initial_wf wf_step _ (sreachable_reachable s H)). Qed.

(** A sign-in request carries no cookie: it is always served. *)
Lemma authentic_signin s e p : authentic s (SignIn e p).
Proof. by intros t. Qed.

(** A Super Admin's session resets any account's password. *)
Lemma super_reset_serve s t i a j v p :
  signed_in (srv_db s) t i a -> user_role a = SUPER_ADMIN -> db_users (srv_db s) !! j = Some v ->
  password_too_short (Some p) = false ->
  serve (AdminResetPassword (Some t) [("id", j); ("newPassword", p)]) s =
    mkServer (set_users (srv_db s) (<[j := set_password (mkHash 10 p) v]> (db_users (srv_db s))))
             (issued s).
Proof.
  intros Hsi Hsa Hj Hp.
  pose proof (adminResetPassword_ok (srv_db s) t i a [("id", j); ("newPassword", p)] j v p Hsi
                ltac:(by rewrite Hsa) ltac:(by rewrite Hsa) eq_refl eq_refl Hp Hj) as Hreset.
  unfold serve. simpl. by rewrite (se_bind_ok _ _ _ _ _ Hreset).
Qed.


(** C8. Re-running the seed cannot restore access: whatever the
    password of [admin@college.edu] has become, [seed.ts]'s upsert has
    an empty [update], so on a store that has that row the script writes
    nothing.  A Super Admin who forgot the password and holds no session
    has no way back in. *)
Theorem seed_no_recovery db :
  db_wf db -> email_taken (db_users db) "admin@college.edu" = true -> run_store seed db = db.
Proof.
  intros Hwf (i & u & Hi & He)%email_taken_spec. apply run_store_ok with tt.
  unfold seed. rewrite (se_bind_ok _ _ _ _ _ (eq_refl (bcrypt_hash (Some "admin123") 10 db))).
  rewrite <- He, (se_bind_ok _ _ _ _ _ (user_find_by_email_some db i u Hwf Hi)). reflexivity.
Qed.

End Server.

(** ** A concrete run

    The seeded Super Admin signs in (its token), uploads one row and
    records a call on it; the credential provider's e-mail check plays no
    part in these requests. *)

Definition tok_seeded : Token :=
  mkToken (fresh_id 0) (Some "Super Admin") (Some "admin@college.edu").

Definition run_row : JsObject :=
  <["Name" := JStr " Ravi "]> (<["Phone" := JNum 9000000001]> ∅).

Definition run_db1 : DB :=
  run_store (handle accept_any_email (UploadStudents (Some tok_seeded) [run_row])) initial_db.

Definition run_db2 : DB :=
  run_store (handle accept_any_email (UpdateStudent (Some tok_seeded) (fresh_id 1)
                                    [("status", "INTERESTED"); ("interest", "MCA")])) run_db1.

Definition run_s1 : Student :=
  mkStudent (fresh_id 1) "Ravi" "9000000001" None None NOT_CALLED None None None (fresh_id 0).

Definition run_s2 : Student :=
  mkStudent (fresh_id 1) "Ravi" "9000000001" None None INTERESTED (Some MCA) None
    (Some "Super Admin") (fresh_id 0).

Lemma run_db1_reachable : reachable accept_any_email run_db1.
Proof. apply rtc_once. constructor. Qed.

Lemma run_db1_db2 : rtc (step accept_any_email) run_db1 run_db2.
Proof. apply rtc_once. constructor. Qed.

Lemma reachable_has_super_witness : reachable accept_any_email run_db2 /\ has_super run_db2.
Proof.
  assert (reachable accept_any_email run_db2) as Hr
    by (eapply rtc_r; [apply run_db1_reachable | constructor]).
  split; [exact Hr|]. apply (reachable_has_super accept_any_email run_db2), Hr.
Defined.

Lemma non_admin_frame_witness :
  ~ admin_caller demo_db (Some tok_faculty) /\
  users_frame (Some id_faculty) (db_users demo_db)
    (db_users (run_store (handle accept_any_email (DeleteFaculty (Some tok_faculty)
                                                 [("id", id_admin)])) demo_db)).
Proof.
  assert (~ admin_caller demo_db (Some tok_faculty)) as Hna.
  { intros (t & a & Ht & Ha & Hr). injection Ht as <-. vm_compute in Ha.
    injection Ha as <-. discriminate Hr. }
  split; [exact Hna|].
  apply (non_admin_frame accept_any_email (DeleteFaculty (Some tok_faculty) [("id", id_admin)])
           demo_db Hna).
Defined.

Lemma uploader_immutable_witness :
  reachable accept_any_email run_db1 /\ rtc (step accept_any_email) run_db1 run_db2 /\
  run_s1 ∈ db_students run_db1 /\ run_s2 ∈ db_students run_db2 /\
  st_id run_s2 = st_id run_s1 /\ st_uploaded_by_id run_s2 = st_uploaded_by_id run_s1.
Proof.
  assert (run_s1 ∈ db_students run_db1) as H1 by (vm_compute; left).
  assert (run_s2 ∈ db_students run_db2) as H2 by (vm_compute; left).
  split_and!; [apply run_db1_reachable | apply run_db1_db2 | exact H1 | exact H2
              | reflexivity |].
  apply (uploader_immutable accept_any_email run_db1 run_db2 run_s1 run_s2);
    [apply run_db1_reachable | apply run_db1_db2 | exact H1 | exact H2 | reflexivity].
Defined.

Definition seeded_super : User :=
  mkUser (Some "Super Admin") "admin@college.edu" (mkHash 10 "admin123") SUPER_ADMIN.

Lemma reachable_typed_witness :
  reachable accept_any_email run_db1 /\ users_typed run_db1 /\ students_typed run_db1.
Proof.
  split; [apply run_db1_reachable|].
  apply (reachable_typed accept_any_email run_db1), run_db1_reachable.
Defined.

(** The server after the seeded Super Admin signed in with the seed's
    password: its session is issued. *)
Definition s_signed : Server :=
  serve accept_any_email (SignIn (Some "admin@college.edu") (Some "admin123")) sinitial.

Definition tok_signed : Token := token_of (fresh_id 0) seeded_super.


(** The seeded account's password after a change nobody remembers. *)
Definition db_forgotten : DB :=
  match db_users initial_db !! fresh_id 0 with
  | Some v => set_users initial_db (<[fresh_id 0 := set_password (mkHash 10 "forgotten") v]>
                                     (db_users initial_db))
  | None => initial_db
  end.

Lemma seed_no_recovery_witness :
  db_wf db_forgotten /\ email_taken (db_users db_forgotten) "admin@college.edu" = true /\
  run_store seed db_forgotten = db_forgotten.
Proof.
  assert (db_wf db_forgotten) as Hwf.
  { assert (exists v, db_users initial_db !! fresh_id 0 = Some v) as [v Hv]
      by (eexists; vm_compute; reflexivity).
    unfold db_forgotten. rewrite Hv. by apply set_password_wf; [apply initial_wf|]. }
  assert (email_taken (db_users db_forgotten) "admin@college.edu" = true) as He
    by (vm_compute; reflexivity).
  split_and!; [exact Hwf | exact He | exact (seed_no_recovery db_forgotten Hwf He)].
Defined.

End System.
