(* ===== verification/Browser.v ===== *)
(** * The browser: pages, redirects, the session cookie and sign-out

    A browser holds the session cookie (the token next-auth issued at
    sign-in, or none) and asks the server for paths.  [/login] is a
    public page ([src/app/login/page.tsx]); every path under [/dashboard]
    is rendered inside [DashboardLayout] ([src/app/dashboard/layout.tsx]),
    which redirects to [/login] without a session, and then by its page,
    which may redirect on its own ([FacultyPage] sends the users below the
    Admin tier to [/dashboard]).  [visit] is one request for a path and
    [browse] follows the redirects, with fuel as the bound on the number
    of requests.

    [BrowserState] adds the screen's dialogs: the profile dialog of
    [UserProfileDialog] ([src/components/user-profile-dialog.tsx]) and its
    "Sign Out" form, whose action ([signOutAction] of the layout) calls
    next-auth's [signOut]: the cookie is deleted.  Where next-auth sends
    the browser after [signIn] and [signOut] is set by [auth.config], a
    file that is not in the repository: the model keeps the location and
    lets the next navigation show what the user sees.

    The theorems: every navigation ends on a rendered screen within three
    requests (no redirect loop), and sign-out is effective (every page of
    the dashboard ends on the login form, and no request of the browser
    writes to the store). *)

From S2P Require Import Prelude JsValue Schema Store Auth Fixtures Accounts Students ClientView Views System.
Import Js Prisma Auth Accounts Students ClientView System.

Module Browser.
Import Dashboard Layout LoginPage.

(** What the browser shows after a request. *)
Inductive Screen : Type :=
  | SLoginForm
  | SPage (links : list string) (p : PageView)
  | SNotFound.

Inductive Answer : Type :=
  | ARedirect (path : string)
  | ARender (s : Screen).

(** The paths rendered inside [DashboardLayout]. *)
Definition is_dashboard_path (path : string) : bool := String.prefix "/dashboard" path.

(** One request for [path]: the login page is public; under
    [/dashboard] the layout runs first ([redirect("/login")] without a
    session), then the page, whose [redirect] calls replace its content. *)
Definition visit (path : string) (tok : option Token) : Act Answer :=
  if String.eqb path "/login" then se_ret (ARender SLoginForm) else
  if is_dashboard_path path then
    let* lv := dashboardLayout tok in
    match lv with
    | LayoutRedirect p => se_ret (ARedirect p)
    | LayoutNav links _ =>
        let* pv := route path tok in
        match pv with
        | PFaculty RedirectLogin => se_ret (ARedirect "/login")
        | PFaculty RedirectDashboard => se_ret (ARedirect "/dashboard")
        | PNotFound => se_ret (ARender SNotFound)
        | p => se_ret (ARender (SPage links p))
        end
    end
  else se_ret (ARender SNotFound).

(** Follow the redirects of a navigation, one request per unit of fuel;
    [None] when the fuel runs out before a screen is rendered. *)
Fixpoint browse (fuel : nat) (path : string) (tok : option Token)
    : Act (option (string * Screen)) :=
  match fuel with
  | O => se_ret None
  | S n =>
      let* a := visit path tok in
      match a with
      | ARender s => se_ret (Some (path, s))
      | ARedirect p => browse n p tok
      end
  end.

(** [UserProfileDialog]'s state: [isOpen]. *)
Record ProfileDialog : Type := mkProfileDialog { isOpen : bool }.

(** The browser: the session cookie, the location and the profile
    dialog. *)
Record BrowserState : Type := mkBrowserState {
  cookie : option Token;
  location : string;
  profile : ProfileDialog;
}.

(** What the profile footer and the dialog show: the initials, the
    name, the e-mail, and the disabled e-mail input's
    [value={user?.email || ''}]. *)
Definition profileView (user : SessionUser) : string * option string * option string * string :=
  (initials user, su_name user, su_email user, default "" (su_email user)).

(** [signOutAction] of [DashboardLayout]: [await signOut()] deletes the
    session cookie; the dialog it was posted from is gone with the page. *)
Definition signOutAction (b : BrowserState) : BrowserState :=
  mkBrowserState None (location b) (mkProfileDialog false).

(** What the user does. *)
Inductive UserAction : Type :=
  | Navigate (path : string)
  | SubmitLogin (email password : string)
  | OpenProfile                          (** the [DialogTrigger] *)
  | CloseProfile                         (** [onOpenChange(false)] *)
  | SubmitProfile (newPassword : string) (** the profile form *)
  | SignOut.                             (** the "Sign Out" form *)

Section Step.
Variable zod_email html_email : string -> bool.

(** One user action: the new browser state and, for a navigation, the
    screen it ends on, for a form, the toast it shows. *)
Definition browser_step (b : BrowserState) (act : UserAction)
    : Act (BrowserState * option (string * Screen) * option Toast) :=
  match act with
  | Navigate path =>
      let* r := browse 3 path (cookie b) in
      se_ret (mkBrowserState (cookie b) (default path (fst <$> r)) (profile b), r, None)
  | SubmitLogin email password =>
      let* res := loginSubmit zod_email html_email email password in
      match res with
      | Redirected id u => se_ret (mkBrowserState (Some (token_of id u)) (location b) (profile b),
                                   None, None)
      | _ => se_ret (b, None, None)
      end
  | OpenProfile => se_ret (mkBrowserState (cookie b) (location b) (mkProfileDialog true), None, None)
  | CloseProfile => se_ret (mkBrowserState (cookie b) (location b) (mkProfileDialog false), None, None)
  | SubmitProfile newPassword =>
      if negb (password_input_valid newPassword) then se_ret (b, None, None) else
      let* toast := profileSubmit (cookie b) [("newPassword", newPassword)] in
      match toast with
      | ToastInfo _ _ => se_ret (mkBrowserState (cookie b) (location b) (mkProfileDialog false),
                                None, Some toast)
      | ToastError _ => se_ret (b, None, Some toast)
      end
  | SignOut => se_ret (signOutAction b, None, None)
  end.
End Step.

(** ** Navigation ends *)
Section Navigation.

(** The Faculty Management page for any session cookie: the list for the
    Admin tier, a redirect to the dashboard otherwise. *)
Lemma facultyPage_some db t :
  facultyPage (Some t) db =
    Ok (if not_admin_or_super (su_role (session_of db t)) then RedirectDashboard
        else FacultyList (map_to_list (db_users db)) (session_of db t)) db.
Proof.
  unfold facultyPage. rewrite (se_bind_ok _ _ _ _ _ (auth_some db t)).
  unfold user_find_many. se_step. by destruct (not_admin_or_super _).
Qed.

Lemma dashboardLayout_some db t :
  exists links, dashboardLayout (Some t) db = Ok (LayoutNav links (session_of db t)) db.
Proof. unfold dashboardLayout. rewrite (se_bind_ok _ _ _ _ _ (auth_some db t)). by eexists. Qed.

Lemma dashboard_path_not_login path : is_dashboard_path path = true -> path <> "/login".
Proof. by intros Hp ->. Qed.

Lemma visit_login tok db : visit "/login" tok db = Ok (ARender SLoginForm) db.
Proof. reflexivity. Qed.

Lemma visit_not_found path tok db :
  path <> "/login" -> is_dashboard_path path = false -> visit path tok db = Ok (ARender SNotFound) db.
Proof. intros Hl Hd. unfold visit. by rewrite (proj2 (String.eqb_neq _ _) Hl), Hd. Qed.

(** Without a session cookie the layout sends every dashboard path to
    the login page. *)
Lemma visit_signed_out path db :
  is_dashboard_path path = true -> visit path None db = Ok (ARedirect "/login") db.
Proof.
  intros Hd. unfold visit.
  by rewrite (proj2 (String.eqb_neq _ _) (dashboard_path_not_login _ Hd)), Hd.
Qed.

(** Every page answers a session cookie; only the Faculty Management
    page redirects, and only to the dashboard. *)
Lemma route_some path t db :
  exists p, route path (Some t) db = Ok p db /\ p <> PFaculty RedirectLogin /\
    (p = PFaculty RedirectDashboard -> path = "/dashboard/faculty").
Proof.
  unfold route. destruct (String.eqb_spec path "/dashboard") as [->|H1]; cbv beta iota.
  { destruct (dashboardPage_signed_in db t) as (tc & card & ic & sc & Hv).
    rewrite (se_bind_ok _ _ _ _ _ Hv). by eexists. }
  destruct (String.eqb_spec path "/dashboard/students") as [->|H2]; cbv beta iota.
  { destruct (studentsPage_ok db t) as (ss & Hss). rewrite (se_bind_ok _ _ _ _ _ Hss). by eexists. }
  destruct (String.eqb_spec path "/dashboard/faculty") as [->|H3]; cbv beta iota.
  { rewrite (se_bind_ok _ _ _ _ _ (facultyPage_some db t)).
    eexists. split; [reflexivity|]. by destruct (not_admin_or_super _). }
  by eexists.
Qed.

(** With a session cookie a dashboard path renders, or (the Faculty
    Management page below the Admin tier) redirects to the dashboard. *)
Lemma visit_signed_in path t db :
  is_dashboard_path path = true ->
  exists a, visit path (Some t) db = Ok a db /\
    ((exists s, a = ARender s) \/ (a = ARedirect "/dashboard" /\ path = "/dashboard/faculty")).
Proof.
  intros Hd. unfold visit.
  rewrite (proj2 (String.eqb_neq _ _) (dashboard_path_not_login _ Hd)), Hd.
  destruct (dashboardLayout_some db t) as (links & Hl).
  rewrite (se_bind_ok _ _ _ _ _ Hl). cbv beta iota.
  destruct (route_some path t db) as (p & Hr & Hnl & Hrd).
  rewrite (se_bind_ok _ _ _ _ _ Hr).
  destruct p as [v|ss|[| |us su]|]; try done; eexists; (split; [reflexivity|]);
    try (left; by eexists). right. auto.
Qed.

Lemma visit_dashboard t db : exists s, visit "/dashboard" (Some t) db = Ok (ARender s) db.
Proof.
  destruct (visit_signed_in "/dashboard" t db eq_refl) as (a & Ha & [[s ->]|[_ ?]]); [|done].
  by exists s.
Qed.

(** More fuel gives the same screen once one is reached. *)
Lemma browse_mono n m path tok db r db' :
  browse n path tok db = Ok (Some r) db' -> n <= m -> browse m path tok db = Ok (Some r) db'.
Proof.
  revert m path db. induction n as [|n IH]; intros m path db H Hnm; [discriminate|].
  destruct m as [|m]; [lia|]. simpl in *. unfold se_bind in *.
  destruct (visit path tok db) as [[p|s] d|e]; [|done|done].
  apply IH; [done | lia].
Qed.

Lemma browse_three path tok db :
  exists final s, browse 3 path tok db = Ok (Some (final, s)) db.
Proof.
  simpl. unfold se_bind.
  destruct (String.eqb_spec path "/login") as [->|Hl].
  { rewrite visit_login. by do 2 eexists. }
  destruct (is_dashboard_path path) eqn:Hd.
  2:{ rewrite visit_not_found by done. by do 2 eexists. }
  destruct tok as [t|].
  - destruct (visit_signed_in path t db Hd) as (a & -> & [[s ->]|[-> _]]); [by do 2 eexists|].
    destruct (visit_dashboard t db) as (s & ->). by do 2 eexists.
  - rewrite visit_signed_out, visit_login by done. by do 2 eexists.
Qed.

(** C20. No redirect loop: from any path, with or without a session
    cookie, following the redirects of the layout and the pages ends on
    a rendered screen within three requests, and more requests change
    nothing; browsing writes nothing. *)
Theorem browse_terminates path tok db :
  exists final s, forall n, 3 <= n -> browse n path tok db = Ok (Some (final, s)) db.
Proof.
  destruct (browse_three path tok db) as (final & s & H).
  exists final, s. intros n Hn. by apply (browse_mono 3).
Qed.

End Navigation.

(** ** Sign-out *)
Section SignOut.
Variable zod_email html_email : string -> bool.

(** A request without a session cookie writes nothing: every action
    throws or returns before its write, and the sign-in is a read. *)
Lemma handle_no_cookie r db :
  request_token r = None -> run_store (handle zod_email r) db = db.
Proof.
  destruct r; simpl; intros H; subst; unfold run_store; simpl; try reflexivity.
  destruct (se_bind _ _ db) as [a d|] eqn:E; [|done].
  exact (se_bind_reads_only _ _ (authorize_reads_only _ _ _) (fun _ => se_ret_reads_only _) _ _ _ E).
Qed.

(** C21. Sign-out is effective: the "Sign Out" form deletes the session
    cookie and closes the profile dialog; from then on every page of the
    dashboard ends on the login form, and no request the browser sends
    writes to the store. *)
Theorem signOut_effective b db :
  exists b', browser_step zod_email html_email b SignOut db = Ok (b', None, None) db /\
    cookie b' = None /\ isOpen (profile b') = false /\
    (forall path, is_dashboard_path path = true ->
       browse 3 path (cookie b') db = Ok (Some ("/login", SLoginForm)) db) /\
    (forall r, request_token r = cookie b' -> run_store (handle zod_email r) db = db).
Proof.
  eexists. split; [reflexivity|]. split_and!; [done | done | |].
  - intros path Hd. simpl. unfold se_bind. by rewrite visit_signed_out, visit_login.
  - intros r. apply handle_no_cookie.
Qed.
End SignOut.

Lemma signOut_effective_witness :
  exists b', browser_step accept_any_email accept_any_email
               (mkBrowserState (Some tok_admin) "/dashboard" (mkProfileDialog true)) SignOut demo_db =
             Ok (b', None, None) demo_db /\
    cookie b' = None /\ isOpen (profile b') = false /\
    browse 3 "/dashboard/faculty" (cookie b') demo_db = Ok (Some ("/login", SLoginForm)) demo_db.
Proof.
  destruct (signOut_effective accept_any_email accept_any_email
              (mkBrowserState (Some tok_admin) "/dashboard" (mkProfileDialog true)) demo_db)
    as (b' & H1 & H2 & H3 & H4 & _).
  exists b'. split_and!; [exact H1 | exact H2 | exact H3 | apply H4; reflexivity].
Defined.

End Browser.
